(** * The watsonx demo scripts: tool dispatch, the ReAct loop, and the
      pipeline scripts, as Rocq definitions.

    The development follows the Python sources:
    - [examples/wxai/09_simple_agents.py] (module [Simple]; the same
      [call_tools] is repeated in 10_complex_agents.py and
      12_agent_supervisor.py),
    - [examples/wxai/11_rag_agent.py] (module [Rag]),
    - [examples/wxai/13_ai_service_deploy.py] (module [Service]),
    - [pipelines/chat_invoke.py], [pipelines/read_from_cos.py],
      [examples/wxai/01_setup_environment.py] and
      [examples/wxai/05_create_vector_index.py] (module [Scripts]).

    Python [str] is modelled by [string]: every character stands for one
    code point (the check marks and warning signs of the scripts' own
    messages are written as they stand in the sources and take their UTF-8
    bytes).  Python [float] is IEEE binary64, which is what Rocq's
    primitive floats are.  Effects are explicit: tools and the model caller
    thread a world state, and every call leaves an event in a log. *)

From Stdlib Require Import String Ascii List ZArith Floats Lia.
From Stdlib Require Import Decimal DecimalString.
From stdpp Require Import base option list gmap strings.
Import ListNotations.

Local Open Scope string_scope.
Local Open Scope list_scope.

(** ** Python values and exceptions *)

Module Py.

Inductive ExcType :=
| ZeroDivisionError
| ValidationError
| IndexError
| GraphRecursionError
| OtherException.

(** An exception instance: its class and the text [str(e)] gives. *)
Record Exception := mkException { exc_type : ExcType; exc_text : string }.

Definition str_exc (e : Exception) : string := exc_text e.

Inductive Value :=
| PyFloat (x : float)
| PyStr (s : string)
| PyNone.

(** A Python call either returns or raises. *)
Definition Result (A : Type) : Type := Exception + A.

(** [s[:n]] *)
Definition slice_to (n : nat) (s : string) : string := String.substring 0 n s.

(** [needle in s] *)
Fixpoint contains (needle s : string) {struct s} : bool :=
  if String.prefix needle s then true
  else match s with
       | EmptyString => false
       | String _ s' => contains needle s'
       end.

(** [c.lower()] on a character; letters outside A-Z are left alone. *)
Definition lower_char (c : ascii) : ascii :=
  let n := nat_of_ascii c in
  if (65 <=? n)%nat && (n <=? 90)%nat then ascii_of_nat (n + 32) else c.

Fixpoint lower (s : string) : string :=
  match s with
  | EmptyString => EmptyString
  | String c s' => String (lower_char c) (lower s')
  end.

(** [str(n)] for a non-negative integer. *)
Definition str_nat (n : nat) : string := NilEmpty.string_of_uint (Nat.to_uint n).

(** The newline character, ["\n"] in the sources. *)
Definition nl : string := String (ascii_of_nat 10) "".

End Py.

Import Py.

(** ** Messages, tool calls and tools *)

Definition Args := gmap string Value.

(** A tool call is a dict; the sources read ["name"] by index and ["args"],
    ["id"] with [.get] and a default, so those two keys may be absent. *)
Record ToolCall := mkToolCall {
  tc_name : string;
  tc_args : option Args;
  tc_id : option string
}.

(** [tool_call.get("args", {})] *)
Definition get_args (tc : ToolCall) : Args := default ∅ (tc_args tc).

(** [tool_call.get("id", "")] *)
Definition get_id (tc : ToolCall) : string := default "" (tc_id tc).

Inductive Message :=
| HumanMessage (content : string)
| AIMessage (content : string) (tool_calls : list ToolCall)
| ToolMessage (content : string) (tool_call_id : string).

Definition content (m : Message) : string :=
  match m with
  | HumanMessage c => c
  | AIMessage c _ => c
  | ToolMessage c _ => c
  end.

(** [hasattr(m, 'tool_calls') and m.tool_calls]: the requests of a message,
    empty for the classes that have no such attribute. *)
Definition tool_calls_of (m : Message) : list ToolCall :=
  match m with
  | AIMessage _ tcs => tcs
  | _ => []
  end.

Definition is_AIMessage (m : Message) : bool :=
  match m with AIMessage _ _ => true | _ => false end.

Definition is_HumanMessage (m : Message) : bool :=
  match m with HumanMessage _ => true | _ => false end.

Definition is_ToolMessage (m : Message) : bool :=
  match m with ToolMessage _ _ => true | _ => false end.

(** [hasattr(m, 'tool_calls') and m.tool_calls] as a truth value. *)
Definition has_tool_calls (m : Message) : bool :=
  negb (bool_decide (tool_calls_of m = [])).

(** What the chat model returns: always an assistant message. *)
Record AIResponse := mkAIResponse {
  ai_content : string;
  ai_tool_calls : list ToolCall
}.

Definition to_message (r : AIResponse) : Message :=
  AIMessage (ai_content r) (ai_tool_calls r).

(** Events left in the log: the two kinds of outside calls, and lines
    printed to standard output. *)
Inductive Event :=
| ModelCalled (messages : list Message)
| ToolInvoked (name : string) (args : Args)
| Printed (line : string).

(** [str(v)]; [repr_float] is the float formatting of the Python runtime. *)
Definition str (repr_float : float -> string) (v : Value) : string :=
  match v with
  | PyFloat x => repr_float x
  | PyStr s => s
  | PyNone => "None"
  end.

(** ** Computations that act on the outside world *)

Section World.

(** The state of the outside world the tools and the model act on. *)
Variable W : Type.

Record World := mkWorld { env : W; log : list Event }.

Definition M (A : Type) : Type := World -> A * World.

Definition ret {A} (a : A) : M A := fun w => (a, w).

Definition bind {A B} (m : M A) (k : A -> M B) : M B :=
  fun w => let (a, w') := m w in k a w'.

Definition emit (e : Event) : M unit :=
  fun w => (tt, {| env := env w; log := log w ++ [e] |}).

Definition lift_env {A} (f : W -> A * W) : M A :=
  fun w => let (a, e') := f (env w) in (a, {| env := e'; log := log w |}).

Record Tool := mkTool {
  name : string;
  func : Args -> W -> Result Value * W
}.

(** [tool_func.invoke(tool_args)] *)
Definition tool_invoke (t : Tool) (args : Args) : M (Result Value) :=
  bind (emit (ToolInvoked (name t) args)) (fun _ => lift_env (func t args)).

(** The [for t in tools: if t.name == tool_name: ... break] search. *)
Fixpoint find_tool (tools : list Tool) (tool_name : string) : option Tool :=
  match tools with
  | [] => None
  | t :: rest => if String.eqb (name t) tool_name then Some t
                 else find_tool rest tool_name
  end.

(** [model_with_tools.invoke(messages)] for a chat model [model]. *)
Definition model_invoke (model : list Message -> W -> AIResponse * W)
    (messages : list Message) : M Message :=
  bind (emit (ModelCalled messages)) (fun _ =>
  bind (lift_env (model messages)) (fun r =>
  ret (to_message r))).

End World.

Arguments mkWorld {W} _ _.
Arguments env {W} _.
Arguments log {W} _.
Arguments ret {W A} _ _.
Arguments bind {W A B} _ _ _.
Arguments emit {W} _ _.
Arguments lift_env {W A} _ _.
Arguments mkTool {W} _ _.
Arguments name {W} _.
Arguments func {W} _ _ _.
Arguments tool_invoke {W} _ _ _.
Arguments find_tool {W} _ _.
Arguments model_invoke {W} _ _ _.

Notation "'do' x <- c ; k" := (bind c (fun x => k))
  (at level 10, x name, c at level 100, k at level 200).

(** [messages[-1]] *)
Definition last_message (messages : list Message) : Result Message :=
  match last messages with
  | Some m => inr m
  | None => inl (mkException IndexError "list index out of range")
  end.

(** ** The graph every agent file builds

    [workflow.add_node("agent", call_model)], [add_node("tools", call_tools)],
    [add_edge(START, "agent")], the conditional edges out of ["agent"] and
    [add_edge("tools", "agent")]. *)

Inductive Node := agent | tools_node | END.

(** [should_continue], the same in every agent file. *)
Definition should_continue (messages : list Message) : Result Node :=
  match last_message messages with
  | inl e => inl e
  | inr last_message =>
      if is_AIMessage last_message && has_tool_calls last_message
      then inr tools_node
      else inr END
  end.

(** ** The graph engine

    The sources hand the graph to [workflow.compile()] and call
    [graph.invoke(inputs, config)]; the engine itself (langgraph) is not part
    of the repository.  Its loop is modelled here on the specification's
    Loop Controller. *)

Section Engine.

Context {W : Type}.

(** The two node functions of the compiled graph. *)
Variable call_model : list Message -> M W (list Message).
Variable call_tools : list Message -> M W (Result (list Message)).

(** Modelled from the spec: the reducer of [MessagesState] (langgraph, not
    under src/).  The conversation is append-only during a run. *)
Definition add_messages (left right : list Message) : list Message :=
  left ++ right.

(** Modelled from the spec: where the Loop Controller stands (the engine's
    own state is not under src/): the node to run next, the conversation,
    and the iteration counter, which counts node executions. *)
Record Config := mkConfig {
  node : Node;
  messages : list Message;
  step : nat
}.

(** Modelled from the spec: what one iteration leads to. *)
Inductive Outcome :=
| Continue (c : Config)
| Finished (messages : list Message)
| Raised (e : Exception).

(** Modelled from the spec: the diagnostic of a run that hit its iteration
    ceiling (the engine's error text is not under src/). *)
Definition recursion_error (recursion_limit : nat) : Exception :=
  mkException GraphRecursionError
    ("Recursion limit of " +:+ str_nat recursion_limit
     +:+ " reached without hitting a stop condition.").

(** Modelled from the spec: one iteration of the Loop Controller (the
    engine's loop is not under src/).  A run that has reached [END] is
    finished; a run whose iteration counter would exceed the ceiling fails
    closed with a diagnostic; otherwise the current node runs, its
    messages are appended, and the edges declared in the source choose the
    next node. *)
Definition superstep (recursion_limit : nat) (c : Config) : M W Outcome :=
  match node c with
  | END => ret (Finished (messages c))
  | agent =>
      if (recursion_limit <=? step c)%nat
      then ret (Raised (recursion_error recursion_limit))
      else
        do update <- call_model (messages c);
        let messages' := add_messages (messages c) update in
        match should_continue messages' with
        | inl e => ret (Raised e)
        | inr next => ret (Continue (mkConfig next messages' (S (step c))))
        end
  | tools_node =>
      if (recursion_limit <=? step c)%nat
      then ret (Raised (recursion_error recursion_limit))
      else
        do r <- call_tools (messages c);
        match r with
        | inl e => ret (Raised e)
        | inr update =>
            ret (Continue (mkConfig agent (add_messages (messages c) update)
                                    (S (step c))))
        end
  end.

(** Modelled from the spec: the engine's [while] loop, with [fuel]
    bounding the number of iterations the model looks at; [None] means the
    fuel ran out before the run ended. *)
Fixpoint run_loop (fuel : nat) (recursion_limit : nat) (c : Config)
    : M W (option (Result (list Message))) :=
  match fuel with
  | O => ret None
  | S fuel' =>
      do o <- superstep recursion_limit c;
      match o with
      | Continue c' => run_loop fuel' recursion_limit c'
      | Finished messages => ret (Some (inr messages))
      | Raised e => ret (Some (inl e))
      end
  end.

(** Modelled from the spec: [graph.invoke({"messages": inputs},
    {"recursion_limit": n})]; the run starts at the node [START] leads
    to. *)
Definition invoke (fuel : nat) (inputs : list Message) (recursion_limit : nat)
    : M W (option (Result (list Message))) :=
  run_loop fuel recursion_limit (mkConfig agent (add_messages [] inputs) 0).

(** The configuration after [n] iterations, and the world then; a
    finished or failed run stays where it is. *)
Fixpoint iterate (n : nat) (recursion_limit : nat) (c : Config) (w : World W)
    : Config * World W :=
  match n with
  | O => (c, w)
  | S n' =>
      match superstep recursion_limit c w with
      | (Continue c', w') => iterate n' recursion_limit c' w'
      | (_, _) => (c, w)
      end
  end.

End Engine.


(** ** examples/wxai/09_simple_agents.py *)

Module Simple.
Section Defs.

Context {W : Type}.
Variable repr_float : float -> string.
Variable model : list Message -> W -> AIResponse * W.
Variable tools : list (Tool W).

Definition call_model (messages : list Message) : M W (list Message) :=
  do response <- model_invoke model messages;
  ret [response].

(** The body of [for tool_call in last_message.tool_calls]. *)
Definition call_tool (tool_call : ToolCall) (tool_messages : list Message)
    : M W (list Message) :=
  let tool_name := tc_name tool_call in
  let tool_args := get_args tool_call in
  match find_tool tools tool_name with
  | Some tool_func =>
      do r <- tool_invoke tool_func tool_args;
      match r with
      | inr result =>
          ret (tool_messages ++
               [ToolMessage (str repr_float result) (get_id tool_call)])
      | inl e =>
          ret (tool_messages ++
               [ToolMessage ("Error: " +:+ str_exc e) (get_id tool_call)])
      end
  | None => ret tool_messages
  end.

Fixpoint for_tool_calls (calls : list ToolCall) (tool_messages : list Message)
    : M W (list Message) :=
  match calls with
  | [] => ret tool_messages
  | tool_call :: rest =>
      do tool_messages' <- call_tool tool_call tool_messages;
      for_tool_calls rest tool_messages'
  end.

Definition call_tools (messages : list Message) : M W (Result (list Message)) :=
  match last_message messages with
  | inl e => ret (inl e)
  | inr last_message =>
      if negb (has_tool_calls last_message) then ret (inr [])
      else
        do tool_messages <- for_tool_calls (tool_calls_of last_message) [];
        ret (inr tool_messages)
  end.

(** [graph = create_react_agent_graph(chat, tools)]; [graph.invoke]. *)
Definition graph_invoke := invoke call_model call_tools.

(** What the outcome of a registered tool becomes in the conversation:
    the two [ToolMessage] contents of [call_tool]. *)
Definition outcome_content (r : Result Value) : string :=
  match r with
  | inr result => str repr_float result
  | inl e => "Error: " +:+ str_exc e
  end.

(** *** The four tools of the file

    [validate_args] is what the [@tool] decorator does with the
    arguments before the function body runs: it hands the body the two
    floats [a] and [b], or raises.  [zero_division_text] is the text the
    Python runtime gives the [ZeroDivisionError] of a float division. *)
Variable validate_args : Args -> Result (float * float).
Variable zero_division_text : string.

Definition arithmetic_tool (tool_name : string)
    (body : float -> float -> Result Value) : Tool W :=
  mkTool tool_name (fun args w =>
    match validate_args args with
    | inl e => (inl e, w)
    | inr (a, b) => (body a b, w)
    end).

Definition add : Tool W :=
  arithmetic_tool "add" (fun a b => inr (PyFloat (a + b)%float)).

Definition subtract : Tool W :=
  arithmetic_tool "subtract" (fun a b => inr (PyFloat (a - b)%float)).

Definition multiply : Tool W :=
  arithmetic_tool "multiply" (fun a b => inr (PyFloat (a * b)%float)).

(** [a / b] raises when [b == 0], for either sign of zero. *)
Definition divide : Tool W :=
  arithmetic_tool "divide" (fun a b =>
    if PrimFloat.eqb b 0%float
    then inl (mkException ZeroDivisionError zero_division_text)
    else inr (PyFloat (a / b)%float)).

End Defs.

(** [tools = [add, subtract, multiply, divide]] *)
Definition tools {W} validate_args zero_division_text : list (Tool W) :=
  [add validate_args; subtract validate_args; multiply validate_args;
   divide validate_args zero_division_text].

(** [config = {"recursion_limit": 50}] *)
Definition recursion_limit : nat := 50.

Section Script.

Context {W : Type}.
Variable repr_float : float -> string.
Variable model : list Message -> W -> AIResponse * W.
Variable validate_args : Args -> Result (float * float).
Variable zero_division_text : string.

Definition print (line : string) : M W unit := emit (Printed line).

(** Cell 6: one test query, with its [try]/[except Exception].  The
    traceback goes to standard error and is left out. *)
Definition test_agent (fuel : nat) (query : string) : M W (option unit) :=
  let inputs := [HumanMessage query] in
  do _ <- print ("  Query: " +:+ query);
  do _ <- print "  (Processing...)";
  do r <- graph_invoke repr_float model (tools validate_args zero_division_text)
            fuel inputs recursion_limit;
  match r with
  | None => ret None
  | Some (inr messages) =>
      match last_message messages with
      | inr last_message =>
          let tool_calls := List.filter has_tool_calls messages in
          let tool_results := List.filter is_ToolMessage messages in
          do _ <- (if bool_decide (tool_calls = []) then ret tt
                   else
                     do _ <- print ("  ✓ Tool call attempts: "
                                    +:+ str_nat (length tool_calls));
                     print ("  ✓ Tool executions: "
                            +:+ str_nat (length tool_results)));
          do _ <- print (nl +:+ "✓ Agent response:");
          do _ <- print ("  " +:+ slice_to 150 (content last_message) +:+ "...");
          ret (Some tt)
      | inl e =>
          do _ <- print ("⚠ Agent test failed: " +:+ str_exc e);
          do _ <- print "  Continuing with other tests...";
          ret (Some tt)
      end
  | Some (inl e) =>
      do _ <- print ("⚠ Agent test failed: " +:+ str_exc e);
      do _ <- print "  Continuing with other tests...";
      ret (Some tt)
  end.

End Script.
End Simple.

(** ** The system prompt of the later agent files

    [call_model] of 10_complex_agents.py, 11_rag_agent.py,
    12_agent_supervisor.py and 13_ai_service_deploy.py puts the system
    prompt in front of what the model sees, unless some human message
    already mentions ["system"] in its first twenty characters. *)

Definition mentions_system (msg : Message) : bool :=
  is_HumanMessage msg && contains "system" (slice_to 20 (lower (content msg))).

(** [if system_prompt:] holds for a prompt that is neither [None] nor
    empty. *)
Definition with_system_prompt (system_prompt : option string)
    (messages : list Message) : list Message :=
  match system_prompt with
  | Some p =>
      if negb (String.eqb p "") && negb (existsb mentions_system messages)
      then [HumanMessage p] ++ messages
      else messages
  | None => messages
  end.

(** The length bound on tool results in 11_rag_agent.py and
    13_ai_service_deploy.py. *)
Definition TRUNCATION_BOUND : nat := 2000.

(** ** examples/wxai/11_rag_agent.py *)

Module Rag.
Section Defs.

Context {W : Type}.
Variable repr_float : float -> string.
Variable model : list Message -> W -> AIResponse * W.
Variable tools : list (Tool W).
Variable system_prompt : option string.

Definition call_model (messages : list Message) : M W (list Message) :=
  let messages := with_system_prompt system_prompt messages in
  do response <- model_invoke model messages;
  ret [response].

(** [str(result)[:2000] if len(str(result)) > 2000 else str(result)] *)
Definition tool_content (result : Value) : string :=
  if (TRUNCATION_BOUND <? String.length (str repr_float result))%nat
  then slice_to TRUNCATION_BOUND (str repr_float result)
  else str repr_float result.

Definition call_tool (tool_call : ToolCall) (tool_messages : list Message)
    : M W (list Message) :=
  let tool_name := tc_name tool_call in
  let tool_args := get_args tool_call in
  match find_tool tools tool_name with
  | Some tool_func =>
      do r <- tool_invoke tool_func tool_args;
      match r with
      | inr result =>
          ret (tool_messages ++
               [ToolMessage (tool_content result) (get_id tool_call)])
      | inl e =>
          ret (tool_messages ++
               [ToolMessage ("Error: " +:+ str_exc e) (get_id tool_call)])
      end
  | None => ret tool_messages
  end.

Fixpoint for_tool_calls (calls : list ToolCall) (tool_messages : list Message)
    : M W (list Message) :=
  match calls with
  | [] => ret tool_messages
  | tool_call :: rest =>
      do tool_messages' <- call_tool tool_call tool_messages;
      for_tool_calls rest tool_messages'
  end.

Definition call_tools (messages : list Message) : M W (Result (list Message)) :=
  match last_message messages with
  | inl e => ret (inl e)
  | inr last_message =>
      if has_tool_calls last_message
      then
        do tool_messages <- for_tool_calls (tool_calls_of last_message) [];
        ret (inr tool_messages)
      else ret (inr [])
  end.

Definition graph_invoke := invoke call_model call_tools.

(** The two [ToolMessage] contents of [call_tool]. *)
Definition outcome_content (r : Result Value) : string :=
  match r with
  | inr result => tool_content result
  | inl e => "Error: " +:+ str_exc e
  end.

(** The tail of [run_tool]: the utility tools of this file shorten and
    mark their own output before the dispatcher sees it. *)
Definition run_tool_output (output : string) : string :=
  if (TRUNCATION_BOUND <? String.length output)%nat
  then slice_to TRUNCATION_BOUND output +:+ "... [truncated]"
  else output.

End Defs.

(** [config = {"recursion_limit": 20}] *)
Definition recursion_limit : nat := 20.

End Rag.

(** ** examples/wxai/13_ai_service_deploy.py *)

Module Service.

(** [f"Error executing tool {tool_name}: {str(e)}"] *)
Definition error_text (tool_name : string) (e : Exception) : string :=
  "Error executing tool " +:+ tool_name +:+ ": " +:+ str_exc e.

(** [f"Tool {tool_name} not found"] *)
Definition not_found_text (tool_name : string) : string :=
  "Tool " +:+ tool_name +:+ " not found".

Section Defs.

Context {W : Type}.
Variable repr_float : float -> string.
Variable model : list Message -> W -> AIResponse * W.
Variable tools : list (Tool W).
Variable system_prompt : option string.

Definition call_model (messages : list Message) : M W (list Message) :=
  let messages := with_system_prompt system_prompt messages in
  do response <- model_invoke model messages;
  ret [response].

(** [result_str = str(result)], cut and marked when longer than 2000. *)
Definition tool_content (result : Value) : string :=
  let result_str := str repr_float result in
  if (TRUNCATION_BOUND <? String.length result_str)%nat
  then slice_to TRUNCATION_BOUND result_str +:+ "... [truncated]"
  else result_str.

Definition call_tool (tool_call : ToolCall) (tool_messages : list Message)
    : M W (list Message) :=
  let tool_name := tc_name tool_call in
  let tool_args := get_args tool_call in
  match find_tool tools tool_name with
  | Some tool_func =>
      do r <- tool_invoke tool_func tool_args;
      match r with
      | inr result =>
          let tool_call_id := get_id tool_call in
          ret (tool_messages ++ [ToolMessage (tool_content result) tool_call_id])
      | inl e =>
          let error_msg := error_text tool_name e in
          do _ <- emit (Printed ("  " +:+ error_msg));
          let tool_call_id := get_id tool_call in
          ret (tool_messages ++ [ToolMessage error_msg tool_call_id])
      end
  | None =>
      let error_msg := not_found_text tool_name in
      do _ <- emit (Printed ("  " +:+ error_msg));
      let tool_call_id := get_id tool_call in
      ret (tool_messages ++ [ToolMessage error_msg tool_call_id])
  end.

Fixpoint for_tool_calls (calls : list ToolCall) (tool_messages : list Message)
    : M W (list Message) :=
  match calls with
  | [] => ret tool_messages
  | tool_call :: rest =>
      do tool_messages' <- call_tool tool_call tool_messages;
      for_tool_calls rest tool_messages'
  end.

Definition call_tools (messages : list Message) : M W (Result (list Message)) :=
  match last_message messages with
  | inl e => ret (inl e)
  | inr last_message =>
      if has_tool_calls last_message
      then
        do tool_messages <- for_tool_calls (tool_calls_of last_message) [];
        ret (inr tool_messages)
      else ret (inr [])
  end.

Definition graph_invoke := invoke call_model call_tools.

End Defs.

(** [config = {"recursion_limit": 50}] in [generate]. *)
Definition recursion_limit : nat := 50.

End Service.

(** ** The scripts as processes

    A script is read as a process that prints, writes files, calls the
    SDK, and ends with an exit status.  What the SDK and the operating
    system answer is given from outside, one outcome per call site. *)

Module Scripts.

Local Open Scope string_scope.
Local Open Scope list_scope.

(** What a process has done so far. *)
Record Proc := mkProc {
  stdout : list string;
  files : gmap string string;
  calls : list string
}.

Definition start : Proc := mkProc [] ∅ [].

(** The two ways a script stops early: [exit(code)] raises [SystemExit],
    which [except Exception] does not catch; any other exception may be
    caught. *)
Inductive Exit :=
| SystemExit (code : nat)
| Uncaught (e : Exception).

Definition Script (A : Type) : Type := Proc -> (Exit + A) * Proc.

Definition pure {A} (a : A) : Script A := fun p => (inr a, p).

Definition and_then {A B} (m : Script A) (k : A -> Script B) : Script B :=
  fun p => match m p with
           | (inr a, p') => k a p'
           | (inl x, p') => (inl x, p')
           end.

Notation "'run' x <- c ; k" := (and_then c (fun x => k))
  (at level 10, x name, c at level 100, k at level 200).

Definition print (line : string) : Script unit :=
  fun p => (inr tt, mkProc (stdout p ++ [line]) (files p) (calls p)).

(** One [print] per line. *)
Definition print_all (lines : list string) : Script unit :=
  fold_right (fun line k => run _ <- print line; k) (pure tt) lines.

Definition exit (code : nat) : Script unit :=
  fun p => (inl (SystemExit code), p).

(** A call that leaves the script: it is recorded, and returns or raises
    as the outside decides. *)
Definition outside {A} (op : string) (outcome : Result A) : Script A :=
  fun p =>
    (match outcome with inl e => inl (Uncaught e) | inr a => inr a end,
     mkProc (stdout p) (files p) (calls p ++ [op])).

(** A computation inside the script that returns or raises. *)
Definition from_result {A} (r : Result A) : Script A :=
  fun p => (match r with inl e => inl (Uncaught e) | inr a => inr a end, p).

(** [try: body except Exception as e: handler(e)] *)
Definition try_except {A} (body : Script A) (handler : Exception -> Script A)
    : Script A :=
  fun p => match body p with
           | (inl (Uncaught e), p') => handler e p'
           | r => r
           end.

(** [open(path, 'w')] empties or creates the file; [f.write(s)] appends. *)
Definition open_w (path : string) : Script unit :=
  fun p => (inr tt, mkProc (stdout p) (<[path := ""]> (files p)) (calls p)).

Definition write (path s : string) : Script unit :=
  fun p => (inr tt,
            mkProc (stdout p)
                   (<[path := default "" (files p !! path) +:+ s]> (files p))
                   (calls p)).

(** The status the operating system sees. *)
Definition exit_status {A} (r : Exit + A) : nat :=
  match r with
  | inl (SystemExit code) => code
  | inl (Uncaught _) => 1
  | inr _ => 0
  end.

(** Truth value of an [os.getenv] result: set and not empty. *)
Definition truthy (v : option string) : bool :=
  match v with Some s => negb (String.eqb s "") | None => false end.

(** An optional string inside an f-string. *)
Definition fmt (v : option string) : string := default "None" v.

(** ["=" * 60] *)
Definition rule : string := string_of_list_ascii (repeat "="%char 60).

(** *** pipelines/chat_invoke.py *)

(** What [model.chat] returned: a dict with ["choices"] (the contents of
    the choices' messages, as text), or anything else (as [str] shows it). *)
Inductive Response :=
| ChoicesResponse (contents : list string)
| OtherResponse (text : string).

(** [response['choices'][0]['message']['content']], or [str(response)]. *)
Definition extract_content (response : Response) : Result string :=
  match response with
  | ChoicesResponse (c :: _) => inr c
  | ChoicesResponse [] => inl (mkException IndexError "list index out of range")
  | OtherResponse text => inr text
  end.

(** The characters [str.strip()] removes, among the first 256 code
    points. *)
Definition is_space (c : ascii) : bool :=
  let n := nat_of_ascii c in
  ((9 <=? n) && (n <=? 13) || (28 <=? n) && (n <=? 32)
   || (n =? 133) || (n =? 160))%nat.

Fixpoint lstrip (l : list ascii) : list ascii :=
  match l with
  | c :: l' => if is_space c then lstrip l' else l
  | [] => []
  end.

Definition strip (l : list ascii) : list ascii := rev (lstrip (rev (lstrip l))).

(** The outcomes of the calls [chat_invoke.py] makes. *)
Record ChatSDK := mkChatSDK {
  Credentials : Result unit;
  ModelInference : Result unit;
  chat : Result Response;
  APIClient : Result unit;
  default_project : Result unit;
  relative_to_cwd : Result string;
  DataConnection : Result unit;
  set_client : Result unit;
  connection_write : Result unit
}.

(** The outcomes of the calls [chat_invoke.py] makes on the file system:
    [data_dir.mkdir], [open(output_file, 'w')] and the two [f.write]. *)
Record Disk := mkDisk {
  mkdir : Result unit;
  open_output_file : Result unit;
  write_prompt : Result unit;
  write_response : Result unit
}.

Section ChatInvoke.

Variable environ : gmap string string.
Variable sdk : ChatSDK.
Variable disk : Disk.

(** [datetime.datetime.now().strftime("%Y%m%d_%H%M%S")] *)
Variable timestamp : string.

(** [str.isalnum] on one character, from the Python runtime. *)
Variable isalnum : ascii -> bool.

Definition PROMPT : string :=
  default "What is artificial intelligence?" (environ !! "PROMPT").

Definition COS_PREFIX : string := default "chat-responses" (environ !! "COS_PREFIX").

(** ["".join(c for c in PROMPT[:30] if c.isalnum() or c in (' ', '-', '_'))
    .strip().replace(' ', '_')] *)
Definition prompt_safe : string :=
  let kept :=
    List.filter
      (fun c => isalnum c
                || Ascii.eqb c " " || Ascii.eqb c "-" || Ascii.eqb c "_")
      (list_ascii_of_string (slice_to 30 PROMPT)) in
  string_of_list_ascii
    (map (fun c => if Ascii.eqb c " " then "_"%char else c) (strip kept)).

Definition output_file : string :=
  "data/raw" +:+ "/" +:+ "response_" +:+ timestamp +:+ "_" +:+ prompt_safe +:+ ".txt".

(** The upload to object storage, lines 82-109. *)
Definition upload : Script unit :=
  let COS_BUCKET := environ !! "COS_BUCKET" in
  let COS_CONNECTION_ASSET_ID := environ !! "COS_CONNECTION_ASSET_ID" in
  if negb (truthy COS_BUCKET && truthy COS_CONNECTION_ASSET_ID)
  then
    if truthy COS_BUCKET || truthy COS_CONNECTION_ASSET_ID
    then
      run _ <- print "⚠ COS configuration incomplete. Skipping upload.";
      print "  Required: COS_BUCKET and COS_CONNECTION_ASSET_ID"
    else pure tt
  else
    try_except
      (run _ <- outside "APIClient" (APIClient sdk);
       run _ <- outside "client.set.default_project" (default_project sdk);
       run relative_path <- outside "Path.relative_to" (relative_to_cwd sdk);
       run _ <- outside "DataConnection" (DataConnection sdk);
       run _ <- outside "data_connection.set_client" (set_client sdk);
       run _ <- print ("Uploading to COS: " +:+ fmt COS_BUCKET +:+ "/" +:+ COS_PREFIX
                       +:+ "/" +:+ relative_path +:+ "...");
       run _ <- outside "data_connection.write" (connection_write sdk);
       print "✓ Uploaded to COS successfully!")
      (fun e => print ("⚠ Upload failed: " +:+ str_exc e)).

(** The whole script.  [Credentials(...)] stands before the [try].  A call
    on the file system that raises changes nothing: [open] creates or
    empties the file when it returns, and [f.write] appends when it
    returns. *)
Definition chat_invoke : Script unit :=
  run _ <- outside "Credentials" (Credentials sdk);
  try_except
    (run _ <- outside "ModelInference" (ModelInference sdk);
     run response <- outside "model.chat" (chat sdk);
     run content <- from_result (extract_content response);
     run _ <- print content;
     run _ <- outside "Path.mkdir" (mkdir disk);
     run _ <- from_result (open_output_file disk);
     run _ <- open_w output_file;
     run _ <- from_result (write_prompt disk);
     run _ <- write output_file ("Prompt: " +:+ PROMPT +:+ nl +:+ nl);
     run _ <- from_result (write_response disk);
     run _ <- write output_file ("Response:" +:+ nl +:+ content +:+ nl);
     run _ <- print (nl +:+ "✓ Response saved to: " +:+ output_file);
     upload)
    (fun e =>
       run _ <- print ("✗ Error: " +:+ str_exc e);
       exit 1).

End ChatInvoke.

(** *** pipelines/read_from_cos.py *)

Definition configuration_missing : list string :=
  ["⚠ Missing required configuration:";
   "  Required: COS_BUCKET, COS_CONNECTION_ASSET_ID"].

Section ReadFromCos.

Variable environ : gmap string string.

(** Lines 36-120: everything after the configuration test. *)
Variable download_and_list : Script unit.

Definition read_from_cos : Script unit :=
  let COS_BUCKET := environ !! "COS_BUCKET" in
  let COS_CONNECTION_ASSET_ID := environ !! "COS_CONNECTION_ASSET_ID" in
  try_except
    (run _ <- (if negb (truthy COS_BUCKET && truthy COS_CONNECTION_ASSET_ID)
               then
                 run _ <- print_all configuration_missing;
                 exit 1
               else pure tt);
     download_and_list)
    (fun e =>
       run _ <- print ("✗ Error: " +:+ str_exc e);
       exit 1).

End ReadFromCos.

(** *** examples/wxai/05_create_vector_index.py *)

Record IndexSDK := mkIndexSDK {
  index_APIClient : Result unit;
  index_default_project : Result unit;
  VectorIndexes : Result unit;
  (** [vector_indexes.list(limit=10)], as the lines the script prints *)
  list_indexes : Result (list string)
}.

(** The three diagnostics the script stops with. *)
Definition client_failed (e : Exception) : string :=
  "‚ö† Client initialization failed: " +:+ str_exc e.

Definition indexes_failed (e : Exception) : string :=
  "‚ö† Vector Indexes initialization failed: " +:+ str_exc e.

Definition connection_id_missing : list string :=
  [nl +:+ "‚ö† ERROR: MILVUS_CONNECTION_ID not set in .env";
   "  You must provide a MILVUS_CONNECTION_ID to create a vector index.";
   "  Please update your .env file with a valid connection ID."].

Section CreateVectorIndex.

Variable environ : gmap string string.
Variable sdk : IndexSDK.

(** [int(s)], from the Python runtime. *)
Variable parse_int : string -> Result Z.

(** Lines 92-191: the creation of the index, once the connection id is
    known to be there. *)
Variable create_index : Script unit.

Definition create_vector_index : Script unit :=
  let WATSONX_PROJECT_ID := environ !! "WATSONX_PROJECT_ID" in
  let MILVUS_CONNECTION_ID := environ !! "MILVUS_CONNECTION_ID" in
  run TOP_K <- from_result (parse_int (default "5" (environ !! "TOP_K")));
  run CHUNK_SIZE <-
    from_result (parse_int (default "1000" (environ !! "CHUNK_SIZE")));
  run CHUNK_OVERLAP <-
    from_result (parse_int (default "200" (environ !! "CHUNK_OVERLAP")));
  run _ <- print rule;
  run _ <- print "EXAMPLE 05: Create Vector Index";
  run _ <- print rule;
  run _ <- print (nl +:+ "1. Initializing SDK client...");
  run _ <- try_except
    (run _ <- outside "APIClient" (index_APIClient sdk);
     run _ <- outside "client.set.default_project" (index_default_project sdk);
     run _ <- print "‚úì SDK client initialized";
     print ("  Project ID: " +:+ fmt WATSONX_PROJECT_ID))
    (fun e =>
       run _ <- print (client_failed e);
       exit 1);
  run _ <- print (nl +:+ "2. Initializing Vector Indexes API...");
  run _ <- try_except
    (run _ <- outside "VectorIndexes" (VectorIndexes sdk);
     print "‚úì Vector Indexes API initialized")
    (fun e =>
       run _ <- print (indexes_failed e);
       exit 1);
  run _ <- print (nl +:+ "3. Checking for existing vector indexes...");
  run _ <- try_except
    (run lines <- outside "vector_indexes.list" (list_indexes sdk);
     print_all lines)
    (fun e => print ("‚ö† Could not list existing indexes: " +:+ str_exc e));
  run _ <- (if negb (truthy MILVUS_CONNECTION_ID)
            then
              run _ <- print_all connection_id_missing;
              exit 1
            else pure tt);
  create_index.

End CreateVectorIndex.

(** *** examples/wxai/01_setup_environment.py *)

Record SetupSDK := mkSetupSDK {
  setup_Credentials : Result unit;
  setup_APIClient : Result unit;
  setup_default_project : Result unit;
  (** the enumeration of [TextModels], as the lines the script prints *)
  list_models : Result (list string);
  setup_ModelInference : Result unit;
  (** [model_inference.generate], as the text the script shows *)
  generate : Result string
}.

Section SetupEnvironment.

Variable environ : gmap string string.
Variable sdk : SetupSDK.

(** [int(s)], [float(s)] and the text of a float, from the Python
    runtime. *)
Variable parse_int : string -> Result Z.
Variable parse_float : string -> Result float.
Variable repr_float : float -> string.

Definition str_int (z : Z) : string := NilZero.string_of_int (Z.to_int z).

(** Cell 4: the connection test, run only with a client. *)
Definition test_connection (MODEL_NAME : string) : Script unit :=
  try_except
    (run _ <- print (nl +:+ "  Available Foundation Models:");
     run _ <- try_except
       (run lines <- outside "foundation_models.TextModels" (list_models sdk);
        print_all lines)
       (fun model_error =>
          print ("  ⚠ Could not enumerate models: " +:+ str_exc model_error));
     run _ <- outside "Credentials" (setup_Credentials sdk);
     run _ <- outside "ModelInference" (setup_ModelInference sdk);
     run result <- outside "model_inference.generate" (generate sdk);
     run _ <- print "✓ Connection successful!";
     print (nl +:+ "Test Response: " +:+ result))
    (fun e =>
       run _ <- print ("⚠ Connection test failed: " +:+ str_exc e);
       print "   Check your API key and project permissions").

Definition setup_environment : Script unit :=
  let WATSONX_API_KEY := environ !! "WATSONX_API_KEY" in
  let WATSONX_PROJECT_ID := environ !! "WATSONX_PROJECT_ID" in
  let WATSONX_SPACE_ID := environ !! "WATSONX_SPACE_ID_DEV" in
  let WATSONX_URL :=
    default "https://us-south.ml.cloud.ibm.com" (environ !! "WATSONX_URL") in
  run _ <- print rule;
  run _ <- print "EXAMPLE 01: Setup Environment";
  run _ <- print rule;
  run _ <- print (nl +:+ "1. Environment Variables:");
  run _ <- print (if truthy WATSONX_API_KEY
                  then "  API Key: " +:+ slice_to 10 (fmt WATSONX_API_KEY) +:+ "..."
                  else "  API Key: Not set");
  run _ <- print ("  Project ID: " +:+ fmt WATSONX_PROJECT_ID);
  run _ <- print ("  Space ID: " +:+ fmt WATSONX_SPACE_ID);
  run _ <- print ("  URL: " +:+ WATSONX_URL);
  let MODEL_NAME :=
    default "mistralai/mistral-small-3-1-24b-instruct-2503" (environ !! "MODEL_NAME") in
  let EMBEDDING_MODEL :=
    default "ibm/granite-embedding-107m-multilingual" (environ !! "EMBEDDING_MODEL") in
  run MAX_NEW_TOKENS <-
    from_result (match environ !! "MAX_NEW_TOKENS" with
                 | Some s => parse_int s
                 | None => inr 512%Z
                 end);
  run TEMPERATURE <-
    from_result (match environ !! "TEMPERATURE" with
                 | Some s => parse_float s
                 | None => inr 0%float
                 end);
  let VECTOR_DB_TYPE := default "milvus" (environ !! "VECTOR_DB_TYPE") in
  run _ <- print (nl +:+ "2. Configuration:");
  run _ <- print ("  Model: " +:+ MODEL_NAME);
  run _ <- print ("  Embedding Model: " +:+ EMBEDDING_MODEL);
  run _ <- print ("  Max Tokens: " +:+ str_int MAX_NEW_TOKENS);
  run _ <- print ("  Temperature: " +:+ repr_float TEMPERATURE);
  run _ <- print ("  Vector DB: " +:+ VECTOR_DB_TYPE);
  run _ <- print (nl +:+ "  Milvus Configuration:");
  run _ <- print ("    Host: " +:+ fmt (environ !! "MILVUS_HOST"));
  run _ <- print ("    Port: " +:+ fmt (environ !! "MILVUS_PORT"));
  run _ <- print ("    API Key: " +:+ (if truthy (environ !! "MILVUS_API_KEY")
                                      then "configured" else "not set"));
  run _ <- print (nl +:+ "3. Initializing IBM watsonx AI SDK client...");
  run client <- try_except
    (run _ <- outside "Credentials" (setup_Credentials sdk);
     run _ <- outside "APIClient" (setup_APIClient sdk);
     run _ <- try_except
       (run _ <- outside "client.set.default_project" (setup_default_project sdk);
        run _ <- print "✓ SDK client initialized";
        run _ <- print ("✓ URL: " +:+ WATSONX_URL);
        print ("✓ Default Project: " +:+ fmt WATSONX_PROJECT_ID))
       (fun project_error =>
          run _ <- print ("⚠ Project assignment failed: " +:+ str_exc project_error);
          print "   (Continuing without default project)");
     pure true)
    (fun e =>
       run _ <- print ("⚠ SDK initialization failed: " +:+ str_exc e);
       run _ <- print "   (This is normal if credentials are not fully configured)";
       pure false);
  run _ <- print (nl +:+ "4. Testing connection...");
  run _ <- (if client : bool
            then test_connection MODEL_NAME
            else print "⚠ Cannot test connection - client not initialized");
  run _ <- print (nl +:+ "✓ Environment setup complete!");
  print rule.

End SetupEnvironment.

End Scripts.

(** ** More of examples/wxai/11_rag_agent.py: the utility tools *)

(** Truth value of a Python value: [None], the empty string and zero are
    false. *)
Definition truthy_value (v : Value) : bool :=
  match v with
  | PyFloat x => negb (PrimFloat.eqb x 0%float)
  | PyStr s => negb (String.eqb s "")
  | PyNone => false
  end.

(** What [run_tool] holds in [query]: the keyword arguments as a dict, or
    one value taken out of them. *)
Inductive Query :=
| QueryDict (d : Args)
| QueryValue (v : Value).

(** [f"Tool execution failed: {str(e)}"] *)
Definition execution_failed (e : Exception) : string :=
  "Tool execution failed: " +:+ str_exc e.

Module RagTools.
Section Defs.

Context {W : Type}.
Variable repr_float : float -> string.

(** [str(d)] for a dict, from the Python runtime. *)
Variable str_dict : Args -> string.

(** Whether [utility_agent_tool.get("input_schema")] is there. *)
Variable input_schema : bool.

(** [utility_agent_tool.run(input=query, config=params)] of the toolkit,
    which returns a dict or raises. *)
Variable utility_run : string -> W -> Result Args * W.

(** The first lines of [run_tool]: the string handed to the toolkit. *)
Definition query_of (tool_input : Args) : string :=
  let query := QueryDict tool_input in
  let query :=
    if negb input_schema
    then QueryValue (default PyNone (tool_input !! "input"))
    else query in
  let query :=
    match query with
    | QueryDict d => QueryValue (default (PyStr (str_dict d)) (d !! "input"))
    | QueryValue _ => query
    end in
  match query with
  | QueryValue (PyStr s) => s
  | QueryValue v => str repr_float v
  | QueryDict d => str_dict d
  end.

Definition run_tool (tool_input : Args) (w : W) : Result Value * W :=
  let query := query_of tool_input in
  match utility_run query w with
  | (inr results, w') =>
      let output := default PyNone (results !! "output") in
      let output :=
        match output with
        | PyStr s => PyStr (Rag.run_tool_output s)
        | _ => output
        end in
      (inr output, w')
  | (inl e, w') => (inr (PyStr (execution_failed e)), w')
  end.

(** [StructuredTool(name=tool_name, func=run_tool, ...)] *)
Definition create_utility_agent_tool (tool_name : string) : Tool W :=
  mkTool tool_name run_tool.

End Defs.
End RagTools.

(** ** More of examples/wxai/13_ai_service_deploy.py *)

Module ServiceTools.
Section Defs.

Context {W : Type}.

(** [str(d)] for a dict and [str(q)] for a query, from the Python
    runtime. *)
Variable str_dict : Args -> string.
Variable str_query : Query -> string.

(** [utility_agent_tool.get("input_schema")], as [str] shows it. *)
Variable input_schema : option string.

(** [utility_agent_tool.run(input=query, config=params)] of the toolkit,
    which returns a dict or raises. *)
Variable utility_run : Query -> W -> Result Args * W.

(** [print(..., flush=True)] inside a tool: standard output is part of the
    world the tool acts on. *)
Variable print_line : string -> W -> W.

(** The first lines of [run_tool]: what is handed to the toolkit. *)
Definition query_of (tool_input_dict : Args) : Query :=
  match input_schema with
  | None =>
      match map_to_list tool_input_dict with
      | [(_, v)] => QueryValue v
      | _ =>
          match tool_input_dict !! "input" with
          | Some v => QueryValue v
          | None =>
              QueryValue (PyStr (if bool_decide (tool_input_dict = ∅) then ""
                                 else str_dict tool_input_dict))
          end
      end
  | Some _ => QueryDict tool_input_dict
  end.

Definition run_tool (tool_input : Args) (w : W) : Result Value * W :=
  let tool_input_dict := tool_input in
  let query := query_of tool_input_dict in
  match utility_run query w with
  | (inr results, w') =>
      let output :=
        if bool_decide (results = ∅) then PyStr (str_dict results)
        else default PyNone (results !! "output") in
      let output :=
        if negb (truthy_value output) then PyStr (str_dict results)
        else output in
      (inr output, w')
  | (inl e, w') =>
      let error_msg := execution_failed e in
      let w' := print_line ("  Tool error: " +:+ error_msg) w' in
      let w' := print_line ("  Input schema: " +:+ default "None" input_schema) w' in
      let w' := print_line ("  Tool input dict: " +:+ str_dict tool_input_dict) w' in
      let w' := print_line ("  Attempted query: " +:+ str_query query) w' in
      (inr (PyStr error_msg), w')
  end.

(** [StructuredTool(name=tool_name, func=run_tool, ...)] *)
Definition create_utility_agent_tool (tool_name : string) : Tool W :=
  mkTool tool_name run_tool.

End Defs.
End ServiceTools.

Module ServiceApi.

(** A message of the request payload: a dict with the keys ["role"] and
    ["content"], either of which may be absent; the values are strings. *)
Definition PayloadMessage := gmap string string.

(** [str(KeyError(key))] *)
Definition key_error (key : string) : Exception :=
  mkException OtherException ("'" +:+ key +:+ "'").

(** [ValueError(text)] *)
Definition value_error (text : string) : Exception :=
  mkException OtherException text.

Definition quote : string := String (ascii_of_nat 34) "".

(** The text [create_agent] starts from. *)
Definition instructions : string :=
  "# Notes" +:+ nl
  +:+ "- Use markdown syntax for formatting code snippets, links, JSON, tables, images, files." +:+ nl
  +:+ "- Any HTML tags must be wrapped in block quotes, for example ```<html>```." +:+ nl
  +:+ "- When returning code blocks, specify language." +:+ nl
  +:+ "- Sometimes, things don't go as planned. Tools may not provide useful information on the first few tries. You should always try a few different approaches before declaring the problem unsolvable." +:+ nl
  +:+ "- When the tool doesn't give you what you were asking for, you must either use another tool or a different tool input." +:+ nl
  +:+ "- When using search engines, you try different formulations of the query, possibly even in a different language." +:+ nl
  +:+ "- You cannot do complex calculations, computations, or data manipulations without using tools." +:+ nl
  +:+ "- If you need to call a tool to compute something, always call it instead of saying you will call it." +:+ nl
  +:+ nl
  +:+ "If a tool returns an IMAGE in the result, you must include it in your answer as Markdown." +:+ nl
  +:+ nl
  +:+ "Example:" +:+ nl
  +:+ nl
  +:+ "Tool result: IMAGE({commonApiUrl}/wx/v1-beta/utility_agent_tools/cache/images/plt-04e3c91ae04b47f8934a4e6b7d1fdc2c.png)" +:+ nl
  +:+ "Markdown to return to user: ![Generated image]({commonApiUrl}/wx/v1-beta/utility_agent_tools/cache/images/plt-04e3c91ae04b47f8934a4e6b7d1fdc2c.png)" +:+ nl
  +:+ nl
  +:+ "You are a helpful assistant that uses tools to answer questions in detail." +:+ nl
  +:+ "When greeted, say " +:+ quote +:+ "Hi, I am watsonx.ai agent. How can I help you?"
  +:+ quote +:+ nl.

(** [create_agent]: the instructions the graph is built with; the graph
    itself is [create_react_agent_graph(model, tools,
    system_prompt=instructions)]. *)
Definition create_agent (messages : list PayloadMessage) : string :=
  fold_left
    (fun instructions message =>
       if bool_decide (message !! "role" = Some "system")
       then instructions +:+ nl +:+ nl +:+ default "" (message !! "content")
       else instructions)
    messages instructions.

(** The loop of [convert_messages], from the messages converted so far. *)
Fixpoint convert_from (converted_messages : list Message)
    (messages : list PayloadMessage) : Result (list Message) :=
  match messages with
  | [] => inr converted_messages
  | message :: rest =>
      match message !! "role" with
      | None => inl (key_error "role")
      | Some role =>
          if String.eqb role "user"
          then match message !! "content" with
               | None => inl (key_error "content")
               | Some c => convert_from (converted_messages ++ [HumanMessage c]) rest
               end
          else if String.eqb role "assistant"
          then match message !! "content" with
               | None => inl (key_error "content")
               | Some c => convert_from (converted_messages ++ [AIMessage c []]) rest
               end
          else convert_from converted_messages rest
      end
  end.

Definition convert_messages (messages : list PayloadMessage)
    : Result (list Message) :=
  convert_from [] messages.

(** The two fields of the response that vary: the content of its one
    choice, and the ["error"] key of its body. *)
Record Response := mkResponse {
  response_content : string;
  response_error : option string
}.

(** The [for msg in reversed(...)] loop of [generate]: the content of the
    first message that has one, or the empty content it started from. *)
Fixpoint previous_content (reversed : list Message) : string :=
  match reversed with
  | [] => ""
  | msg :: rest =>
      if negb (String.eqb (content msg) "") then content msg
      else previous_content rest
  end.

(** What [Toolkit(api_client).get_tool(tool_name)] gives: the input schema
    of the tool, as [str] shows it, and its [run]. *)
Record UtilityTool (W : Type) := mkUtilityTool {
  utility_input_schema : option string;
  utility_run : Query -> W -> Result Args * W
}.

Arguments mkUtilityTool {W}.
Arguments utility_input_schema {W}.
Arguments utility_run {W}.

Section Defs.

Context {W : Type}.
Variable repr_float : float -> string.

(** The chat model [ChatWatsonx] gives, bound to the tools. *)
Variable model : list Message -> W -> AIResponse * W.

(** [context.get_token()], [APIClient(...)] and [ChatWatsonx(...)]: calls
    that act on the world and return or raise. *)
Variable get_token : W -> Result unit * W.
Variable APIClient : W -> Result unit * W.
Variable ChatWatsonx : W -> Result unit * W.

(** [Toolkit(api_client=api_client).get_tool(tool_name)] *)
Variable get_tool : string -> W -> Result (UtilityTool W) * W.

(** [str] of a dict and of a query, and [print] inside a tool, as in
    [ServiceTools]. *)
Variable str_dict : Args -> string.
Variable str_query : Query -> string.
Variable print_line : string -> W -> W.

(** Lines 189-201: the Wikipedia tool, or a printed warning and no
    tool. *)
Definition create_tools : M W (list (Tool W)) :=
  do wikipedia_tool <- lift_env (get_tool "Wikipedia");
  match wikipedia_tool with
  | inr utility_agent_tool =>
      ret [ServiceTools.create_utility_agent_tool str_dict str_query
             (utility_input_schema utility_agent_tool)
             (utility_run utility_agent_tool) print_line "Wikipedia"]
  | inl e =>
      do _ <- emit (Printed ("  ⚠ Could not add Wikipedia tool: " +:+ str_exc e));
      ret []
  end.

(** Lines 366-373 of [generate]: the token, the client, the chat model and
    the tools.  What one of the first three raises is raised inside the
    [try] of [generate]; [create_tools] catches its own. *)
Definition session : M W (Result (list (Tool W))) :=
  do token <- lift_env get_token;
  match token with
  | inl e => ret (inl e)
  | inr _ =>
      do inner_client_local <- lift_env APIClient;
      match inner_client_local with
      | inl e => ret (inl e)
      | inr _ =>
          do chat_model <- lift_env ChatWatsonx;
          match chat_model with
          | inl e => ret (inl e)
          | inr _ =>
              do tools <- create_tools;
              ret (inr tools)
          end
      end
  end.

(** The [try] block of [generate]; [messages] is what
    [payload.get("messages")] gave. *)
Definition generate_content (fuel : nat)
    (messages : option (list PayloadMessage))
    : M W (option (Result string)) :=
  match messages with
  | None | Some [] =>
      ret (Some (inl (value_error "Messages are required in payload")))
  | Some messages =>
      do opened <- session;
      match opened with
      | inl e => ret (Some (inl e))
      | inr tools =>
          let system_prompt := create_agent messages in
          match convert_messages messages with
          | inl e => ret (Some (inl e))
          | inr inputs =>
              do generated_response <-
                Service.graph_invoke repr_float model tools (Some system_prompt)
                  fuel inputs Service.recursion_limit;
              match generated_response with
              | None => ret None
              | Some (inl e) => ret (Some (inl e))
              | Some (inr messages) =>
                  match last messages with
                  | None =>
                      ret (Some (inl (value_error "No messages in agent response")))
                  | Some last_message =>
                      let content := content last_message in
                      let content :=
                        if String.eqb content ""
                        then previous_content (rev messages)
                        else content in
                      ret (Some (inr (if negb (String.eqb content "") then content
                                      else "No response generated")))
                  end
              end
          end
      end
  end.

(** [generate]: the response it returns, whatever happened. *)
Definition generate (fuel : nat) (messages : option (list PayloadMessage))
    : M W (option Response) :=
  do r <- generate_content fuel messages;
  match r with
  | None => ret None
  | Some (inr content) => ret (Some (mkResponse content None))
  | Some (inl e) =>
      let error_msg := "Error generating response: " +:+ str_exc e in
      do _ <- emit (Printed ("Error in generate: " +:+ error_msg));
      ret (Some (mkResponse error_msg (Some (str_exc e))))
  end.

End Defs.
End ServiceApi.

(** ** More of pipelines/read_from_cos.py: the download and the listing *)

Module ReadFromCos.

Import Scripts.

(** [s.split(sep)] for a separator of one character: never an empty
    list. *)
Fixpoint split (sep : ascii) (s : string) : list string :=
  match s with
  | EmptyString => [EmptyString]
  | String c s' =>
      if Ascii.eqb c sep then EmptyString :: split sep s'
      else match split sep s' with
           | part :: parts => String c part :: parts
           | [] => [String c EmptyString]
           end
  end.

(** [sep.join(parts)] *)
Fixpoint join (sep : string) (parts : list string) : string :=
  match parts with
  | [] => ""
  | part :: rest =>
      match rest with
      | [] => part
      | _ :: _ => part +:+ sep +:+ join sep rest
      end
  end.

(** [s.replace(a, b)] for single characters. *)
Fixpoint replace (a b : ascii) (s : string) : string :=
  match s with
  | EmptyString => EmptyString
  | String c s' => String (if Ascii.eqb c a then b else c) (replace a b s')
  end.

(** ['/'.join(COS_FILE_PATTERN.split('/')[:-1])] *)
Definition folder_path (COS_FILE_PATTERN : string) : string :=
  join "/" (removelast (split "/" COS_FILE_PATTERN)).

(** Lines 49-58: the file pattern and the folder to download. *)
Definition file_pattern (COS_FILE_PATTERN : string) : string :=
  if contains "/" COS_FILE_PATTERN
  then List.last (split "/" COS_FILE_PATTERN) ""
  else COS_FILE_PATTERN.

Definition full_folder_path (COS_PREFIX COS_FILE_PATTERN : string) : string :=
  if contains "/" COS_FILE_PATTERN
  then
    let folder_path := folder_path COS_FILE_PATTERN in
    if negb (String.prefix COS_PREFIX folder_path)
    then COS_PREFIX +:+ "/" +:+ folder_path
    else folder_path
  else COS_PREFIX +:+ "/data/raw".

(** ["-" * 60] *)
Definition dashes : string := string_of_list_ascii (repeat "-"%char 60).

(** The outcomes of the calls the script makes; the folder is downloaded
    at most twice. *)
Record CosSDK := mkCosSDK {
  cos_Credentials : Result unit;
  cos_APIClient : Result unit;
  cos_default_project : Result unit;
  cos_DataConnection : Result unit;
  cos_set_client : Result unit;
  first_download : Result unit;
  second_download : Result unit
}.

(** A file the download left: its path relative to the download
    directory, its name, and what reading it gives. *)
Record LocalFile := mkLocalFile {
  relative_path : string;
  file_name : string;
  read : Result string
}.

Section Defs.

Variable environ : gmap string string.
Variable sdk : CosSDK.

(** [download_dir.rglob('*')], the files among it, for a download
    directory; [fnmatch.fnmatch]; and [str(download_dir / name)]. *)
Variable rglob : string -> list LocalFile.
Variable fnmatch : string -> string -> bool.
Variable path_div : string -> string -> string.

(** The body of the [for file_path in matching_files] loop. *)
Definition show_file (file_path : LocalFile) : Script unit :=
  run _ <- print dashes;
  run _ <- print ("File: " +:+ relative_path file_path);
  run _ <- print dashes;
  run content <- outside "f.read" (read file_path);
  run _ <- print content;
  print "".

Fixpoint show_files (matching_files : list LocalFile) : Script unit :=
  match matching_files with
  | [] => pure tt
  | file_path :: rest =>
      run _ <- show_file file_path;
      show_files rest
  end.

(** Lines 36-120, inside the [try] of the script.  The directories are
    taken to be creatable. *)
Definition download_and_list : Script unit :=
  let COS_BUCKET := environ !! "COS_BUCKET" in
  let COS_PREFIX := default "chat-responses" (environ !! "COS_PREFIX") in
  let COS_FILE_PATTERN := default "*.txt" (environ !! "COS_FILE_PATTERN") in
  run _ <- outside "Credentials" (cos_Credentials sdk);
  run _ <- outside "APIClient" (cos_APIClient sdk);
  run _ <- outside "client.set.default_project" (cos_default_project sdk);
  run _ <- print rule;
  run _ <- print "Reading from COS";
  run _ <- print rule;
  run _ <- print ("Bucket: " +:+ fmt COS_BUCKET);
  run _ <- print ("Prefix: " +:+ COS_PREFIX);
  run _ <- print ("Pattern: " +:+ COS_FILE_PATTERN);
  let file_pattern := file_pattern COS_FILE_PATTERN in
  let full_folder_path := full_folder_path COS_PREFIX COS_FILE_PATTERN in
  run _ <- print (nl +:+ "Downloading folder: " +:+ full_folder_path);
  run _ <- print ("Searching for files matching: " +:+ file_pattern);
  let download_dir := "data/processed" in
  run _ <- outside "Path.mkdir" (inr tt);
  run _ <- outside "DataConnection" (cos_DataConnection sdk);
  run _ <- outside "folder_connection.set_client" (cos_set_client sdk);
  run download_dir <-
    try_except
      (run _ <- outside "folder_connection.download_folder" (first_download sdk);
       run _ <- print ("✓ Folder downloaded to: " +:+ download_dir);
       pure download_dir)
      (fun download_error =>
         run _ <- print ("⚠ Folder download failed: " +:+ str_exc download_error);
         run _ <- print "   Trying to search in subdirectories...";
         let download_dir :=
           path_div download_dir (replace "/" "_" full_folder_path) in
         run _ <- outside "Path.mkdir" (inr tt);
         try_except
           (run _ <- outside "folder_connection.download_folder"
                       (second_download sdk);
            run _ <- print ("✓ Folder downloaded to: " +:+ download_dir);
            pure download_dir)
           (fun e2 =>
              run _ <- print ("✗ Could not download folder: " +:+ str_exc e2);
              run _ <- exit 1;
              pure download_dir));
  let matching_files :=
    List.filter (fun file_path => fnmatch (file_name file_path) file_pattern)
                (rglob download_dir) in
  run _ <- (match matching_files with
            | [] =>
                run _ <- print ("⚠ No files matching pattern: " +:+ file_pattern);
                run _ <- print ("   Searched in: " +:+ download_dir);
                exit 0
            | _ :: _ => pure tt
            end);
  run _ <- print (nl +:+ "✓ Found " +:+ str_nat (length matching_files)
                  +:+ " matching file(s)" +:+ nl);
  run _ <- show_files matching_files;
  print ("✓ Processed " +:+ str_nat (length matching_files) +:+ " file(s)").

(** The whole script. *)
Definition main : Script unit := read_from_cos environ download_and_list.

End Defs.
End ReadFromCos.

(** ** Vocabulary of the properties *)

(** Whether a request names a registered tool. *)
Definition is_registered {W} (tools : list (Tool W)) (tc : ToolCall) : bool :=
  match find_tool tools (tc_name tc) with Some _ => true | None => false end.

(** The invocation a request stands for. *)
Definition invocation_of (tc : ToolCall) : Event :=
  ToolInvoked (tc_name tc) (get_args tc).

(** A tool message answers a request when it carries the request's id. *)
Definition answers (tc : ToolCall) (m : Message) : Prop :=
  exists content, m = ToolMessage content (get_id tc).

(** Every message the dispatcher produced answers a request of [calls]. *)
Definition all_answer (calls : list ToolCall) (new : list Message) : Prop :=
  Forall (fun t => exists tc, tc ∈ calls /\ answers tc t) new.

(** Every tool message answers a request that an earlier assistant message
    of the same conversation made. *)
Definition answers_earlier_request (messages : list Message) : Prop :=
  forall j content id,
    messages !! j = Some (ToolMessage content id) ->
    exists i c calls tc,
      (i < j)%nat /\ messages !! i = Some (AIMessage c calls)
      /\ tc ∈ calls /\ get_id tc = id.

(** The conversations of a run: those of the states the loop goes through,
    and the one [invoke] returns. *)
Definition reached {W} (call_model : list Message -> M W (list Message))
    (call_tools : list Message -> M W (Result (list Message)))
    (inputs : list Message) (recursion_limit : nat) (w : World W)
    (conversation : list Message) : Prop :=
  (exists n,
     conversation
     = messages (fst (iterate call_model call_tools n recursion_limit
                        (mkConfig agent (add_messages [] inputs) 0) w)))
  \/ (exists fuel w',
        invoke call_model call_tools fuel inputs recursion_limit w
        = (Some (inr conversation), w')).

(** The configurations a run goes through while the model keeps asking for
    tools. *)
Definition ready (c : Config) : Prop :=
  node c = agent \/ (node c = tools_node /\ is_Some (last (messages c))).

(** A model that never gives a final answer. *)
Definition always_requests_tools {W}
    (model : list Message -> W -> AIResponse * W) : Prop :=
  forall messages e, ai_tool_calls (fst (model messages e)) <> [].

Definition is_invocation (e : Event) : bool :=
  match e with ToolInvoked _ _ => true | _ => false end.

Definition is_model_call (e : Event) : bool :=
  match e with ModelCalled _ => true | _ => false end.

(** The messages [convert_messages] turns into conversation messages. *)
Definition is_turn (message : ServiceApi.PayloadMessage) : bool :=
  match message !! "role" with
  | Some role => String.eqb role "user" || String.eqb role "assistant"
  | None => false
  end.

(** A message [convert_messages] cannot read: without a role, or a user or
    assistant message without a content. *)
Definition malformed (message : ServiceApi.PayloadMessage) : Prop :=
  message !! "role" = None
  \/ (is_turn message = true /\ message !! "content" = None).

(** A conversation message without tool traffic. *)
Definition plain (m : Message) : Prop :=
  is_ToolMessage m = false /\ tool_calls_of m = [].

(** A conversation that grew out of [inputs] by assistant and tool
    messages only. *)
Definition grown (inputs conversation : list Message) : Prop :=
  exists rest,
    conversation = inputs ++ rest
    /\ Forall (fun m => is_HumanMessage m = false) rest.

(** Every model call among [events] was shown [seen conversation] for a
    conversation grown out of [inputs]. *)
Definition shown_by (seen : list Message -> list Message)
    (inputs : list Message) (events : list Event) : Prop :=
  Forall (fun e => match e with
                   | ModelCalled shown =>
                       exists conversation,
                         grown inputs conversation /\ shown = seen conversation
                   | _ => True
                   end) events.

(** [read_from_cos.py] has its configuration and every call before the
    download returns. *)
Definition reaches_download (environ : gmap string string)
    (sdk : ReadFromCos.CosSDK) : Prop :=
  Scripts.truthy (environ !! "COS_BUCKET")
  && Scripts.truthy (environ !! "COS_CONNECTION_ASSET_ID") = true
  /\ ReadFromCos.cos_Credentials sdk = inr tt
  /\ ReadFromCos.cos_APIClient sdk = inr tt
  /\ ReadFromCos.cos_default_project sdk = inr tt
  /\ ReadFromCos.cos_DataConnection sdk = inr tt
  /\ ReadFromCos.cos_set_client sdk = inr tt.

(** A setting of the environment that is absent or well formed, and one
    that is set and malformed. *)
Definition setting_parses {A} (parse : string -> Result A) (v : option string)
    : Prop :=
  match v with Some s => exists a, parse s = inr a | None => True end.

Definition setting_fails {A} (parse : string -> Result A) (v : option string)
    (e : Exception) : Prop :=
  match v with Some s => parse s = inl e | None => False end.

(** [chat_invoke.py] fails with [e] before it writes its file: in
    [Credentials], outside the [try] ([caught] is false), or inside it. *)
Definition chat_fails (sdk : Scripts.ChatSDK) (e : Exception) (caught : bool)
    : Prop :=
  (Scripts.Credentials sdk = inl e /\ caught = false)
  \/ (Scripts.Credentials sdk = inr tt /\ caught = true
      /\ (Scripts.ModelInference sdk = inl e
          \/ (Scripts.ModelInference sdk = inr tt /\ Scripts.chat sdk = inl e)
          \/ (Scripts.ModelInference sdk = inr tt
              /\ exists response,
                   Scripts.chat sdk = inr response
                   /\ Scripts.extract_content response = inl e))).

(** What the loop prints for a file that can be read. *)
Definition shown (file : ReadFromCos.LocalFile) (text : string) : list string :=
  [ReadFromCos.dashes; "File: " +:+ ReadFromCos.relative_path file;
   ReadFromCos.dashes; text; ""].

Definition readable (file : ReadFromCos.LocalFile) (text : string) : Prop :=
  ReadFromCos.read file = inr text.

(** [middle] is [l] without the white space at its two ends. *)
Definition stripped (l middle : list ascii) : Prop :=
  exists leading trailing,
    l = leading ++ middle ++ trailing
    /\ Forall (fun c => Scripts.is_space c = true) leading
    /\ Forall (fun c => Scripts.is_space c = true) trailing
    /\ (forall c, head middle = Some c -> Scripts.is_space c = false)
    /\ (forall c, last middle = Some c -> Scripts.is_space c = false).

(** The sanitized fragment of a prompt: of its first thirty characters,
    those that are alphanumeric, a space, a hyphen or an underscore, in
    their order, without the white space at the two ends and with an
    underscore for every space. *)
Definition sanitized_fragment (isalnum : ascii -> bool)
    (prompt fragment : string) : Prop :=
  exists middle,
    stripped
      (List.filter
         (fun c => isalnum c || Ascii.eqb c " " || Ascii.eqb c "-"
                   || Ascii.eqb c "_")
         (list_ascii_of_string (slice_to 30 prompt)))
      middle
    /\ fragment
       = string_of_list_ascii
           (map (fun c => if Ascii.eqb c " " then "_"%char else c) middle).

(** What [create_tools] may have printed. *)
Definition tool_warnings (warnings : list Event) : Prop :=
  warnings = []
  \/ exists e,
       warnings = [Printed ("  ⚠ Could not add Wikipedia tool: " +:+ str_exc e)].

(** ** Sample inputs *)

Definition sample_repr (x : float) : string :=
  if PrimFloat.eqb x 3%float then "3.0"
  else if PrimFloat.eqb x 0%float then "0.0" else "0.5".

(** An argument check that accepts exactly two floats [a] and [b]. *)
Definition sample_validate (args : Args) : Result (float * float) :=
  match args !! "a", args !! "b" with
  | Some (PyFloat a), Some (PyFloat b) => inr (a, b)
  | _, _ => inl (mkException ValidationError "2 validation errors")
  end.

Definition sample_request (tool_name : string) (a b : float) (id : string)
    : ToolCall :=
  mkToolCall tool_name (Some {[ "a" := PyFloat a; "b" := PyFloat b ]}) (Some id).

Definition sample_tools : list (Tool unit) :=
  Simple.tools sample_validate "float division by zero".

(** A model that asks for one addition, whatever it is shown. *)
Definition looping_model (messages : list Message) (e : unit)
    : AIResponse * unit :=
  (mkAIResponse "" [sample_request "add" 1 2 "call_1"], e).

(** A model that answers at once. *)
Definition final_model (messages : list Message) (e : unit)
    : AIResponse * unit :=
  (mkAIResponse "24" [], e).

Definition sample_world : World unit := mkWorld tt [].

(** Two requests in one assistant message: a division, then an addition. *)
Definition two_requests : list ToolCall :=
  [sample_request "divide" 1 2 "call_1"; sample_request "add" 1 2 "call_2"].

(** A tool that always raises, and one that returns 5000 characters. *)
Definition failing_tool : Tool unit :=
  mkTool "search" (fun _ e => (inl (mkException OtherException "boom"), e)).

Definition xs (n : nat) : string := string_of_list_ascii (repeat "x"%char n).

Definition long_tool : Tool unit :=
  mkTool "search" (fun _ e => (inr (PyStr (xs 5000)), e)).

(** The letters and digits of ASCII. *)
Definition ascii_isalnum (c : ascii) : bool :=
  let n := nat_of_ascii c in
  ((48 <=? n) && (n <=? 57) || (65 <=? n) && (n <=? 90)
   || (97 <=? n) && (n <=? 122))%nat.

(** An SDK that answers the chat and cannot be reached for the upload. *)
Definition sample_chat_sdk : Scripts.ChatSDK :=
  Scripts.mkChatSDK (inr tt) (inr tt)
    (inr (Scripts.ChoicesResponse ["AI is the simulation of human intelligence."]))
    (inr tt) (inr tt) (inr "data/raw/response.txt") (inr tt) (inr tt) (inr tt).

(** A file system that lets the script write. *)
Definition writable_disk : Scripts.Disk :=
  Scripts.mkDisk (inr tt) (inr tt) (inr tt) (inr tt).

Definition sample_environ : gmap string string :=
  {[ "PROMPT" := "What is AI? (short answer)" ]}.

Definition no_api_key : Exception :=
  mkException OtherException "api_key is required".

(** SDKs that refuse every call. *)
Definition failing_setup_sdk : Scripts.SetupSDK :=
  Scripts.mkSetupSDK (inl no_api_key) (inl no_api_key) (inl no_api_key)
    (inl no_api_key) (inl no_api_key) (inl no_api_key).


(** Decimal digits only. *)
Fixpoint parse_digits (acc : Z) (l : list ascii) : option Z :=
  match l with
  | [] => Some acc
  | c :: l' =>
      let n := nat_of_ascii c in
      if ((48 <=? n) && (n <=? 57))%nat
      then parse_digits (10 * acc + Z.of_nat (n - 48)) l'
      else None
  end.

Definition sample_parse_int (s : string) : Result Z :=
  match s with
  | EmptyString => inl (mkException OtherException "invalid literal for int()")
  | _ =>
      match parse_digits 0 (list_ascii_of_string s) with
      | Some z => inr z
      | None => inl (mkException OtherException "invalid literal for int()")
      end
  end.

Definition sample_parse_float (s : string) : Result float :=
  inl (mkException OtherException "could not convert string to float").

(** The three numeric settings of 05_create_vector_index.py are absent or
    well formed. *)
Definition settings_parse (environ : gmap string string)
    (parse_int : string -> Result Z) : Prop :=
  exists top_k chunk_size chunk_overlap,
    parse_int (default "5" (environ !! "TOP_K")) = inr top_k
    /\ parse_int (default "1000" (environ !! "CHUNK_SIZE")) = inr chunk_size
    /\ parse_int (default "200" (environ !! "CHUNK_OVERLAP")) = inr chunk_overlap.

(** What a script may do to a process: print more and call more, and leave
    the files alone. *)
Definition extends (p p' : Scripts.Proc) : Prop :=
  exists printed made,
    p' = Scripts.mkProc (Scripts.stdout p ++ printed) (Scripts.files p)
                        (Scripts.calls p ++ made).

(** A script that never calls [exit]: it returns or raises. *)
Definition no_exit {A} (s : Scripts.Script A) : Prop :=
  forall p,
    match s p with
    | (inl (Scripts.SystemExit _), _) => False
    | (_, p') => extends p p'
    end.

(** A script that always runs to its end. *)
Definition completes {A} (s : Scripts.Script A) : Prop :=
  forall p, exists a p', s p = (inr a, p') /\ extends p p'.

(** A script that always runs to its end and prints [closing] last. *)
Definition ends_with {A} (closing : list string) (s : Scripts.Script A) : Prop :=
  forall p, exists a printed made,
    s p = (inr a, Scripts.mkProc (Scripts.stdout p ++ printed ++ closing)
                                 (Scripts.files p) (Scripts.calls p ++ made)).

(** A toolkit that cannot be reached, and the Wikipedia tool of 11 and of
    13 built on it. *)
Definition connection_refused : Exception :=
  mkException OtherException "connection refused".

Definition unreachable_toolkit {Q : Type} (query : Q) (e : unit)
    : Result Args * unit :=
  (inl connection_refused, e).

Definition rag_wikipedia : Tool unit :=
  RagTools.create_utility_agent_tool sample_repr (fun _ => "{}") false
    unreachable_toolkit "Wikipedia".

Definition service_wikipedia : Tool unit :=
  ServiceTools.create_utility_agent_tool (fun _ => "{}") (fun _ => "IBM") None
    unreachable_toolkit (fun _ e => e) "Wikipedia".

Definition wikipedia_request : ToolCall :=
  mkToolCall "Wikipedia" (Some {[ "query" := PyStr "IBM" ]}) (Some "call_1").

(** A toolkit whose result has an empty output. *)
Definition empty_output_toolkit (query : Query) (e : unit) : Result Args * unit :=
  (inr {[ "output" := PyStr "" ]}, e).

(** A request payload: a system message, a question, an earlier answer and
    a message of a role the service does not know. *)
Definition sample_payload : list ServiceApi.PayloadMessage :=
  [ {[ "role" := "system"; "content" := "Answer in French." ]};
    {[ "role" := "user"; "content" := "Hi" ]};
    {[ "role" := "assistant"; "content" := "Bonjour" ]};
    {[ "role" := "tool"; "content" := "42" ]} ].

(** A session of 13_ai_service_deploy.py whose calls return, and a toolkit
    that cannot be reached. *)
Definition sample_call (e : unit) : Result unit * unit := (inr tt, e).

Definition no_toolkit (tool_name : string) (e : unit)
    : Result (ServiceApi.UtilityTool unit) * unit :=
  (inl connection_refused, e).

(** [generate] with that session and without tools. *)
Definition sample_generate (model : list Message -> unit -> AIResponse * unit)
    : nat -> option (list ServiceApi.PayloadMessage)
      -> M unit (option ServiceApi.Response) :=
  ServiceApi.generate sample_repr model sample_call sample_call sample_call
    no_toolkit (fun _ => "{}") (fun _ => "IBM") (fun _ e => e).

(** A model that answers with an empty content and no request. *)
Definition silent_model (messages : list Message) (e : unit)
    : AIResponse * unit :=
  (mkAIResponse "" [], e).

Definition greeting_payload : list ServiceApi.PayloadMessage :=
  [ {[ "role" := "user"; "content" := "Hi" ]} ].

(** A user message that lacks its content. *)
Definition no_content_payload : list ServiceApi.PayloadMessage :=
  [ {[ "role" := "user" ]} ].

(** The environment, SDKs and files of [read_from_cos.py]. *)
Definition cos_environ : gmap string string :=
  {[ "COS_BUCKET" := "demo-bucket"; "COS_CONNECTION_ASSET_ID" := "asset-1";
     "COS_FILE_PATTERN" := "data/raw/response.txt" ]}.


Definition sample_cos_sdk : ReadFromCos.CosSDK :=
  ReadFromCos.mkCosSDK (inr tt) (inr tt) (inr tt) (inr tt) (inr tt)
    (inr tt) (inr tt).

Definition response_file : ReadFromCos.LocalFile :=
  ReadFromCos.mkLocalFile "response.txt" "response.txt" (inr "Prompt: Hi").

Definition notes_file : ReadFromCos.LocalFile :=
  ReadFromCos.mkLocalFile "notes.md" "notes.md" (inr "notes").

(** A pattern without wildcards matches the name that equals it. *)
Definition exact_fnmatch (file_name pattern : string) : bool :=
  String.eqb file_name pattern.

Definition sample_path_div (a b : string) : string := a +:+ "/" +:+ b.

Definition permission_denied : Exception :=
  mkException OtherException "[Errno 13] Permission denied".

(** A downloaded file the script may not read. *)
Definition locked_file : ReadFromCos.LocalFile :=
  ReadFromCos.mkLocalFile "old/response.txt" "response.txt"
    (inl permission_denied).

(** An SDK whose chat returns no choice. *)
Definition empty_choices_sdk : Scripts.ChatSDK :=
  Scripts.mkChatSDK (inr tt) (inr tt) (inr (Scripts.ChoicesResponse []))
    (inr tt) (inr tt) (inr "data/raw/response.txt") (inr tt) (inr tt) (inr tt).

Definition tokens_environ : gmap string string :=
  {[ "WATSONX_API_KEY" := "secret-key-0123456789"; "MAX_NEW_TOKENS" := "256" ]}.

Definition malformed_environ : gmap string string :=
  {[ "MAX_NEW_TOKENS" := "many" ]}.

Definition milvus_environ : gmap string string :=
  {[ "MILVUS_CONNECTION_ID" := "conn-1" ]}.

(** An SDK that cannot list the indexes. *)
Definition no_listing_sdk : Scripts.IndexSDK :=
  Scripts.mkIndexSDK (inr tt) (inr tt) (inr tt) (inl connection_refused).

(** * Properties *)

(** ** Basic facts about the world monad and the tool registry *)

Lemma find_tool_name {W} (tools : list (Tool W)) tool_name t :
  find_tool tools tool_name = Some t -> name t = tool_name.
Proof.
  induction tools as [|t' rest IH]; simpl; [discriminate|].
  destruct (String.eqb (name t') tool_name) eqn:E.
  - intros [= <-]. by apply String.eqb_eq.
  - exact IH.
Qed.

Lemma tool_invoke_run {W} (t : Tool W) args (w : World W) :
  tool_invoke t args w =
  (fst (func t args (env w)),
   mkWorld (snd (func t args (env w))) (log w ++ [ToolInvoked (name t) args])).
Proof.
  unfold tool_invoke, bind, emit, lift_env; simpl.
  by destruct (func t args (env w)).
Qed.

Lemma model_invoke_run {W} (model : list Message -> W -> AIResponse * W)
    messages (w : World W) :
  model_invoke model messages w =
  (to_message (fst (model messages (env w))),
   mkWorld (snd (model messages (env w))) (log w ++ [ModelCalled messages])).
Proof.
  unfold model_invoke, bind, emit, lift_env, ret; simpl.
  by destruct (model messages (env w)).
Qed.

Lemma bind_emit {W A} (e : Event) (k : unit -> M W A) (w : World W) :
  bind (emit e) k w = k tt (mkWorld (env w) (log w ++ [e])).
Proof. reflexivity. Qed.

Lemma last_message_snoc messages m : last_message (messages ++ [m]) = inr m.
Proof. unfold last_message. by rewrite last_snoc. Qed.

Lemma last_message_Some messages m :
  last messages = Some m -> last_message messages = inr m.
Proof. unfold last_message. by intros ->. Qed.



Lemma all_answer_cons tc calls new :
  all_answer calls new -> all_answer (tc :: calls) new.
Proof.
  intros H. eapply Forall_impl; [exact H|].
  intros t (tc' & Hin & Ht). exists tc'. split; [by right|done].
Qed.

Lemma all_answer_here tc calls content new :
  all_answer calls new ->
  all_answer (tc :: calls) (ToolMessage content (get_id tc) :: new).
Proof.
  intros H. constructor; [|by apply all_answer_cons].
  exists tc. split; [left|by eexists].
Qed.

(** ** The dispatcher of 09_simple_agents.py *)

Section SimpleFacts.

Context {W : Type}.
Variable repr_float : float -> string.
Variable tools : list (Tool W).

Local Abbreviation call_tool := (Simple.call_tool repr_float tools).
Local Abbreviation for_tool_calls := (Simple.for_tool_calls repr_float tools).
Local Abbreviation call_tools := (Simple.call_tools repr_float tools).

Lemma simple_call_tool_registered tc acc (w : World W) t :
  find_tool tools (tc_name tc) = Some t ->
  call_tool tc acc w =
  (acc ++ [ToolMessage (Simple.outcome_content repr_float (fst (func t (get_args tc) (env w))))
                       (get_id tc)],
   mkWorld (snd (func t (get_args tc) (env w)))
           (log w ++ [invocation_of tc])).
Proof.
  intros Hfind. unfold Simple.call_tool, bind. rewrite Hfind.
  rewrite tool_invoke_run. unfold invocation_of.
  rewrite (find_tool_name _ _ _ Hfind).
  by destruct (fst (func t (get_args tc) (env w))).
Qed.

Lemma simple_call_tool_unregistered tc acc (w : World W) :
  find_tool tools (tc_name tc) = None ->
  call_tool tc acc w = (acc, w).
Proof. intros Hfind. unfold Simple.call_tool. by rewrite Hfind. Qed.

Lemma simple_for_tool_calls_spec calls : forall acc (w : World W),
  exists new w',
    for_tool_calls calls acc w = (acc ++ new, w')
    /\ log w' = log w ++ map invocation_of (List.filter (is_registered tools) calls)
    /\ Forall2 answers (List.filter (is_registered tools) calls) new.
Proof.
  induction calls as [|tc rest IH]; intros acc w; simpl.
  - exists [], w. unfold ret. rewrite !app_nil_r. by repeat split.
  - unfold bind.
    destruct (find_tool tools (tc_name tc)) as [t|] eqn:Hfind.
    + assert (is_registered tools tc = true) as ->
        by (unfold is_registered; by rewrite Hfind).
      rewrite (simple_call_tool_registered _ _ _ _ Hfind).
      edestruct IH as (new & w' & -> & Hlog & Hans).
      eexists (_ :: new), w'. split; [by rewrite <- app_assoc|].
      split.
      * rewrite Hlog. simpl. by rewrite <- app_assoc.
      * constructor; [by eexists|exact Hans].
    + assert (is_registered tools tc = false) as ->
        by (unfold is_registered; by rewrite Hfind).
      rewrite (simple_call_tool_unregistered _ _ _ Hfind).
      apply IH.
Qed.

Lemma simple_call_tools_spec messages c calls (w : World W) :
  last messages = Some (AIMessage c calls) ->
  exists tool_messages w',
    call_tools messages w = (inr tool_messages, w')
    /\ log w' = log w ++ map invocation_of (List.filter (is_registered tools) calls)
    /\ Forall2 answers (List.filter (is_registered tools) calls) tool_messages.
Proof.
  intros Hlast. unfold Simple.call_tools.
  rewrite (last_message_Some _ _ Hlast). unfold has_tool_calls. simpl.
  case_bool_decide as Hcalls; simpl.
  - subst calls. exists [], w. unfold ret. simpl. rewrite app_nil_r.
    by repeat split.
  - unfold bind.
    destruct (simple_for_tool_calls_spec calls [] w) as (new & w' & -> & Hlog & Hans).
    by exists new, w'.
Qed.

(** Whatever the last message is, the dispatcher returns. *)
Lemma simple_call_tools_returns messages m (w : World W) :
  last messages = Some m ->
  exists tool_messages w',
    call_tools messages w = (inr tool_messages, w')
    /\ all_answer (tool_calls_of m) tool_messages.
Proof.
  intros Hlast. destruct m as [c|c calls|c id].
  1,3: unfold Simple.call_tools; rewrite (last_message_Some _ _ Hlast);
       simpl; exists [], w; split; [done|constructor].
  destruct (simple_call_tools_spec _ _ _ w Hlast) as (tm & w' & -> & _ & Hans).
  exists tm, w'. split; [done|]. simpl.
  assert (Hsub : forall tc, tc ∈ List.filter (is_registered tools) calls -> tc ∈ calls).
  { intros tc. rewrite !list_elem_of_In, filter_In. tauto. }
  induction Hans as [|tc t chosen tm' Ht _ IH]; constructor.
  - exists tc. split; [apply Hsub; left|done].
  - apply IH. intros tc' Hin. apply Hsub. by right.
Qed.

End SimpleFacts.

(** ** The dispatcher of 11_rag_agent.py *)

Section RagFacts.

Context {W : Type}.
Variable repr_float : float -> string.
Variable tools : list (Tool W).

Local Abbreviation call_tool := (Rag.call_tool repr_float tools).
Local Abbreviation for_tool_calls := (Rag.for_tool_calls repr_float tools).
Local Abbreviation call_tools := (Rag.call_tools repr_float tools).

Lemma rag_call_tool_registered tc acc (w : World W) t :
  find_tool tools (tc_name tc) = Some t ->
  call_tool tc acc w =
  (acc ++ [ToolMessage (Rag.outcome_content repr_float (fst (func t (get_args tc) (env w))))
                       (get_id tc)],
   mkWorld (snd (func t (get_args tc) (env w)))
           (log w ++ [invocation_of tc])).
Proof.
  intros Hfind. unfold Rag.call_tool, bind. rewrite Hfind.
  rewrite tool_invoke_run. unfold invocation_of.
  rewrite (find_tool_name _ _ _ Hfind).
  by destruct (fst (func t (get_args tc) (env w))).
Qed.

Lemma rag_call_tool_unregistered tc acc (w : World W) :
  find_tool tools (tc_name tc) = None ->
  call_tool tc acc w = (acc, w).
Proof. intros Hfind. unfold Rag.call_tool. by rewrite Hfind. Qed.

Lemma rag_for_tool_calls_answers calls : forall acc (w : World W),
  exists new w',
    for_tool_calls calls acc w = (acc ++ new, w') /\ all_answer calls new.
Proof.
  induction calls as [|tc rest IH]; intros acc w; simpl.
  - exists [], w. unfold ret. rewrite app_nil_r. split; [done|constructor].
  - unfold bind.
    destruct (find_tool tools (tc_name tc)) as [t|] eqn:Hfind.
    + rewrite (rag_call_tool_registered _ _ _ _ Hfind).
      edestruct IH as (new & w' & -> & Hans).
      eexists (_ :: new), w'. split; [by rewrite <- app_assoc|].
      by apply all_answer_here.
    + rewrite (rag_call_tool_unregistered _ _ _ Hfind).
      destruct (IH acc w) as (new & w' & -> & Hans).
      exists new, w'. split; [done|by apply all_answer_cons].
Qed.

Lemma rag_call_tools_returns messages m (w : World W) :
  last messages = Some m ->
  exists tool_messages w',
    call_tools messages w = (inr tool_messages, w')
    /\ all_answer (tool_calls_of m) tool_messages.
Proof.
  intros Hlast. unfold Rag.call_tools.
  rewrite (last_message_Some _ _ Hlast).
  destruct (has_tool_calls m).
  - unfold bind.
    destruct (rag_for_tool_calls_answers (tool_calls_of m) [] w)
      as (new & w' & -> & Hans).
    by exists new, w'.
  - exists [], w. split; [done|constructor].
Qed.

End RagFacts.

(** ** The dispatcher of 13_ai_service_deploy.py *)

Section ServiceFacts.

Context {W : Type}.
Variable repr_float : float -> string.
Variable tools : list (Tool W).

Local Abbreviation call_tool := (Service.call_tool repr_float tools).
Local Abbreviation for_tool_calls := (Service.for_tool_calls repr_float tools).
Local Abbreviation call_tools := (Service.call_tools repr_float tools).

Lemma service_call_tool_returned tc acc (w : World W) t result :
  find_tool tools (tc_name tc) = Some t ->
  fst (func t (get_args tc) (env w)) = inr result ->
  call_tool tc acc w =
  (acc ++ [ToolMessage (Service.tool_content repr_float result) (get_id tc)],
   mkWorld (snd (func t (get_args tc) (env w)))
           (log w ++ [invocation_of tc])).
Proof.
  intros Hfind Hres. unfold Service.call_tool, bind. rewrite Hfind.
  rewrite tool_invoke_run, Hres. unfold invocation_of.
  by rewrite (find_tool_name _ _ _ Hfind).
Qed.

Lemma service_call_tool_raised tc acc (w : World W) t e :
  find_tool tools (tc_name tc) = Some t ->
  fst (func t (get_args tc) (env w)) = inl e ->
  call_tool tc acc w =
  (acc ++ [ToolMessage (Service.error_text (tc_name tc) e) (get_id tc)],
   mkWorld (snd (func t (get_args tc) (env w)))
           (log w ++ [invocation_of tc]
                  ++ [Printed ("  " +:+ Service.error_text (tc_name tc) e)])).
Proof.
  intros Hfind Hres. unfold Service.call_tool, bind. rewrite Hfind.
  rewrite tool_invoke_run, Hres. unfold invocation_of, emit, ret. simpl.
  by rewrite (find_tool_name _ _ _ Hfind), <- app_assoc.
Qed.

Lemma service_call_tool_not_found tc acc (w : World W) :
  find_tool tools (tc_name tc) = None ->
  call_tool tc acc w =
  (acc ++ [ToolMessage (Service.not_found_text (tc_name tc)) (get_id tc)],
   mkWorld (env w) (log w ++ [Printed ("  " +:+ Service.not_found_text (tc_name tc))])).
Proof. intros Hfind. unfold Service.call_tool. by rewrite Hfind. Qed.

(** One message per request, registered or not. *)
Lemma service_call_tool_one tc acc (w : World W) :
  exists content w',
    call_tool tc acc w = (acc ++ [ToolMessage content (get_id tc)], w').
Proof.
  destruct (find_tool tools (tc_name tc)) as [t|] eqn:Hfind.
  - destruct (fst (func t (get_args tc) (env w))) as [e|result] eqn:Hres.
    + rewrite (service_call_tool_raised _ _ _ _ _ Hfind Hres). by eexists _, _.
    + rewrite (service_call_tool_returned _ _ _ _ _ Hfind Hres). by eexists _, _.
  - rewrite (service_call_tool_not_found _ _ _ Hfind). by eexists _, _.
Qed.

Lemma service_for_tool_calls_answers calls : forall acc (w : World W),
  exists new w',
    for_tool_calls calls acc w = (acc ++ new, w')
    /\ Forall2 answers calls new.
Proof.
  induction calls as [|tc rest IH]; intros acc w; simpl.
  - exists [], w. unfold ret. rewrite app_nil_r. split; [done|constructor].
  - unfold bind.
    destruct (service_call_tool_one tc acc w) as (content & w1 & ->).
    destruct (IH (acc ++ [ToolMessage content (get_id tc)]) w1)
      as (new & w' & -> & Hans).
    eexists (_ :: new), w'. split; [by rewrite <- app_assoc|].
    constructor; [by eexists|done].
Qed.

Lemma service_Forall2_all_answer calls new :
  Forall2 answers calls new -> all_answer calls new.
Proof.
  induction 1 as [|tc t calls new [content ->] _ IH]; [constructor|].
  by apply all_answer_here.
Qed.

Lemma service_call_tools_returns messages m (w : World W) :
  last messages = Some m ->
  exists tool_messages w',
    call_tools messages w = (inr tool_messages, w')
    /\ all_answer (tool_calls_of m) tool_messages.
Proof.
  intros Hlast. unfold Service.call_tools.
  rewrite (last_message_Some _ _ Hlast).
  destruct (has_tool_calls m).
  - unfold bind.
    destruct (service_for_tool_calls_answers (tool_calls_of m) [] w)
      as (new & w' & -> & Hans).
    exists new, w'. split; [done|by apply service_Forall2_all_answer].
  - exists [], w. split; [done|constructor].
Qed.

End ServiceFacts.

(** ** The loop *)


Lemma answers_earlier_request_snoc_AI messages c calls :
  answers_earlier_request messages ->
  answers_earlier_request (messages ++ [AIMessage c calls]).
Proof.
  intros Hinv j content id Hj.
  destruct (decide (j < length messages)%nat) as [Hlt|Hge].
  - rewrite lookup_app_l in Hj by done.
    destruct (Hinv _ _ _ Hj) as (i & c' & calls' & tc & Hi & Hlook & Htc).
    exists i, c', calls', tc. split; [done|].
    split; [|done]. rewrite lookup_app_l; [done|lia].
  - rewrite lookup_app_r in Hj by lia.
    destruct (j - length messages)%nat; simpl in Hj; [discriminate|].
    by rewrite lookup_nil in Hj.
Qed.

Lemma answers_earlier_request_app messages m new :
  last messages = Some m ->
  all_answer (tool_calls_of m) new ->
  answers_earlier_request messages ->
  answers_earlier_request (messages ++ new).
Proof.
  intros Hlast Hnew Hinv j content id Hj.
  destruct (decide (j < length messages)%nat) as [Hlt|Hge].
  - rewrite lookup_app_l in Hj by done.
    destruct (Hinv _ _ _ Hj) as (i & c' & calls' & tc & Hi & Hlook & Htc).
    exists i, c', calls', tc. split; [done|].
    split; [|done]. rewrite lookup_app_l; [done|lia].
  - rewrite lookup_app_r in Hj by lia.
    apply list_elem_of_lookup_2 in Hj.
    unfold all_answer in Hnew. rewrite Forall_forall in Hnew.
    destruct (Hnew _ Hj) as (tc & Hin & content' & [= -> ->]).
    destruct m as [?|c calls|? ?]; simpl in Hin; try by apply elem_of_nil in Hin.
    rewrite last_lookup in Hlast.
    exists (pred (length messages)), c, calls, tc.
    split; [|split; [|done]].
    + destruct messages; simpl in *; [discriminate|lia].
    + rewrite lookup_app_l; [done|].
      destruct messages; simpl in *; [discriminate|lia].
Qed.

Section LoopFacts.

Context {W : Type}.
Variable call_model : list Message -> M W (list Message).
Variable call_tools : list Message -> M W (Result (list Message)).

(** The model node appends exactly the assistant message it got. *)
Hypothesis call_model_shape : forall messages w,
  exists r w', call_model messages w = ([to_message r], w').

(** A dispatcher that returns has seen a last message and produced only
    answers to its requests. *)
Hypothesis call_tools_sound : forall messages w update w',
  call_tools messages w = (inr update, w') ->
  exists m, last messages = Some m /\ all_answer (tool_calls_of m) update.

Lemma superstep_preserves recursion_limit (c c' : Config) w w' :
  superstep call_model call_tools recursion_limit c w = (Continue c', w') ->
  answers_earlier_request (messages c) ->
  answers_earlier_request (messages c').
Proof.
  unfold superstep. destruct c as [n msgs st]; simpl.
  destruct n; simpl.
  - destruct (recursion_limit <=? st)%nat; [discriminate|].
    unfold bind. destruct (call_model_shape msgs w) as (r & w1 & ->).
    unfold add_messages. destruct (should_continue _); [discriminate|].
    intros [= <- <-] Hinv. simpl. by apply answers_earlier_request_snoc_AI.
  - destruct (recursion_limit <=? st)%nat; [discriminate|].
    unfold bind. destruct (call_tools msgs w) as [[e|update] w1] eqn:Hct;
      [discriminate|].
    intros [= <- <-] Hinv. simpl.
    destruct (call_tools_sound _ _ _ _ Hct) as (m & Hlast & Hnew).
    by eapply answers_earlier_request_app.
  - discriminate.
Qed.

Lemma iterate_preserves recursion_limit n : forall (c : Config) w,
  answers_earlier_request (messages c) ->
  answers_earlier_request
    (messages (fst (iterate call_model call_tools n recursion_limit c w))).
Proof.
  induction n as [|n IH]; intros c w Hinv; simpl; [done|].
  destruct (superstep call_model call_tools recursion_limit c w)
    as [[c'| |] w'] eqn:Hstep; simpl; try done.
  apply IH. by eapply superstep_preserves.
Qed.

(** What [invoke] returns is the conversation of a reachable state. *)
Lemma run_loop_preserves recursion_limit fuel : forall (c : Config) w final w',
  run_loop call_model call_tools fuel recursion_limit c w = (Some (inr final), w') ->
  answers_earlier_request (messages c) ->
  answers_earlier_request final.
Proof.
  induction fuel as [|fuel IH]; intros c w final w'; simpl; [discriminate|].
  unfold bind.
  destruct (superstep call_model call_tools recursion_limit c w)
    as [[c'|msgs|e] w1] eqn:Hstep.
  - intros Hrun Hinv. eapply IH; [exact Hrun|]. by eapply superstep_preserves.
  - intros [= <- <-] Hinv.
    unfold superstep in Hstep. destruct c as [n ms st]; simpl in *.
    destruct n; simpl in Hstep.
    + destruct (recursion_limit <=? st)%nat; [discriminate|].
      unfold bind in Hstep. destruct (call_model ms w).
      destruct (should_continue _); discriminate.
    + destruct (recursion_limit <=? st)%nat; [discriminate|].
      unfold bind in Hstep. destruct (call_tools ms w) as [[?|?] ?]; discriminate.
    + by injection Hstep as <- <-.
  - discriminate.
Qed.

End LoopFacts.

Lemma should_continue_requests messages c calls :
  calls <> [] -> should_continue (messages ++ [AIMessage c calls]) = inr tools_node.
Proof.
  intros Hne. unfold should_continue. rewrite last_message_snoc.
  unfold has_tool_calls. simpl. by rewrite bool_decide_eq_false_2.
Qed.

Lemma should_continue_final messages c :
  should_continue (messages ++ [AIMessage c []]) = inr END.
Proof. unfold should_continue. by rewrite last_message_snoc. Qed.

Section LoopRuns.

Context {W : Type}.
Variable call_model : list Message -> M W (list Message).
Variable call_tools : list Message -> M W (Result (list Message)).

Local Abbreviation step_of := (superstep call_model call_tools).
Local Abbreviation loop := (run_loop call_model call_tools).

(** A final answer: the model node appends it and the run is over. *)
Lemma superstep_final messages st recursion_limit c (w w' : World W) :
  call_model messages w = ([AIMessage c []], w') ->
  (st < recursion_limit)%nat ->
  step_of recursion_limit (mkConfig agent messages st) w =
  (Continue (mkConfig END (messages ++ [AIMessage c []]) (S st)), w').
Proof.
  intros Hmodel Hlt. unfold superstep, bind; simpl.
  destruct (Nat.leb_spec recursion_limit st) as [?|_]; [lia|].
  rewrite Hmodel. unfold add_messages. by rewrite should_continue_final.
Qed.

Lemma run_loop_final messages st recursion_limit c (w w' : World W) fuel :
  call_model messages w = ([AIMessage c []], w') ->
  (st < recursion_limit)%nat ->
  (2 <= fuel)%nat ->
  loop fuel recursion_limit (mkConfig agent messages st) w =
  (Some (inr (messages ++ [AIMessage c []])), w').
Proof.
  intros Hmodel Hlt Hfuel.
  destruct fuel as [|[|fuel]]; [lia|lia|].
  simpl. unfold bind at 1.
  by rewrite (superstep_final _ _ _ _ _ _ Hmodel Hlt).
Qed.

(** A model that always asks for tools. *)
Hypothesis model_requests : forall messages w,
  exists c calls w',
    call_model messages w = ([AIMessage c calls], w') /\ calls <> [].

Hypothesis call_tools_total : forall messages m w,
  last messages = Some m ->
  exists update w', call_tools messages w = (inr update, w').

Lemma superstep_at_ceiling recursion_limit (c : Config) (w : World W) :
  ready c -> (recursion_limit <= step c)%nat ->
  step_of recursion_limit c w = (Raised (recursion_error recursion_limit), w).
Proof.
  intros Hready Hle. unfold superstep.
  destruct (Nat.leb_spec recursion_limit (step c)) as [_|?]; [|lia].
  by destruct Hready as [->|[-> _]].
Qed.

Lemma superstep_below_ceiling recursion_limit (c : Config) (w : World W) :
  ready c -> (step c < recursion_limit)%nat ->
  exists c' w',
    step_of recursion_limit c w = (Continue c', w')
    /\ ready c' /\ step c' = S (step c).
Proof.
  intros Hready Hlt. unfold superstep.
  destruct (Nat.leb_spec recursion_limit (step c)) as [?|_]; [lia|].
  destruct Hready as [->|[-> [m Hlast]]].
  - unfold bind.
    destruct (model_requests (messages c) w) as (ct & calls & w' & -> & Hne).
    unfold add_messages. rewrite (should_continue_requests _ _ _ Hne).
    eexists _, w'. split; [done|]. split; [|done].
    right. split; [done|]. simpl. rewrite last_snoc. by eexists.
  - unfold bind.
    destruct (call_tools_total _ _ w Hlast) as (update & w' & ->).
    eexists _, w'. split; [done|]. split; [by left|done].
Qed.

Lemma run_loop_hits_ceiling recursion_limit k :
  forall (c : Config) (w : World W) fuel,
    ready c -> (step c + k = recursion_limit)%nat -> (k < fuel)%nat ->
    exists w',
      loop fuel recursion_limit c w =
      (Some (inl (recursion_error recursion_limit)), w').
Proof.
  induction k as [|k IH]; intros c w fuel Hready Hstep Hfuel;
    (destruct fuel as [|fuel]; [lia|]); simpl; unfold bind at 1.
  - rewrite superstep_at_ceiling by (done || lia). by exists w.
  - destruct (superstep_below_ceiling recursion_limit c w Hready)
      as (c' & w1 & -> & Hready' & Hstep'); [lia|].
    apply IH; [done|lia|lia].
Qed.

(** After [recursion_limit] iterations the counter equals the ceiling. *)
Lemma iterate_counts recursion_limit n :
  forall (c : Config) (w : World W),
    ready c -> (step c + n <= recursion_limit)%nat ->
    step (fst (iterate call_model call_tools n recursion_limit c w))
    = (step c + n)%nat.
Proof.
  induction n as [|n IH]; intros c w Hready Hle; simpl; [lia|].
  destruct (superstep_below_ceiling recursion_limit c w Hready)
    as (c' & w1 & -> & Hready' & Hstep'); [lia|].
  rewrite IH; [lia|done|lia].
Qed.

End LoopRuns.

(** ** The three graphs meet the assumptions of the loop lemmas *)

Section Graphs.

Context {W : Type}.
Variable repr_float : float -> string.
Variable model : list Message -> W -> AIResponse * W.
Variable tools : list (Tool W).
Variable system_prompt : option string.

Lemma simple_call_model_run messages (w : World W) :
  Simple.call_model model messages w =
  ([to_message (fst (model messages (env w)))],
   mkWorld (snd (model messages (env w))) (log w ++ [ModelCalled messages])).
Proof. unfold Simple.call_model, bind. by rewrite model_invoke_run. Qed.

Lemma rag_call_model_run messages (w : World W) :
  let seen := with_system_prompt system_prompt messages in
  Rag.call_model model system_prompt messages w =
  ([to_message (fst (model seen (env w)))],
   mkWorld (snd (model seen (env w))) (log w ++ [ModelCalled seen])).
Proof. unfold Rag.call_model, bind. by rewrite model_invoke_run. Qed.

Lemma service_call_model_run messages (w : World W) :
  let seen := with_system_prompt system_prompt messages in
  Service.call_model model system_prompt messages w =
  ([to_message (fst (model seen (env w)))],
   mkWorld (snd (model seen (env w))) (log w ++ [ModelCalled seen])).
Proof. unfold Service.call_model, bind. by rewrite model_invoke_run. Qed.

Lemma simple_call_tools_sound messages (w : World W) update w' :
  Simple.call_tools repr_float tools messages w = (inr update, w') ->
  exists m, last messages = Some m /\ all_answer (tool_calls_of m) update.
Proof.
  destruct (last messages) as [m|] eqn:Hlast.
  - destruct (simple_call_tools_returns repr_float tools _ _ w Hlast)
      as (tm & w1 & -> & Hans).
    intros [= <- <-]. by exists m.
  - unfold Simple.call_tools, last_message. by rewrite Hlast.
Qed.

Lemma rag_call_tools_sound messages (w : World W) update w' :
  Rag.call_tools repr_float tools messages w = (inr update, w') ->
  exists m, last messages = Some m /\ all_answer (tool_calls_of m) update.
Proof.
  destruct (last messages) as [m|] eqn:Hlast.
  - destruct (rag_call_tools_returns repr_float tools _ _ w Hlast)
      as (tm & w1 & -> & Hans).
    intros [= <- <-]. by exists m.
  - unfold Rag.call_tools, last_message. by rewrite Hlast.
Qed.

Lemma service_call_tools_sound messages (w : World W) update w' :
  Service.call_tools repr_float tools messages w = (inr update, w') ->
  exists m, last messages = Some m /\ all_answer (tool_calls_of m) update.
Proof.
  destruct (last messages) as [m|] eqn:Hlast.
  - destruct (service_call_tools_returns repr_float tools _ _ w Hlast)
      as (tm & w1 & -> & Hans).
    intros [= <- <-]. by exists m.
  - unfold Service.call_tools, last_message. by rewrite Hlast.
Qed.

(** The tools node hands control back to the model node. *)
Lemma simple_tools_node_continues messages m st recursion_limit (w : World W) :
  last messages = Some m -> (st < recursion_limit)%nat ->
  exists update w',
    Simple.call_tools repr_float tools messages w = (inr update, w')
    /\ superstep (Simple.call_model model) (Simple.call_tools repr_float tools)
         recursion_limit (mkConfig tools_node messages st) w
       = (Continue (mkConfig agent (messages ++ update) (S st)), w').
Proof.
  intros Hlast Hlt.
  destruct (simple_call_tools_returns repr_float tools _ _ w Hlast)
    as (tm & w1 & Hct & _).
  exists tm, w1. split; [done|]. unfold superstep, bind; simpl.
  destruct (Nat.leb_spec recursion_limit st) as [?|_]; [lia|]. by rewrite Hct.
Qed.

Lemma rag_tools_node_continues messages m st recursion_limit (w : World W) :
  last messages = Some m -> (st < recursion_limit)%nat ->
  exists update w',
    Rag.call_tools repr_float tools messages w = (inr update, w')
    /\ superstep (Rag.call_model model system_prompt)
         (Rag.call_tools repr_float tools)
         recursion_limit (mkConfig tools_node messages st) w
       = (Continue (mkConfig agent (messages ++ update) (S st)), w').
Proof.
  intros Hlast Hlt.
  destruct (rag_call_tools_returns repr_float tools _ _ w Hlast)
    as (tm & w1 & Hct & _).
  exists tm, w1. split; [done|]. unfold superstep, bind; simpl.
  destruct (Nat.leb_spec recursion_limit st) as [?|_]; [lia|]. by rewrite Hct.
Qed.

Lemma service_tools_node_continues messages m st recursion_limit (w : World W) :
  last messages = Some m -> (st < recursion_limit)%nat ->
  exists update w',
    Service.call_tools repr_float tools messages w = (inr update, w')
    /\ superstep (Service.call_model model system_prompt)
         (Service.call_tools repr_float tools)
         recursion_limit (mkConfig tools_node messages st) w
       = (Continue (mkConfig agent (messages ++ update) (S st)), w').
Proof.
  intros Hlast Hlt.
  destruct (service_call_tools_returns repr_float tools _ _ w Hlast)
    as (tm & w1 & Hct & _).
  exists tm, w1. split; [done|]. unfold superstep, bind; simpl.
  destruct (Nat.leb_spec recursion_limit st) as [?|_]; [lia|]. by rewrite Hct.
Qed.

Lemma simple_hits_ceiling inputs recursion_limit fuel (w : World W) :
  always_requests_tools model -> (recursion_limit < fuel)%nat ->
  exists w',
    Simple.graph_invoke repr_float model tools fuel inputs recursion_limit w
    = (Some (inl (recursion_error recursion_limit)), w').
Proof.
  intros Hmodel Hfuel. unfold Simple.graph_invoke, invoke.
  eapply (run_loop_hits_ceiling _ _) with (k := recursion_limit);
    [| |by left|done|done].
  - intros msgs w0. rewrite simple_call_model_run.
    eexists _, _, _. split; [reflexivity|]. apply Hmodel.
  - intros msgs m w0 Hlast.
    destruct (simple_call_tools_returns repr_float tools _ _ w0 Hlast)
      as (tm & w1 & -> & _). by eexists _, _.
Qed.

Lemma rag_hits_ceiling inputs recursion_limit fuel (w : World W) :
  always_requests_tools model -> (recursion_limit < fuel)%nat ->
  exists w',
    Rag.graph_invoke repr_float model tools system_prompt
      fuel inputs recursion_limit w
    = (Some (inl (recursion_error recursion_limit)), w').
Proof.
  intros Hmodel Hfuel. unfold Rag.graph_invoke, invoke.
  eapply (run_loop_hits_ceiling _ _) with (k := recursion_limit);
    [| |by left|done|done].
  - intros msgs w0. rewrite rag_call_model_run.
    eexists _, _, _. split; [reflexivity|]. apply Hmodel.
  - intros msgs m w0 Hlast.
    destruct (rag_call_tools_returns repr_float tools _ _ w0 Hlast)
      as (tm & w1 & -> & _). by eexists _, _.
Qed.

Lemma service_hits_ceiling inputs recursion_limit fuel (w : World W) :
  always_requests_tools model -> (recursion_limit < fuel)%nat ->
  exists w',
    Service.graph_invoke repr_float model tools system_prompt
      fuel inputs recursion_limit w
    = (Some (inl (recursion_error recursion_limit)), w').
Proof.
  intros Hmodel Hfuel. unfold Service.graph_invoke, invoke.
  eapply (run_loop_hits_ceiling _ _) with (k := recursion_limit);
    [| |by left|done|done].
  - intros msgs w0. rewrite service_call_model_run.
    eexists _, _, _. split; [reflexivity|]. apply Hmodel.
  - intros msgs m w0 Hlast.
    destruct (service_call_tools_returns repr_float tools _ _ w0 Hlast)
      as (tm & w1 & -> & _). by eexists _, _.
Qed.

End Graphs.

(** * The claims *)

(** ** C1: the iteration ceiling *)

Lemma test_agent_reports_ceiling {W} repr_float
    (model : list Message -> W -> AIResponse * W)
    validate_args zero_division_text query fuel (w : World W) :
  always_requests_tools model ->
  (Simple.recursion_limit < fuel)%nat ->
  exists w' printed,
    Simple.test_agent repr_float model validate_args zero_division_text
      fuel query w = (Some tt, w')
    /\ log w' =
       printed ++
       [Printed ("⚠ Agent test failed: "
                 +:+ str_exc (recursion_error Simple.recursion_limit));
        Printed "  Continuing with other tests..."].
Proof.
  intros Hmodel Hfuel. unfold Simple.test_agent, Simple.print.
  rewrite !bind_emit. unfold bind at 1.
  match goal with
  | |- context [Simple.graph_invoke _ _ _ _ _ _ ?w2] =>
      destruct (simple_hits_ceiling repr_float model
                  (Simple.tools validate_args zero_division_text)
                  [HumanMessage query] Simple.recursion_limit fuel w2
                  Hmodel Hfuel) as (w3 & ->)
  end.
  rewrite !bind_emit. unfold ret.
  eexists _, _. split; [reflexivity|]. simpl. by rewrite <- app_assoc.
Qed.

(** C1.  If the model caller always returns tool-call requests and never a
    final answer, a run of the agent loop with iteration ceiling
    [recursion_limit] ends: with more fuel than the ceiling, [graph.invoke]
    of each of the three agent graphs stops with the diagnostic of the
    ceiling, after exactly [recursion_limit] node executions; and the test
    cell of 09_simple_agents.py prints that diagnostic, then
    ["Continuing with other tests..."], and goes on. *)
Theorem recursion_limit_ends_run {W} repr_float
    (model : list Message -> W -> AIResponse * W) (tools : list (Tool W))
    system_prompt validate_args zero_division_text
    inputs query recursion_limit fuel (w : World W) :
  always_requests_tools model ->
  (recursion_limit < fuel)%nat ->
  (exists w',
     Simple.graph_invoke repr_float model tools fuel inputs recursion_limit w
     = (Some (inl (recursion_error recursion_limit)), w'))
  /\ (exists w',
        Rag.graph_invoke repr_float model tools system_prompt
          fuel inputs recursion_limit w
        = (Some (inl (recursion_error recursion_limit)), w'))
  /\ (exists w',
        Service.graph_invoke repr_float model tools system_prompt
          fuel inputs recursion_limit w
        = (Some (inl (recursion_error recursion_limit)), w'))
  /\ step (fst (iterate (Simple.call_model model)
                        (Simple.call_tools repr_float tools)
                        recursion_limit recursion_limit
                        (mkConfig agent (add_messages [] inputs) 0) w))
     = recursion_limit
  /\ ((Simple.recursion_limit < fuel)%nat ->
      exists w' printed,
        Simple.test_agent repr_float model validate_args zero_division_text
          fuel query w = (Some tt, w')
        /\ log w' =
           printed ++
           [Printed ("⚠ Agent test failed: "
                     +:+ str_exc (recursion_error Simple.recursion_limit));
            Printed "  Continuing with other tests..."]).
Proof.
  intros Hmodel Hfuel.
  split; [by apply simple_hits_ceiling|].
  split; [by apply rag_hits_ceiling|].
  split; [by apply service_hits_ceiling|].
  split; [|by apply test_agent_reports_ceiling].
  rewrite (iterate_counts (Simple.call_model model)
             (Simple.call_tools repr_float tools)); simpl; [done| | |by left|lia].
  - intros msgs w0. rewrite simple_call_model_run.
    eexists _, _, _. split; [reflexivity|]. apply Hmodel.
  - intros msgs m w0 Hlast.
    destruct (simple_call_tools_returns repr_float tools _ _ w0 Hlast)
      as (tm & w1 & -> & _). by eexists _, _.
Qed.

Lemma recursion_limit_ends_run_witness :
  always_requests_tools looping_model
  /\ (3 < 51)%nat
  /\ exists w',
       Simple.graph_invoke sample_repr looping_model sample_tools
         51 [HumanMessage "Calculate 11 + 13 + 20"] 3 sample_world
       = (Some (inl (recursion_error 3)), w').
Proof.
  assert (Hmodel : always_requests_tools looping_model) by (intros ? ?; discriminate).
  assert (Hfuel : (3 < 51)%nat) by lia.
  split; [exact Hmodel|]. split; [exact Hfuel|].
  exact (proj1 (recursion_limit_ends_run sample_repr looping_model sample_tools
                  None sample_validate "float division by zero"
                  [HumanMessage "Calculate 11 + 13 + 20"] "q" 3 51 sample_world
                  Hmodel Hfuel)).
Defined.

Example looping_run_computes :
  fst (Simple.graph_invoke sample_repr looping_model sample_tools
         51 [HumanMessage "Calculate 11 + 13 + 20"] 3 sample_world)
  = Some (inl (recursion_error 3)).
Proof. vm_compute. reflexivity. Qed.

Example looping_run_conversation :
  messages (fst (iterate (Simple.call_model looping_model)
                         (Simple.call_tools sample_repr sample_tools)
                         3 3 (mkConfig agent [HumanMessage "q"] 0) sample_world))
  = [HumanMessage "q";
     AIMessage "" [sample_request "add" 1 2 "call_1"];
     ToolMessage "3.0" "call_1";
     AIMessage "" [sample_request "add" 1 2 "call_1"]].
Proof. vm_compute. reflexivity. Qed.

(** ** C2: requests for tools that are not registered *)

(** C2.  A request naming a tool outside the registry, here ["power"] next
    to the four arithmetic tools: the dispatcher of 13_ai_service_deploy.py
    answers it with a tool message saying the tool was not found, while the
    dispatchers of 09_simple_agents.py and 11_rag_agent.py return no message
    for it at all.  None of them raises, and in each graph the tools node
    hands control back to the model node: in 09 with the conversation
    unchanged. *)
Theorem unknown_tool_request_dispatch {W} repr_float
    (model : list Message -> W -> AIResponse * W)
    validate_args zero_division_text (w : World W) :
  let request := mkToolCall "power" None (Some "call_1") in
  let conversation :=
    [HumanMessage "What is 2 to the power 10?"; AIMessage "" [request]] in
  let tools := Simple.tools validate_args zero_division_text in
  let not_found := ToolMessage "Tool power not found" "call_1" in
  let w' := mkWorld (env w) (log w ++ [Printed "  Tool power not found"]) in
  Simple.call_tools repr_float tools conversation w = (inr [], w)
  /\ Rag.call_tools repr_float tools conversation w = (inr [], w)
  /\ Service.call_tools repr_float tools conversation w = (inr [not_found], w')
  /\ superstep (Simple.call_model model) (Simple.call_tools repr_float tools)
       50 (mkConfig tools_node conversation 1) w
     = (Continue (mkConfig agent (conversation ++ []) 2), w)
  /\ superstep (Service.call_model model None)
       (Service.call_tools repr_float tools)
       50 (mkConfig tools_node conversation 1) w
     = (Continue (mkConfig agent (conversation ++ [not_found]) 2), w').
Proof. by repeat split. Qed.

(** ** C3: tools that raise *)

Lemma service_error_text_differs :
  Service.call_tool sample_repr [failing_tool]
    (mkToolCall "search" None (Some "call_1")) [] sample_world
  = ([ToolMessage "Error executing tool search: boom" "call_1"],
     mkWorld tt [ToolInvoked "search" ∅;
                 Printed "  Error executing tool search: boom"])
  /\ String.eqb "Error executing tool search: boom" ("Error: " +:+ "boom") = false.
Proof. by vm_compute. Qed.

(** C3, amended.  When the callable matched to a request raises, the
    dispatcher appends one tool message for the request whose content ends
    with the exception text: ["Error: <text>"] in 09_simple_agents.py and
    11_rag_agent.py, ["Error executing tool <name>: <text>"] in
    13_ai_service_deploy.py.  The exception goes no further, and the tools
    node hands control back to the model node. *)
Theorem tool_exception_becomes_message {W} repr_float
    (model : list Message -> W -> AIResponse * W) (tools : list (Tool W))
    system_prompt tc t e acc (w : World W) :
  find_tool tools (tc_name tc) = Some t ->
  fst (func t (get_args tc) (env w)) = inl e ->
  let env' := snd (func t (get_args tc) (env w)) in
  let w' := mkWorld env' (log w ++ [invocation_of tc]) in
  Simple.call_tool repr_float tools tc acc w
  = (acc ++ [ToolMessage ("Error: " +:+ str_exc e) (get_id tc)], w')
  /\ Rag.call_tool repr_float tools tc acc w
     = (acc ++ [ToolMessage ("Error: " +:+ str_exc e) (get_id tc)], w')
  /\ Service.call_tool repr_float tools tc acc w
     = (acc ++ [ToolMessage ("Error executing tool " +:+ tc_name tc +:+ ": "
                             +:+ str_exc e) (get_id tc)],
        mkWorld env' (log w ++ [invocation_of tc]
                      ++ [Printed ("  " +:+ Service.error_text (tc_name tc) e)]))
  /\ (forall conversation m st recursion_limit,
        last conversation = Some m -> (st < recursion_limit)%nat ->
        (exists update w1,
           superstep (Simple.call_model model) (Simple.call_tools repr_float tools)
             recursion_limit (mkConfig tools_node conversation st) w
           = (Continue (mkConfig agent (conversation ++ update) (S st)), w1))
        /\ (exists update w1,
              superstep (Rag.call_model model system_prompt)
                (Rag.call_tools repr_float tools)
                recursion_limit (mkConfig tools_node conversation st) w
              = (Continue (mkConfig agent (conversation ++ update) (S st)), w1))
        /\ (exists update w1,
              superstep (Service.call_model model system_prompt)
                (Service.call_tools repr_float tools)
                recursion_limit (mkConfig tools_node conversation st) w
              = (Continue (mkConfig agent (conversation ++ update) (S st)), w1))).
Proof.
  intros Hfind Hraise env' w'. split; [|split; [|split]].
  - rewrite (simple_call_tool_registered _ _ _ _ _ _ Hfind), Hraise. done.
  - rewrite (rag_call_tool_registered _ _ _ _ _ _ Hfind), Hraise. done.
  - by rewrite (service_call_tool_raised _ _ _ _ _ _ _ Hfind Hraise).
  - intros conversation m st recursion_limit Hlast Hlt. split; [|split].
    + destruct (simple_tools_node_continues repr_float model tools
                  _ _ _ _ w Hlast Hlt) as (u & w1 & _ & H). by exists u, w1.
    + destruct (rag_tools_node_continues repr_float model tools system_prompt
                  _ _ _ _ w Hlast Hlt) as (u & w1 & _ & H). by exists u, w1.
    + destruct (service_tools_node_continues repr_float model tools system_prompt
                  _ _ _ _ w Hlast Hlt) as (u & w1 & _ & H). by exists u, w1.
Qed.

Lemma tool_exception_becomes_message_witness :
  find_tool [failing_tool] "search" = Some failing_tool
  /\ fst (func failing_tool ∅ tt) = inl (mkException OtherException "boom")
  /\ Simple.call_tool sample_repr [failing_tool]
       (mkToolCall "search" None (Some "call_1")) [] sample_world
     = ([ToolMessage "Error: boom" "call_1"], mkWorld tt [ToolInvoked "search" ∅]).
Proof.
  assert (H1 : find_tool [failing_tool]
                 (tc_name (mkToolCall "search" None (Some "call_1")))
               = Some failing_tool) by reflexivity.
  assert (H2 : fst (func failing_tool
                      (get_args (mkToolCall "search" None (Some "call_1")))
                      (env sample_world))
               = inl (mkException OtherException "boom")) by reflexivity.
  split; [exact H1|]. split; [exact H2|].
  exact (proj1 (tool_exception_becomes_message sample_repr looping_model
                  [failing_tool] None (mkToolCall "search" None (Some "call_1"))
                  failing_tool (mkException OtherException "boom") []
                  sample_world H1 H2)).
Defined.

(** ** C4: long tool results *)

Lemma length_slice_to n s :
  (n <= String.length s)%nat -> String.length (slice_to n s) = n.
Proof.
  unfold slice_to. revert s. induction n as [|n IH]; intros s Hle.
  - by destruct s.
  - destruct s as [|c s]; simpl in *; [lia|]. rewrite IH; [done|lia].
Qed.

Lemma service_tool_content_truncated repr_float result :
  (TRUNCATION_BOUND < String.length (str repr_float result))%nat ->
  Service.tool_content repr_float result
  = slice_to TRUNCATION_BOUND (str repr_float result) +:+ "... [truncated]"
  /\ String.length (slice_to TRUNCATION_BOUND (str repr_float result))
     = TRUNCATION_BOUND.
Proof.
  intros Hlong. unfold Service.tool_content.
  destruct (Nat.ltb_spec TRUNCATION_BOUND (String.length (str repr_float result)));
    [|lia].
  split; [done|]. apply length_slice_to. lia.
Qed.

Lemma rag_tool_content_truncated repr_float result :
  (TRUNCATION_BOUND < String.length (str repr_float result))%nat ->
  Rag.tool_content repr_float result
  = slice_to TRUNCATION_BOUND (str repr_float result)
  /\ String.length (Rag.tool_content repr_float result) = TRUNCATION_BOUND.
Proof.
  intros Hlong. unfold Rag.tool_content.
  destruct (Nat.ltb_spec TRUNCATION_BOUND (String.length (str repr_float result)));
    [|lia].
  split; [done|]. apply length_slice_to. lia.
Qed.

(** C4.  A tool returning 5000 characters: the dispatcher of
    13_ai_service_deploy.py keeps the first 2000 and adds the marker; the
    dispatcher of 11_rag_agent.py keeps the first 2000 and adds no marker,
    and cuts off the marker a utility tool of that file had added itself;
    the dispatcher of 09_simple_agents.py passes all 5000 on. *)
Theorem long_tool_result_contents :
  let request := mkToolCall "search" None (Some "call_1") in
  fst (Service.call_tool sample_repr [long_tool] request [] sample_world)
  = [ToolMessage (xs 2000 +:+ "... [truncated]") "call_1"]
  /\ fst (Rag.call_tool sample_repr [long_tool] request [] sample_world)
     = [ToolMessage (xs 2000) "call_1"]
  /\ Rag.tool_content sample_repr (PyStr (Rag.run_tool_output (xs 5000)))
     = xs 2000
  /\ fst (Simple.call_tool sample_repr [long_tool] request [] sample_world)
     = [ToolMessage (xs 5000) "call_1"].
Proof. vm_compute. by repeat split. Qed.

(** ** C5: a final answer ends the run *)

(** C5.  Whenever the model caller returns an assistant message without
    tool-call requests, that iteration of the loop appends the message to the
    conversation and moves to the terminal node [END]; the run then returns
    the conversation, whose last message is the model's message. *)
Theorem final_answer_ends_run {W} repr_float
    (model : list Message -> W -> AIResponse * W) (tools : list (Tool W))
    conversation st recursion_limit fuel (w : World W) :
  ai_tool_calls (fst (model conversation (env w))) = [] ->
  (st < recursion_limit)%nat ->
  (2 <= fuel)%nat ->
  let final := to_message (fst (model conversation (env w))) in
  let w' := mkWorld (snd (model conversation (env w)))
                    (log w ++ [ModelCalled conversation]) in
  superstep (Simple.call_model model) (Simple.call_tools repr_float tools)
    recursion_limit (mkConfig agent conversation st) w
  = (Continue (mkConfig END (conversation ++ [final]) (S st)), w')
  /\ run_loop (Simple.call_model model) (Simple.call_tools repr_float tools)
       fuel recursion_limit (mkConfig agent conversation st) w
     = (Some (inr (conversation ++ [final])), w')
  /\ last (conversation ++ [final]) = Some final.
Proof.
  intros Hfinal Hlt Hfuel final w'.
  assert (Hmodel : Simple.call_model model conversation w
                   = ([AIMessage (ai_content (fst (model conversation (env w)))) []], w')).
  { rewrite simple_call_model_run. unfold to_message. by rewrite Hfinal. }
  assert (Hfin : final = AIMessage (ai_content (fst (model conversation (env w)))) []).
  { unfold final, to_message. by rewrite Hfinal. }
  rewrite Hfin. split; [|split].
  - by apply superstep_final.
  - by apply run_loop_final.
  - by rewrite last_snoc.
Qed.

Lemma final_answer_ends_run_witness :
  ai_tool_calls (fst (final_model [HumanMessage "Calculate 11 + 13"] (env sample_world))) = []
  /\ (0 < 50)%nat /\ (2 <= 2)%nat
  /\ run_loop (Simple.call_model final_model)
       (Simple.call_tools sample_repr sample_tools)
       2 50 (mkConfig agent [HumanMessage "Calculate 11 + 13"] 0) sample_world
     = (Some (inr [HumanMessage "Calculate 11 + 13"; AIMessage "24" []]),
        mkWorld tt [ModelCalled [HumanMessage "Calculate 11 + 13"]]).
Proof.
  assert (H1 : ai_tool_calls
                 (fst (final_model [HumanMessage "Calculate 11 + 13"]
                         (env sample_world))) = []) by reflexivity.
  assert (H2 : (0 < 50)%nat) by lia.
  assert (H3 : (2 <= 2)%nat) by lia.
  split; [exact H1|]. split; [exact H2|]. split; [exact H3|].
  exact (proj1 (proj2 (final_answer_ends_run sample_repr final_model sample_tools
                         [HumanMessage "Calculate 11 + 13"] 0 50 2 sample_world
                         H1 H2 H3))).
Defined.

(** ** C6: one invocation per request, in the model's order *)



Example two_requests_dispatched :
  fst (Simple.call_tools sample_repr sample_tools
         [HumanMessage "q"; AIMessage "" two_requests] sample_world)
  = inr [ToolMessage "0.5" "call_1"; ToolMessage "3.0" "call_2"].
Proof. vm_compute. reflexivity. Qed.

(** ** C7: tool results answer earlier requests *)

(** C7.  In every conversation state the loop reaches, and in every
    conversation a run returns, each tool message carries the id of a
    request made by an earlier assistant message of the same conversation,
    provided the conversation the run starts from is of that kind (the
    scripts start from human messages only).  This holds for the graphs of
    09_simple_agents.py, 11_rag_agent.py and 13_ai_service_deploy.py.  The id
    of a request is read the way the dispatcher reads it,
    [tool_call.get("id", "")]. *)
Theorem tool_results_answer_earlier_requests {W} repr_float
    (model : list Message -> W -> AIResponse * W) (tools : list (Tool W))
    system_prompt inputs recursion_limit (w : World W) conversation :
  answers_earlier_request inputs ->
  reached (Simple.call_model model) (Simple.call_tools repr_float tools)
          inputs recursion_limit w conversation
  \/ reached (Rag.call_model model system_prompt)
             (Rag.call_tools repr_float tools)
             inputs recursion_limit w conversation
  \/ reached (Service.call_model model system_prompt)
             (Service.call_tools repr_float tools)
             inputs recursion_limit w conversation ->
  answers_earlier_request conversation.
Proof.
  intros Hinv Hreached.
  assert (Hany : forall call_model call_tools,
             (forall messages w0, exists r w1,
                 call_model messages w0 = ([to_message r], w1)) ->
             (forall messages (w0 : World W) update w1,
                 call_tools messages w0 = (inr update, w1) ->
                 exists m, last messages = Some m
                           /\ all_answer (tool_calls_of m) update) ->
             reached call_model call_tools inputs recursion_limit w conversation ->
             answers_earlier_request conversation).
  { intros call_model call_tools Hmodel Htools [[n ->]|(fuel & w' & Hrun)].
    - by apply iterate_preserves.
    - eapply run_loop_preserves; [exact Hmodel|exact Htools|exact Hrun|done]. }
  destruct Hreached as [H|[H|H]]; revert H; apply Hany.
  - intros msgs w0. rewrite simple_call_model_run. by eexists _, _.
  - apply simple_call_tools_sound.
  - intros msgs w0. rewrite rag_call_model_run. by eexists _, _.
  - apply rag_call_tools_sound.
  - intros msgs w0. rewrite service_call_model_run. by eexists _, _.
  - apply service_call_tools_sound.
Qed.

Lemma human_messages_answer_earlier_request query :
  answers_earlier_request [HumanMessage query].
Proof.
  intros j content id Hj. destruct j as [|j]; simpl in Hj; [discriminate|].
  by rewrite lookup_nil in Hj.
Qed.

Lemma tool_results_answer_earlier_requests_witness :
  answers_earlier_request [HumanMessage "Calculate 11 + 13 + 20"]
  /\ answers_earlier_request
       [HumanMessage "Calculate 11 + 13 + 20";
        AIMessage "" [sample_request "add" 1 2 "call_1"];
        ToolMessage "3.0" "call_1";
        AIMessage "" [sample_request "add" 1 2 "call_1"];
        ToolMessage "3.0" "call_1"].
Proof.
  split; [apply human_messages_answer_earlier_request|].
  apply (tool_results_answer_earlier_requests sample_repr looping_model
           sample_tools None [HumanMessage "Calculate 11 + 13 + 20"] 50
           sample_world).
  - apply human_messages_answer_earlier_request.
  - left. left. exists 4%nat. vm_compute. reflexivity.
Defined.

(** ** The scripts *)

Lemma print_all_run lines (p : Scripts.Proc) :
  Scripts.print_all lines p
  = (inr tt, Scripts.mkProc (Scripts.stdout p ++ lines) (Scripts.files p)
                            (Scripts.calls p)).
Proof.
  revert p. induction lines as [|line lines IH]; intros p.
  - destruct p. simpl. unfold Scripts.pure. simpl. by rewrite app_nil_r.
  - simpl. unfold Scripts.and_then, Scripts.print at 1. rewrite IH. simpl.
    by rewrite <- app_assoc.
Qed.

(** The upload never stops the script and writes no local file. *)
Lemma upload_run environ sdk (p : Scripts.Proc) :
  exists out made,
    Scripts.upload environ sdk p
    = (inr tt, Scripts.mkProc out (Scripts.files p) made).
Proof.
  unfold Scripts.upload.
  destruct (negb _).
  - destruct (_ || _); [|destruct p; by eexists _, _].
    unfold Scripts.and_then, Scripts.print. by eexists _, _.
  - unfold Scripts.try_except, Scripts.and_then, Scripts.outside, Scripts.print.
    destruct sdk as [? ? ? c1 c2 c3 c4 c5 c6]; simpl.
    destruct c1 as [?|[]], c2 as [?|[]], c3 as [?|?], c4 as [?|[]],
             c5 as [?|[]], c6 as [?|[]]; simpl; by eexists _, _.
Qed.

Lemma string_append_assoc (a b c : string) : (a +:+ b) +:+ c = a +:+ (b +:+ c).
Proof.
  induction a as [|x a IH]; [done|].
  change (String x ((a +:+ b) +:+ c) = String x (a +:+ (b +:+ c))). by f_equal.
Qed.

Lemma string_append_nil_l (s : string) : "" +:+ s = s.
Proof. reflexivity. Qed.

Lemma lstrip_subset l (c : ascii) : In c (Scripts.lstrip l) -> In c l.
Proof.
  induction l as [|x l IH]; simpl; [done|].
  destruct (Scripts.is_space x); [|done]. intros H. right. by apply IH.
Qed.

Lemma strip_subset l (c : ascii) : In c (Scripts.strip l) -> In c l.
Proof.
  unfold Scripts.strip. rewrite <- in_rev. intros H.
  apply lstrip_subset in H. rewrite <- in_rev in H. by apply lstrip_subset.
Qed.

Lemma prompt_safe_sanitized environ isalnum :
  Forall (fun c => isalnum c = true \/ c = "-"%char \/ c = "_"%char)
         (list_ascii_of_string (Scripts.prompt_safe environ isalnum)).
Proof.
  unfold Scripts.prompt_safe. rewrite list_ascii_of_string_of_list_ascii.
  rewrite Forall_forall. intros c Hc.
  apply list_elem_of_In in Hc. apply in_map_iff in Hc as (x & Hcx & Hx).
  apply strip_subset in Hx. apply filter_In in Hx as [_ Hkeep].
  subst c.
  destruct (Ascii.eqb_spec x " ") as [Heq|Hsp]; [by right; right|].
  rewrite !orb_true_iff in Hkeep.
  destruct Hkeep as [[[H|H]|H]|H]; [by left|discriminate| |].
  - apply Ascii.eqb_eq in H. by right; left.
  - apply Ascii.eqb_eq in H. by right; right.
Qed.

(** ** [str.strip] *)

Lemma lstrip_spec l :
  exists leading,
    l = leading ++ Scripts.lstrip l
    /\ Forall (fun c => Scripts.is_space c = true) leading
    /\ forall c, head (Scripts.lstrip l) = Some c -> Scripts.is_space c = false.
Proof.
  induction l as [|x l (leading & Hl & Hleading & Hhead)]; simpl.
  - exists []. split; [done|]. split; [constructor|discriminate].
  - destruct (Scripts.is_space x) eqn:Hx.
    + exists (x :: leading). split; [by rewrite Hl at 1|].
      split; [by constructor|exact Hhead].
    + exists []. split; [done|]. split; [constructor|].
      by intros c [= <-].
Qed.

Lemma lstrip_spaces l :
  Forall (fun c => Scripts.is_space c = true) l -> Scripts.lstrip l = [].
Proof. induction 1 as [|x l Hx _ IH]; simpl; [done|by rewrite Hx]. Qed.

Lemma lstrip_app_spaces leading l :
  Forall (fun c => Scripts.is_space c = true) leading ->
  Scripts.lstrip (leading ++ l) = Scripts.lstrip l.
Proof. induction 1 as [|x leading Hx _ IH]; simpl; [done|by rewrite Hx]. Qed.

Lemma lstrip_head x l :
  Scripts.is_space x = false -> Scripts.lstrip (x :: l) = x :: l.
Proof. intros Hx. simpl. by rewrite Hx. Qed.

(** [strip] gives what [stripped] describes. *)
Lemma strip_stripped l : stripped l (Scripts.strip l).
Proof.
  unfold Scripts.strip.
  destruct (lstrip_spec l) as (leading & Hl & Hleading & Hhead).
  destruct (lstrip_spec (rev (Scripts.lstrip l)))
    as (trailing & Hr & Htrailing & Hlast).
  set (m := Scripts.lstrip l) in *.
  set (r := Scripts.lstrip (rev m)) in *.
  assert (Hm : m = rev r ++ rev trailing).
  { rewrite <- rev_app_distr, <- Hr. by rewrite rev_involutive. }
  exists leading, (rev trailing). split; [by rewrite <- Hm|].
  split; [exact Hleading|]. split; [by apply Forall_rev|]. split.
  - intros c Hc. apply Hhead. rewrite Hm.
    destruct (rev r); [discriminate|exact Hc].
  - intros c Hc. apply Hlast. rewrite <- (rev_involutive r).
    destruct (rev r) as [|y t] using rev_ind; [discriminate|].
    rewrite last_snoc in Hc. rewrite rev_app_distr. simpl. exact Hc.
Qed.

(** And nothing else. *)
Lemma stripped_strip l middle : stripped l middle -> middle = Scripts.strip l.
Proof.
  intros (leading & trailing & -> & Hleading & Htrailing & Hhead & Hlast).
  unfold Scripts.strip. rewrite (lstrip_app_spaces _ _ Hleading).
  destruct middle as [|x middle].
  - simpl. rewrite (lstrip_spaces _ Htrailing). reflexivity.
  - rewrite <- app_comm_cons, (lstrip_head x _ (Hhead x eq_refl)).
    rewrite app_comm_cons, rev_app_distr.
    rewrite lstrip_app_spaces by (by apply Forall_rev).
    destruct (rev (x :: middle)) as [|y t] eqn:Hrev.
    { apply (f_equal (@length ascii)) in Hrev.
      rewrite length_rev in Hrev. discriminate. }
    assert (Hy : last (x :: middle) = Some y).
    { rewrite <- (rev_involutive (x :: middle)), Hrev. simpl.
      by rewrite last_snoc. }
    rewrite (lstrip_head y _ (Hlast y Hy)), <- Hrev.
    by rewrite rev_involutive.
Qed.

(** The fragment in the file name is the sanitized fragment of the
    prompt, and a prompt has one sanitized fragment only. *)
Lemma prompt_safe_sanitized_fragment environ isalnum :
  sanitized_fragment isalnum (Scripts.PROMPT environ)
    (Scripts.prompt_safe environ isalnum).
Proof. eexists. split; [apply strip_stripped|reflexivity]. Qed.

Lemma sanitized_fragment_unique isalnum prompt fragment fragment' :
  sanitized_fragment isalnum prompt fragment ->
  sanitized_fragment isalnum prompt fragment' ->
  fragment = fragment'.
Proof.
  intros (m & Hm & ->) (m' & Hm' & ->).
  by rewrite (stripped_strip _ _ Hm), (stripped_strip _ _ Hm').
Qed.

(** ** C8: missing environment variables *)





(** *** Scripts that run to their end *)

Lemma extends_refl p : extends p p.
Proof. exists [], []. destruct p. simpl. by rewrite !app_nil_r. Qed.

Lemma extends_trans p1 p2 p3 : extends p1 p2 -> extends p2 p3 -> extends p1 p3.
Proof.
  intros (a & b & ->) (c & d & ->). exists (a ++ c), (b ++ d). simpl.
  by rewrite !app_assoc.
Qed.

Lemma completes_pure {A} (a : A) : completes (Scripts.pure a).
Proof. intros p. exists a, p. split; [done|apply extends_refl]. Qed.

Lemma completes_print line : completes (Scripts.print line).
Proof.
  intros p. eexists tt, _. split; [reflexivity|].
  exists [line], []. simpl. by rewrite app_nil_r.
Qed.

Lemma completes_from_result {A} (a : A) : completes (Scripts.from_result (inr a)).
Proof. intros p. exists a, p. split; [done|apply extends_refl]. Qed.

Lemma completes_and_then {A B} (m : Scripts.Script A) (k : A -> Scripts.Script B) :
  completes m -> (forall a, completes (k a)) -> completes (Scripts.and_then m k).
Proof.
  intros Hm Hk p. destruct (Hm p) as (a & p1 & Hrun & Hext).
  destruct (Hk a p1) as (b & p2 & Hrun2 & Hext2).
  exists b, p2. unfold Scripts.and_then. rewrite Hrun, Hrun2.
  split; [done|by eapply extends_trans].
Qed.

Lemma completes_print_all lines : completes (Scripts.print_all lines).
Proof.
  intros p. rewrite print_all_run. eexists tt, _. split; [reflexivity|].
  exists lines, []. simpl. by rewrite app_nil_r.
Qed.

Lemma completes_no_exit {A} (s : Scripts.Script A) : completes s -> no_exit s.
Proof. intros Hs p. by destruct (Hs p) as (a & p' & -> & Hext). Qed.

Lemma no_exit_outside {A} op (outcome : Result A) :
  no_exit (Scripts.outside op outcome).
Proof.
  intros p. unfold Scripts.outside.
  assert (extends p (Scripts.mkProc (Scripts.stdout p) (Scripts.files p)
                                    (Scripts.calls p ++ [op]))).
  { exists [], [op]. simpl. by rewrite app_nil_r. }
  by destruct outcome.
Qed.

Lemma no_exit_and_then {A B} (m : Scripts.Script A) (k : A -> Scripts.Script B) :
  no_exit m -> (forall a, no_exit (k a)) -> no_exit (Scripts.and_then m k).
Proof.
  intros Hm Hk p. unfold Scripts.and_then. specialize (Hm p).
  destruct (m p) as [[[code|e]|a] p1]; [done|done|].
  specialize (Hk a p1). destruct (k a p1) as [[[code|e]|b] p2]; [done| |];
    by eapply extends_trans.
Qed.

Lemma completes_try_except {A} (body : Scripts.Script A) handler :
  no_exit body -> (forall e, completes (handler e)) ->
  completes (Scripts.try_except body handler).
Proof.
  intros Hbody Hhandler p. unfold Scripts.try_except. specialize (Hbody p).
  destruct (body p) as [[[code|e]|a] p1]; [done| |by exists a, p1].
  destruct (Hhandler e p1) as (a & p2 & -> & Hext).
  exists a, p2. split; [done|by eapply extends_trans].
Qed.

Lemma ends_with_prints x y :
  ends_with [x; y] (Scripts.and_then (Scripts.print x) (fun _ => Scripts.print y)).
Proof.
  intros p. exists tt, [], []. unfold Scripts.and_then, Scripts.print. simpl.
  by rewrite <- app_assoc, app_nil_r.
Qed.

Lemma ends_with_and_then {A B} closing (m : Scripts.Script A)
    (k : A -> Scripts.Script B) :
  completes m -> (forall a, ends_with closing (k a)) ->
  ends_with closing (Scripts.and_then m k).
Proof.
  intros Hm Hk p. destruct (Hm p) as (a & p1 & Hrun & (out & made & ->)).
  destruct (Hk a (Scripts.mkProc (Scripts.stdout p ++ out) (Scripts.files p)
                                 (Scripts.calls p ++ made)))
    as (b & out2 & made2 & Hrun2).
  exists b, (out ++ out2), (made ++ made2). unfold Scripts.and_then.
  rewrite Hrun, Hrun2. simpl. by rewrite <- !app_assoc.
Qed.

(** Takes a goal about a script apart along the script's structure. *)
Ltac script_structure :=
  repeat
    (cbv beta zeta;
     lazymatch goal with
     | |- ends_with _ (Scripts.and_then (Scripts.print _)
                                        (fun _ => Scripts.print _)) =>
         apply ends_with_prints
     | |- ends_with _ (Scripts.and_then _ _) =>
         apply ends_with_and_then; [|intros ?]
     | |- completes (Scripts.print _) => apply completes_print
     | |- completes (Scripts.print_all _) => apply completes_print_all
     | |- completes (Scripts.pure _) => apply completes_pure
     | |- completes (Scripts.from_result (inr _)) => apply completes_from_result
     | |- completes (Scripts.and_then _ _) =>
         apply completes_and_then; [|intros ?]
     | |- completes (Scripts.try_except _ _) =>
         apply completes_try_except; [|intros ?]
     | |- completes (if ?b then _ else _) => destruct b
     | |- no_exit (Scripts.outside _ _) => apply no_exit_outside
     | |- no_exit (Scripts.and_then _ _) => apply no_exit_and_then; [|intros ?]
     | |- no_exit _ => apply completes_no_exit
     end).

Lemma and_then_print {A} line (k : unit -> Scripts.Script A) p :
  Scripts.and_then (Scripts.print line) k p
  = k tt (Scripts.mkProc (Scripts.stdout p ++ [line]) (Scripts.files p)
                         (Scripts.calls p)).
Proof. reflexivity. Qed.





(** ** C9: the file a chat invocation leaves *)

(** C9.  When the chat invocation succeeds (the SDK calls return, the
    response yields a content [r], and the directory and the file can be
    written), [chat_invoke.py] leaves the file system as it was except for
    one file, under the relative directory [data/raw] of the working
    directory.  The file's name holds the timestamp and the sanitized
    fragment of the prompt [p]: of the first thirty characters of [p],
    those that are alphanumeric, a space, a hyphen or an underscore, in
    their order, without the white space at the two ends and with an
    underscore for every space.  Its content is exactly
    ["Prompt: <p>\n\nResponse:\n<r>\n"].  The script ends with
    status 0. *)
Theorem chat_invoke_writes_one_file environ sdk disk timestamp isalnum
    response r (proc : Scripts.Proc) :
  Scripts.Credentials sdk = inr tt ->
  Scripts.ModelInference sdk = inr tt ->
  Scripts.chat sdk = inr response ->
  Scripts.extract_content response = inr r ->
  Scripts.mkdir disk = inr tt ->
  Scripts.open_output_file disk = inr tt ->
  Scripts.write_prompt disk = inr tt ->
  Scripts.write_response disk = inr tt ->
  let p := Scripts.PROMPT environ in
  let result := Scripts.chat_invoke environ sdk disk timestamp isalnum proc in
  exists fragment,
    sanitized_fragment isalnum p fragment
    /\ Scripts.files (snd result)
       = <["data/raw/response_" +:+ timestamp +:+ "_" +:+ fragment +:+ ".txt"
           := "Prompt: " +:+ p +:+ nl +:+ nl
              +:+ "Response:" +:+ nl +:+ r +:+ nl]>
           (Scripts.files proc)
    /\ Scripts.exit_status (fst result) = 0%nat
    /\ Forall (fun c => isalnum c = true \/ c = "-"%char \/ c = "_"%char)
              (list_ascii_of_string fragment).
Proof.
  intros HC HM Hchat Hext Hmkdir Hopen Hprompt Hresponse p result.
  exists (Scripts.prompt_safe environ isalnum).
  split; [apply prompt_safe_sanitized_fragment|].
  set (path := "data/raw/response_" +:+ timestamp +:+ "_"
               +:+ Scripts.prompt_safe environ isalnum +:+ ".txt").
  split; [|split; [|apply prompt_safe_sanitized]]; unfold result;
    unfold Scripts.chat_invoke, Scripts.try_except, Scripts.and_then,
      Scripts.outside, Scripts.from_result, Scripts.print, Scripts.open_w,
      Scripts.write;
    rewrite HC, HM, Hchat, Hext, Hmkdir, Hopen, Hprompt, Hresponse;
    cbn [Scripts.stdout Scripts.files Scripts.calls];
    match goal with
    | |- context [Scripts.upload environ sdk ?q] =>
        destruct (upload_run environ sdk q) as (out & made & ->)
    end; cbn [fst snd Scripts.files Scripts.exit_status]; [|done].
  change (Scripts.output_file environ timestamp isalnum) with path.
  rewrite lookup_insert_eq. cbn [default]. rewrite insert_insert_eq.
  rewrite lookup_insert_eq. cbn [default]. rewrite insert_insert_eq.
  f_equal. unfold id. by rewrite string_append_nil_l, !string_append_assoc.
Qed.

Lemma chat_invoke_writes_one_file_witness :
  Scripts.Credentials sample_chat_sdk = inr tt
  /\ Scripts.ModelInference sample_chat_sdk = inr tt
  /\ Scripts.chat sample_chat_sdk
     = inr (Scripts.ChoicesResponse ["AI is the simulation of human intelligence."])
  /\ Scripts.extract_content
       (Scripts.ChoicesResponse ["AI is the simulation of human intelligence."])
     = inr "AI is the simulation of human intelligence."
  /\ Scripts.mkdir writable_disk = inr tt
  /\ Scripts.open_output_file writable_disk = inr tt
  /\ Scripts.write_prompt writable_disk = inr tt
  /\ Scripts.write_response writable_disk = inr tt
  /\ exists fragment,
       sanitized_fragment ascii_isalnum (Scripts.PROMPT sample_environ) fragment
       /\ Scripts.files
            (snd (Scripts.chat_invoke sample_environ sample_chat_sdk
                    writable_disk "20261104_101500" ascii_isalnum
                    Scripts.start))
          = <[ "data/raw/response_" +:+ "20261104_101500" +:+ "_"
               +:+ fragment +:+ ".txt"
               := "Prompt: " +:+ Scripts.PROMPT sample_environ +:+ nl
                  +:+ nl +:+ "Response:" +:+ nl
                  +:+ "AI is the simulation of human intelligence." +:+ nl ]>
              (Scripts.files Scripts.start).
Proof.
  assert (H1 : Scripts.Credentials sample_chat_sdk = inr tt) by reflexivity.
  assert (H2 : Scripts.ModelInference sample_chat_sdk = inr tt) by reflexivity.
  assert (H3 : Scripts.chat sample_chat_sdk
               = inr (Scripts.ChoicesResponse
                        ["AI is the simulation of human intelligence."]))
    by reflexivity.
  assert (H4 : Scripts.extract_content
                 (Scripts.ChoicesResponse
                    ["AI is the simulation of human intelligence."])
               = inr "AI is the simulation of human intelligence.")
    by reflexivity.
  assert (H5 : Scripts.mkdir writable_disk = inr tt) by reflexivity.
  assert (H6 : Scripts.open_output_file writable_disk = inr tt) by reflexivity.
  assert (H7 : Scripts.write_prompt writable_disk = inr tt) by reflexivity.
  assert (H8 : Scripts.write_response writable_disk = inr tt) by reflexivity.
  repeat (split; [assumption|]).
  destruct (chat_invoke_writes_one_file sample_environ sample_chat_sdk
              writable_disk "20261104_101500" ascii_isalnum _ _ Scripts.start
              H1 H2 H3 H4 H5 H6 H7 H8) as (fragment & Hfragment & Hfiles & _).
  exists fragment. split; [exact Hfragment|exact Hfiles].
Defined.

(** The sample prompt ["What is AI? (short answer)"]: the question mark and
    the brackets go, the spaces become underscores. *)
Example sample_prompt_fragment :
  sanitized_fragment ascii_isalnum "What is AI? (short answer)"
    "What_is_AI_short_answer".
Proof.
  exists (list_ascii_of_string "What is AI short answer"). split; [|reflexivity].
  exists [], []. split; [vm_compute; reflexivity|].
  split; [constructor|]. split; [constructor|].
  split; intros c [= <-]; reflexivity.
Qed.

Example chat_invoke_file_name :
  Scripts.output_file sample_environ "20261104_101500" ascii_isalnum
  = "data/raw/response_20261104_101500_What_is_AI_short_answer.txt".
Proof. vm_compute. reflexivity. Qed.

Example chat_invoke_file_content :
  Scripts.files
    (snd (Scripts.chat_invoke sample_environ sample_chat_sdk writable_disk
            "20261104_101500" ascii_isalnum Scripts.start))
  !! "data/raw/response_20261104_101500_What_is_AI_short_answer.txt"
  = Some ("Prompt: What is AI? (short answer)" +:+ nl +:+ nl
          +:+ "Response:" +:+ nl
          +:+ "AI is the simulation of human intelligence." +:+ nl).
Proof. vm_compute. reflexivity. Qed.

(** ** C10: division by zero *)

(** C10.  A request to the registered [divide] tool whose second argument
    is zero: the callable raises [ZeroDivisionError]; the dispatcher of
    09_simple_agents.py appends a tool message whose content is ["Error: "]
    followed by the exception text; and the tools node hands the
    conversation, with that message at its end, back to the model node. *)
Theorem divide_by_zero_becomes_error_message {W} repr_float
    (model : list Message -> W -> AIResponse * W)
    validate_args zero_division_text tc a b acc conversation c st
    recursion_limit (w : World W) :
  tc_name tc = "divide" ->
  validate_args (get_args tc) = inr (a, b) ->
  PrimFloat.eqb b 0%float = true ->
  let tools := Simple.tools validate_args zero_division_text in
  let answer := ToolMessage ("Error: " +:+ zero_division_text) (get_id tc) in
  let w' := mkWorld (env w) (log w ++ [invocation_of tc]) in
  func (Simple.divide validate_args zero_division_text) (get_args tc) (env w)
  = (inl (mkException ZeroDivisionError zero_division_text), env w)
  /\ Simple.call_tool repr_float tools tc acc w = (acc ++ [answer], w')
  /\ String.prefix "Error:" (content answer) = true
  /\ (last conversation = Some (AIMessage c [tc]) ->
      (st < recursion_limit)%nat ->
      superstep (Simple.call_model model) (Simple.call_tools repr_float tools)
        recursion_limit (mkConfig tools_node conversation st) w
      = (Continue (mkConfig agent (conversation ++ [answer]) (S st)), w')).
Proof.
  intros Hname Hargs Hzero tools answer w'.
  assert (Hfunc : func (Simple.divide validate_args zero_division_text)
                    (get_args tc) (env w)
                  = (inl (mkException ZeroDivisionError zero_division_text), env w)).
  { simpl. by rewrite Hargs, Hzero. }
  assert (Hfind : find_tool tools (tc_name tc)
                  = Some (Simple.divide validate_args zero_division_text)).
  { rewrite Hname. reflexivity. }
  assert (Hcall : forall acc0,
             Simple.call_tool repr_float tools tc acc0 w = (acc0 ++ [answer], w')).
  { intros acc0. rewrite (simple_call_tool_registered _ _ _ _ _ _ Hfind).
    by rewrite Hfunc. }
  split; [done|]. split; [apply Hcall|]. split; [done|].
  intros Hlast Hlt.
  assert (Hct : Simple.call_tools repr_float tools conversation w
                = (inr [answer], w')).
  { unfold Simple.call_tools. rewrite (last_message_Some _ _ Hlast).
    replace (negb (has_tool_calls (AIMessage c [tc]))) with false by reflexivity.
    cbn [tool_calls_of Simple.for_tool_calls]. unfold bind.
    by rewrite (Hcall []). }
  unfold superstep. cbn [node step messages].
  destruct (Nat.leb_spec recursion_limit st) as [?|_]; [lia|].
  unfold bind. by rewrite Hct.
Qed.

Lemma divide_by_zero_becomes_error_message_witness :
  tc_name (sample_request "divide" 1 0 "call_7") = "divide"
  /\ sample_validate (get_args (sample_request "divide" 1 0 "call_7"))
     = inr (1%float, 0%float)
  /\ PrimFloat.eqb 0%float 0%float = true
  /\ Simple.call_tool sample_repr sample_tools
       (sample_request "divide" 1 0 "call_7") [] sample_world
     = ([ToolMessage "Error: float division by zero" "call_7"],
        mkWorld tt [invocation_of (sample_request "divide" 1 0 "call_7")]).
Proof.
  assert (H1 : tc_name (sample_request "divide" 1 0 "call_7") = "divide")
    by reflexivity.
  assert (H2 : sample_validate (get_args (sample_request "divide" 1 0 "call_7"))
               = inr (1%float, 0%float)) by (vm_compute; reflexivity).
  assert (H3 : PrimFloat.eqb 0%float 0%float = true) by reflexivity.
  split; [exact H1|]. split; [exact H2|]. split; [exact H3|].
  exact (proj1 (proj2 (divide_by_zero_becomes_error_message sample_repr
                         looping_model sample_validate "float division by zero"
                         (sample_request "divide" 1 0 "call_7") 1%float 0%float
                         [] [] "" 0 1 sample_world H1 H2 H3))).
Defined.

(** * Further properties of the code *)

(** ** Strings *)

Lemma string_length_append (a b : string) :
  String.length (a +:+ b) = (String.length a + String.length b)%nat.
Proof.
  induction a as [|x a IH]; [done|].
  change (S (String.length (a +:+ b)) = S (String.length a + String.length b)).
  by rewrite IH.
Qed.

Lemma length_slice_to_le n s : (String.length (slice_to n s) <= n)%nat.
Proof.
  unfold slice_to. revert s. induction n as [|n IH]; intros s.
  - by destruct s.
  - destruct s as [|c s]; simpl; [lia|]. specialize (IH s). lia.
Qed.

Lemma slice_to_short n s : (String.length s <= n)%nat -> slice_to n s = s.
Proof.
  unfold slice_to. revert s. induction n as [|n IH]; intros s Hle.
  - destruct s; simpl in *; [done|lia].
  - destruct s as [|c s]; simpl in *; [done|]. rewrite IH; [done|lia].
Qed.

(** ** The length of tool messages *)

(** X1.  The content the dispatchers of 11_rag_agent.py and
    13_ai_service_deploy.py give a tool result is bounded: at most 2000
    characters in 11, at most 2015 (2000 and the marker) in 13; a result of
    at most 2000 characters is passed on unchanged by both. *)
Theorem tool_content_length_bounds repr_float result :
  (String.length (Rag.tool_content repr_float result) <= 2000)%nat
  /\ (String.length (Service.tool_content repr_float result) <= 2015)%nat
  /\ ((String.length (str repr_float result) <= 2000)%nat ->
      Rag.tool_content repr_float result = str repr_float result
      /\ Service.tool_content repr_float result = str repr_float result).
Proof.
  unfold Rag.tool_content, Service.tool_content. cbv zeta.
  change TRUNCATION_BOUND with 2000%nat.
  destruct (Nat.ltb_spec 2000 (String.length (str repr_float result))) as [Hlong|Hshort].
  - split; [apply length_slice_to_le|]. split; [|lia].
    rewrite string_length_append.
    pose proof (length_slice_to_le 2000 (str repr_float result)).
    change (String.length "... [truncated]") with 15%nat. lia.
  - split; [lia|]. split; [lia|done].
Qed.

(** ** The dispatchers of 11 and 13, request by request *)

Lemma answers_not_human calls new :
  Forall2 answers calls new -> Forall (fun m => is_HumanMessage m = false) new.
Proof. induction 1 as [|tc m ? ? (c & ->)]; by constructor. Qed.

Section RagDispatch.

Context {W : Type}.
Variable repr_float : float -> string.
Variable tools : list (Tool W).

Lemma rag_for_tool_calls_spec calls : forall acc (w : World W),
  exists new w',
    Rag.for_tool_calls repr_float tools calls acc w = (acc ++ new, w')
    /\ log w' = log w ++ map invocation_of (List.filter (is_registered tools) calls)
    /\ Forall2 answers (List.filter (is_registered tools) calls) new.
Proof.
  induction calls as [|tc rest IH]; intros acc w; simpl.
  - exists [], w. unfold ret. rewrite !app_nil_r. by repeat split.
  - unfold bind.
    destruct (find_tool tools (tc_name tc)) as [t|] eqn:Hfind.
    + assert (is_registered tools tc = true) as ->
        by (unfold is_registered; by rewrite Hfind).
      rewrite (rag_call_tool_registered _ _ _ _ _ _ Hfind).
      edestruct IH as (new & w' & -> & Hlog & Hans).
      eexists (_ :: new), w'. split; [by rewrite <- app_assoc|].
      split.
      * rewrite Hlog. simpl. by rewrite <- app_assoc.
      * constructor; [by eexists|exact Hans].
    + assert (is_registered tools tc = false) as ->
        by (unfold is_registered; by rewrite Hfind).
      rewrite (rag_call_tool_unregistered _ _ _ _ _ Hfind).
      apply IH.
Qed.

Lemma service_for_tool_calls_spec calls : forall acc (w : World W),
  exists new w' events,
    Service.for_tool_calls repr_float tools calls acc w = (acc ++ new, w')
    /\ log w' = log w ++ events
    /\ List.filter is_invocation events
       = map invocation_of (List.filter (is_registered tools) calls)
    /\ Forall (fun e => is_model_call e = false) events
    /\ Forall2 answers calls new.
Proof.
  induction calls as [|tc rest IH]; intros acc w; simpl.
  - exists [], w, []. unfold ret. rewrite !app_nil_r. by repeat split.
  - unfold bind.
    destruct (find_tool tools (tc_name tc)) as [t|] eqn:Hfind.
    + assert (is_registered tools tc = true) as ->
        by (unfold is_registered; by rewrite Hfind).
      destruct (fst (func t (get_args tc) (env w))) as [e|result] eqn:Hres.
      * rewrite (service_call_tool_raised _ _ _ _ _ _ _ Hfind Hres).
        edestruct IH as (new & w' & events & -> & Hlog & Hinv & Hev & Hans).
        eexists (_ :: new), w', (_ :: _ :: events).
        split; [by rewrite <- app_assoc|]. split.
        { rewrite Hlog. simpl. by rewrite <- !app_assoc. }
        split; [simpl; by rewrite Hinv|].
        split; [by repeat constructor|].
        constructor; [by eexists|exact Hans].
      * rewrite (service_call_tool_returned _ _ _ _ _ _ _ Hfind Hres).
        edestruct IH as (new & w' & events & -> & Hlog & Hinv & Hev & Hans).
        eexists (_ :: new), w', (_ :: events).
        split; [by rewrite <- app_assoc|]. split.
        { rewrite Hlog. simpl. by rewrite <- !app_assoc. }
        split; [simpl; by rewrite Hinv|].
        split; [by repeat constructor|].
        constructor; [by eexists|exact Hans].
    + assert (is_registered tools tc = false) as ->
        by (unfold is_registered; by rewrite Hfind).
      rewrite (service_call_tool_not_found _ _ _ _ _ Hfind).
      edestruct IH as (new & w' & events & -> & Hlog & Hinv & Hev & Hans).
      eexists (_ :: new), w', (_ :: events).
      split; [by rewrite <- app_assoc|]. split.
      { rewrite Hlog. simpl. by rewrite <- !app_assoc. }
      split; [simpl; by rewrite Hinv|].
      split; [by repeat constructor|].
      constructor; [by eexists|exact Hans].
Qed.

End RagDispatch.



(** ** The registry *)

(** X4.  The search for a tool stops at the first tool with the requested
    name: a tool registered after another one of the same name is never
    found, whatever stands behind it in the registry. *)
Theorem find_tool_first_match {W} (before after : list (Tool W)) (t : Tool W) :
  Forall (fun t' => String.eqb (name t') (name t) = false) before ->
  find_tool (before ++ t :: after) (name t) = Some t.
Proof.
  induction 1 as [|t' before Hne _ IH]; simpl.
  - by rewrite String.eqb_refl.
  - by rewrite Hne.
Qed.

Lemma find_tool_first_match_witness :
  Forall (fun t' : Tool unit => String.eqb (name t') (name failing_tool) = false)
         (Simple.tools sample_validate "float division by zero")
  /\ find_tool (Simple.tools sample_validate "float division by zero"
                ++ failing_tool :: [long_tool]) "search"
     = Some failing_tool.
Proof.
  assert (H : Forall (fun t' : Tool unit =>
                        String.eqb (name t') (name failing_tool) = false)
                     (Simple.tools sample_validate "float division by zero"))
    by (repeat constructor).
  split; [exact H|].
  exact (find_tool_first_match _ [long_tool] failing_tool H).
Defined.

(** ** The utility tools of 11 and 13 *)

Section UtilityTools.

Context {W : Type}.
Variable repr_float : float -> string.
Variable str_dict : Args -> string.

(** X5.  A utility tool of 11_rag_agent.py never raises: when the toolkit's
    call raises, [run_tool] returns the text ["Tool execution failed: ..."],
    so for a request naming such a tool the dispatcher of that file takes
    its success path: the tool message holds that text (cut at 2000
    characters), not ["Error: ..."], and nothing but the invocation is
    logged. *)
Theorem rag_utility_failure_is_a_result (tools : list (Tool W))
    input_schema utility_run tool_name tc e acc (w : World W) :
  let tool :=
    RagTools.create_utility_agent_tool repr_float str_dict input_schema
      utility_run tool_name in
  let query := RagTools.query_of repr_float str_dict input_schema (get_args tc) in
  find_tool tools (tc_name tc) = Some tool ->
  fst (utility_run query (env w)) = inl e ->
  func tool (get_args tc) (env w)
  = (inr (PyStr (execution_failed e)), snd (utility_run query (env w)))
  /\ Rag.call_tool repr_float tools tc acc w
     = (acc ++ [ToolMessage (Rag.tool_content repr_float
                               (PyStr ("Tool execution failed: " +:+ str_exc e)))
                            (get_id tc)],
        mkWorld (snd (utility_run query (env w))) (log w ++ [invocation_of tc])).
Proof.
  intros tool query Hfind Hraise.
  assert (Hfunc : func tool (get_args tc) (env w)
                  = (inr (PyStr (execution_failed e)),
                     snd (utility_run query (env w)))).
  { cbn [func tool RagTools.create_utility_agent_tool]. unfold RagTools.run_tool.
    fold query. destruct (utility_run query (env w)) as [[e'|results] env'].
    - simpl in Hraise. by injection Hraise as ->.
    - discriminate. }
  split; [exact Hfunc|].
  rewrite (rag_call_tool_registered _ _ _ _ _ _ Hfind). by rewrite Hfunc.
Qed.

(** X6.  The same for 13_ai_service_deploy.py: when the toolkit's call
    raises, [run_tool] returns ["Tool execution failed: ..."], and the
    dispatcher appends a tool message with that text (cut and marked beyond
    2000 characters); its own error path, with the text ["Error executing
    tool ..."] and a printed line, is not taken. *)
Theorem service_utility_failure_is_a_result (tools : list (Tool W))
    str_query input_schema utility_run print_line tool_name tc e acc
    (w : World W) :
  let tool :=
    ServiceTools.create_utility_agent_tool str_dict str_query input_schema
      utility_run print_line tool_name in
  let query := ServiceTools.query_of str_dict input_schema (get_args tc) in
  find_tool tools (tc_name tc) = Some tool ->
  fst (utility_run query (env w)) = inl e ->
  exists env',
    func tool (get_args tc) (env w) = (inr (PyStr (execution_failed e)), env')
    /\ Service.call_tool repr_float tools tc acc w
       = (acc ++ [ToolMessage (Service.tool_content repr_float
                                 (PyStr ("Tool execution failed: " +:+ str_exc e)))
                              (get_id tc)],
          mkWorld env' (log w ++ [invocation_of tc])).
Proof.
  intros tool query Hfind Hraise.
  assert (Hfunc : exists env',
             func tool (get_args tc) (env w)
             = (inr (PyStr (execution_failed e)), env')).
  { cbn [func tool ServiceTools.create_utility_agent_tool].
    unfold ServiceTools.run_tool. cbv zeta. fold query.
    destruct (utility_run query (env w)) as [[e'|results] env'].
    - simpl in Hraise. injection Hraise as ->. by eexists.
    - discriminate. }
  destruct Hfunc as (env' & Hfunc). exists env'. split; [exact Hfunc|].
  assert (Hres : fst (func tool (get_args tc) (env w))
                 = inr (PyStr (execution_failed e))) by by rewrite Hfunc.
  rewrite (service_call_tool_returned _ _ _ _ _ _ _ Hfind Hres).
  by rewrite Hfunc.
Qed.

(** X7.  A request to a utility tool of 11_rag_agent.py that carries no
    ["input"] argument still reaches the toolkit: without an input schema
    the query is the text ["None"], with one it is the text of the whole
    argument dict. *)
Theorem rag_query_without_input input_schema (tool_input : Args) :
  tool_input !! "input" = None ->
  RagTools.query_of repr_float str_dict input_schema tool_input
  = if input_schema then str_dict tool_input else "None".
Proof.
  intros Hmissing. unfold RagTools.query_of. cbv zeta.
  destruct input_schema; cbn [negb]; rewrite Hmissing; reflexivity.
Qed.

(** X8.  A utility tool of 13_ai_service_deploy.py without an input schema
    hands the toolkit the value of its one argument, whatever the argument
    is called; called with no argument at all it hands over the empty
    string; with a schema it hands over the argument dict as it is. *)
Theorem service_query_selection (key : string) (v : Value) schema
    (tool_input : Args) :
  ServiceTools.query_of str_dict None {[ key := v ]} = QueryValue v
  /\ ServiceTools.query_of str_dict None ∅ = QueryValue (PyStr "")
  /\ ServiceTools.query_of str_dict (Some schema) tool_input
     = QueryDict tool_input.
Proof.
  unfold ServiceTools.query_of, Args. split; [|split; [|done]].
  - by rewrite map_to_list_singleton.
  - rewrite map_to_list_empty. by rewrite lookup_empty, bool_decide_eq_true_2.
Qed.

(** X9.  When the toolkit's call returns, [run_tool] of
    13_ai_service_deploy.py never returns a false value of the result: an
    empty result, or one whose ["output"] is missing, [None], empty or zero,
    is replaced by the text of the whole result. *)
Theorem service_run_tool_output str_query input_schema utility_run print_line
    tool_input results (w : W) :
  let query := ServiceTools.query_of str_dict input_schema tool_input in
  fst (utility_run query w) = inr results ->
  exists output,
    ServiceTools.run_tool str_dict str_query input_schema utility_run
      print_line tool_input w
    = (inr output, snd (utility_run query w))
    /\ (output = PyStr (str_dict results)
        \/ (truthy_value output = true /\ results !! "output" = Some output)).
Proof.
  intros query Hrun. unfold ServiceTools.run_tool. cbv zeta. fold query.
  destruct (utility_run query w) as [[e|results'] w1]; [discriminate|].
  simpl in Hrun. injection Hrun as ->. eexists. split; [reflexivity|].
  case_bool_decide as Hempty; [destruct (negb _); by left|].
  destruct (results !! "output") as [output|] eqn:Hout; cbn [default]; unfold id.
  - destruct (truthy_value output) eqn:Htruthy; cbn [negb];
      [right; split; [exact Htruthy|reflexivity]|by left].
  - by left.
Qed.

End UtilityTools.

Lemma rag_utility_failure_is_a_result_witness :
  find_tool [rag_wikipedia] (tc_name wikipedia_request) = Some rag_wikipedia
  /\ fst (unreachable_toolkit
            (RagTools.query_of sample_repr (fun _ => "{}") false
               (get_args wikipedia_request)) (env sample_world))
     = inl connection_refused
  /\ Rag.call_tool sample_repr [rag_wikipedia] wikipedia_request [] sample_world
     = ([ToolMessage "Tool execution failed: connection refused" "call_1"],
        mkWorld tt [invocation_of wikipedia_request]).
Proof.
  assert (H1 : find_tool [rag_wikipedia] (tc_name wikipedia_request)
               = Some rag_wikipedia) by reflexivity.
  assert (H2 : fst (unreachable_toolkit
                      (RagTools.query_of sample_repr (fun _ => "{}") false
                         (get_args wikipedia_request)) (env sample_world))
               = inl connection_refused) by reflexivity.
  split; [exact H1|]. split; [exact H2|].
  exact (proj2 (rag_utility_failure_is_a_result sample_repr (fun _ => "{}")
                  [rag_wikipedia] false unreachable_toolkit "Wikipedia"
                  wikipedia_request connection_refused [] sample_world H1 H2)).
Defined.

Lemma service_utility_failure_is_a_result_witness :
  find_tool [service_wikipedia] (tc_name wikipedia_request)
  = Some service_wikipedia
  /\ fst (unreachable_toolkit
            (ServiceTools.query_of (fun _ => "{}") None
               (get_args wikipedia_request)) (env sample_world))
     = inl connection_refused
  /\ exists env',
       func service_wikipedia (get_args wikipedia_request) (env sample_world)
       = (inr (PyStr (execution_failed connection_refused)), env')
       /\ Service.call_tool sample_repr [service_wikipedia] wikipedia_request []
            sample_world
          = ([ToolMessage
                (Service.tool_content sample_repr
                   (PyStr ("Tool execution failed: " +:+ str_exc connection_refused)))
                (get_id wikipedia_request)],
             mkWorld env' (log sample_world ++ [invocation_of wikipedia_request])).
Proof.
  assert (H1 : find_tool [service_wikipedia] (tc_name wikipedia_request)
               = Some service_wikipedia) by reflexivity.
  assert (H2 : fst (unreachable_toolkit
                      (ServiceTools.query_of (fun _ => "{}") None
                         (get_args wikipedia_request)) (env sample_world))
               = inl connection_refused) by reflexivity.
  split; [exact H1|]. split; [exact H2|].
  exact (service_utility_failure_is_a_result sample_repr (fun _ => "{}")
           [service_wikipedia] (fun _ => "IBM") None unreachable_toolkit
           (fun _ e => e) "Wikipedia" wikipedia_request connection_refused []
           sample_world H1 H2).
Defined.

Lemma rag_query_without_input_witness :
  get_args wikipedia_request !! "input" = None
  /\ RagTools.query_of sample_repr (fun _ => "{'query': 'IBM'}") false
       (get_args wikipedia_request)
     = "None".
Proof.
  assert (H : get_args wikipedia_request !! "input" = None)
    by (vm_compute; reflexivity).
  split; [exact H|].
  exact (rag_query_without_input sample_repr (fun _ => "{'query': 'IBM'}")
           false _ H).
Defined.

Lemma service_run_tool_output_witness :
  fst (empty_output_toolkit
         (ServiceTools.query_of (fun _ => "{'output': ''}") None
            {[ "input" := PyStr "IBM" ]}) tt)
  = inr {[ "output" := PyStr "" ]}
  /\ exists output,
       ServiceTools.run_tool (fun _ => "{'output': ''}") (fun _ => "IBM") None
         empty_output_toolkit (fun _ e => e) {[ "input" := PyStr "IBM" ]} tt
       = (inr output,
          snd (empty_output_toolkit
                 (ServiceTools.query_of (fun _ => "{'output': ''}") None
                    {[ "input" := PyStr "IBM" ]}) tt))
       /\ (output = PyStr "{'output': ''}"
           \/ (truthy_value output = true
               /\ ({[ "output" := PyStr "" ]} : Args) !! "output" = Some output)).
Proof.
  assert (H : fst (empty_output_toolkit
                     (ServiceTools.query_of (fun _ => "{'output': ''}") None
                        {[ "input" := PyStr "IBM" ]}) tt)
              = inr {[ "output" := PyStr "" ]}) by reflexivity.
  split; [exact H|].
  exact (service_run_tool_output (fun _ => "{'output': ''}") (fun _ => "IBM")
           None empty_output_toolkit (fun _ e => e) {[ "input" := PyStr "IBM" ]}
           {[ "output" := PyStr "" ]} tt H).
Defined.

(** ** Every run ends *)

Section LoopEnds.

Context {W : Type}.
Variable call_model : list Message -> M W (list Message).
Variable call_tools : list Message -> M W (Result (list Message)).

Lemma run_loop_ends recursion_limit fuel : forall (c : Config) (w : World W),
  (recursion_limit - step c < fuel)%nat ->
  exists r w', run_loop call_model call_tools fuel recursion_limit c w = (Some r, w').
Proof.
  induction fuel as [|fuel IH]; intros c w Hfuel; [lia|].
  simpl. unfold bind at 1. unfold superstep.
  destruct c as [n msgs st]; cbn [node step messages] in *.
  destruct n.
  - destruct (Nat.leb_spec recursion_limit st) as [Hle|Hlt]; [by eexists _, _|].
    unfold bind. destruct (call_model msgs w) as [update w1].
    destruct (should_continue _) as [e|next]; [by eexists _, _|].
    unfold ret. apply IH. simpl. lia.
  - destruct (Nat.leb_spec recursion_limit st) as [Hle|Hlt]; [by eexists _, _|].
    unfold bind. destruct (call_tools msgs w) as [[e|update] w1];
      [by eexists _, _|].
    unfold ret. apply IH. simpl. lia.
  - by eexists _, _.
Qed.

Lemma invoke_ends recursion_limit fuel inputs (w : World W) :
  (recursion_limit < fuel)%nat ->
  exists r w', invoke call_model call_tools fuel inputs recursion_limit w = (Some r, w').
Proof. intros Hfuel. apply run_loop_ends. simpl. lia. Qed.

End LoopEnds.

(** ** The request payload of 13_ai_service_deploy.py *)

Lemma plain_answers_earlier_request messages :
  Forall plain messages -> answers_earlier_request messages.
Proof.
  intros Hplain j c id Hj. apply list_elem_of_lookup_2 in Hj.
  rewrite Forall_forall in Hplain. by destruct (Hplain _ Hj) as [? _].
Qed.

Lemma convert_from_spec messages : forall converted inputs,
  ServiceApi.convert_from converted messages = inr inputs ->
  exists new,
    inputs = converted ++ new
    /\ Forall plain new
    /\ map content new
       = map (fun m : ServiceApi.PayloadMessage => default "" (m !! "content"))
             (List.filter is_turn messages).
Proof.
  induction messages as [|m rest IH]; intros converted inputs; simpl.
  - intros [= <-]. exists []. by rewrite app_nil_r.
  - unfold is_turn. destruct (m !! "role") as [role|]; [|discriminate].
    destruct (String.eqb role "user") eqn:Huser; simpl.
    + destruct (m !! "content") as [c|]; [|discriminate].
      intros H. destruct (IH _ _ H) as (new & -> & Hplain & Hmap).
      exists (HumanMessage c :: new). rewrite <- app_assoc.
      split; [done|]. split; [by constructor|]. simpl. by rewrite Hmap.
    + destruct (String.eqb role "assistant") eqn:Hassistant; simpl.
      * destruct (m !! "content") as [c|]; [|discriminate].
        intros H. destruct (IH _ _ H) as (new & -> & Hplain & Hmap).
        exists (AIMessage c [] :: new). rewrite <- app_assoc.
        split; [done|]. split; [by constructor|]. simpl. by rewrite Hmap.
      * apply IH.
Qed.

(** X10.  [convert_messages] keeps the user and assistant messages of the
    payload, in their order and with their contents, and drops the messages
    of every other role; what it returns holds no tool message and no
    tool-call request, so it is a conversation in which every tool message
    answers an earlier request, as the runs of the graph require of their
    input. *)
Theorem convert_messages_conversation messages inputs :
  ServiceApi.convert_messages messages = inr inputs ->
  map content inputs
  = map (fun m : ServiceApi.PayloadMessage => default "" (m !! "content"))
        (List.filter is_turn messages)
  /\ Forall plain inputs
  /\ answers_earlier_request inputs.
Proof.
  intros H. apply convert_from_spec in H as (new & -> & Hplain & Hmap).
  rewrite app_nil_l. split; [done|]. split; [done|].
  by apply plain_answers_earlier_request.
Qed.

Lemma convert_from_malformed messages : forall converted,
  Exists malformed messages ->
  exists e, ServiceApi.convert_from converted messages = inl e.
Proof.
  induction messages as [|m rest IH]; intros converted Hex.
  - by apply Exists_nil in Hex.
  - simpl. apply Exists_cons in Hex.
    destruct (m !! "role") as [role|] eqn:Hrole; [|by eexists].
    assert (Hrest : Exists malformed rest ->
                    forall acc, exists e, ServiceApi.convert_from acc rest = inl e)
      by (intros ? ?; by apply IH).
    destruct (String.eqb role "user") eqn:Huser.
    + destruct (m !! "content") as [c|] eqn:Hc; [|by eexists].
      destruct Hex as [[?|[_ ?]]|Hex]; try congruence. by apply Hrest.
    + destruct (String.eqb role "assistant") eqn:Hassistant.
      * destruct (m !! "content") as [c|] eqn:Hc; [|by eexists].
        destruct Hex as [[?|[_ ?]]|Hex]; try congruence. by apply Hrest.
      * destruct Hex as [[?|[Hturn _]]|Hex]; [congruence| |by apply Hrest].
        unfold is_turn in Hturn. rewrite Hrole, Huser, Hassistant in Hturn.
        discriminate.
Qed.

(** ** The instructions of 13_ai_service_deploy.py *)

Lemma prefix_append (a b : string) : String.prefix a (a +:+ b) = true.
Proof.
  induction a as [|x a IH]; [by destruct b|].
  change (String.prefix (String x a) (String x (a +:+ b)) = true).
  simpl. by destruct (ascii_dec x x).
Qed.

Lemma contains_prefix (needle s : string) :
  String.prefix needle s = true -> contains needle s = true.
Proof. intros H. destruct s; cbn [contains]; by rewrite H. Qed.

Lemma contains_append (needle a b : string) :
  contains needle (a +:+ needle +:+ b) = true.
Proof.
  induction a as [|x a IH].
  - rewrite string_append_nil_l. apply contains_prefix, prefix_append.
  - change (contains needle (String x (a +:+ needle +:+ b)) = true).
    cbn [contains]. rewrite IH. by destruct (String.prefix _ _).
Qed.

Lemma string_append_nil_r (s : string) : s +:+ "" = s.
Proof.
  induction s as [|x s IH]; [done|].
  change (String x (s +:+ "") = String x s). by rewrite IH.
Qed.

Lemma contains_append_l (needle pre s : string) :
  contains needle s = true -> contains needle (pre +:+ s) = true.
Proof.
  intros H. induction pre as [|x pre IH]; [done|].
  change (contains needle (String x (pre +:+ s)) = true).
  cbn [contains]. rewrite IH. by destruct (String.prefix _ _).
Qed.

Lemma prefix_append_r (needle : string) : forall a b,
  String.prefix needle a = true -> String.prefix needle (a +:+ b) = true.
Proof.
  induction needle as [|c needle IH]; intros a b;
    [intros _; by destruct (a +:+ b)|].
  destruct a as [|x a]; [discriminate|].
  change (String.prefix (String c needle) (String x a) = true ->
          String.prefix (String c needle) (String x (a +:+ b)) = true).
  simpl. destruct (ascii_dec c x); [apply IH|discriminate].
Qed.

Lemma contains_append_r (needle a b : string) :
  contains needle a = true -> contains needle (a +:+ b) = true.
Proof.
  induction a as [|x a IH].
  - cbn [contains]. destruct (String.prefix needle "") eqn:Hp; [|discriminate].
    intros _. by apply contains_prefix, prefix_append_r.
  - change (contains needle (String x a) = true ->
            contains needle (String x (a +:+ b)) = true).
    cbn [contains].
    destruct (String.prefix needle (String x a)) eqn:Hp.
    + intros _.
      change (String x (a +:+ b)) with (String x a +:+ b).
      by rewrite (prefix_append_r _ _ b Hp).
    + intros H. rewrite (IH H).
      by destruct (String.prefix needle (String x (a +:+ b))).
Qed.

(** The text the fold of [create_agent] adds for the messages it has
    seen. *)
Lemma create_agent_fold messages : forall start,
  exists added,
    fold_left
      (fun instructions (message : ServiceApi.PayloadMessage) =>
         if bool_decide (message !! "role" = Some "system")
         then instructions +:+ nl +:+ nl +:+ default "" (message !! "content")
         else instructions)
      messages start
    = start +:+ added
    /\ (Forall (fun m : ServiceApi.PayloadMessage => m !! "role" <> Some "system")
               messages -> added = "")
    /\ forall m c, m ∈ messages -> m !! "role" = Some "system" ->
                   m !! "content" = Some c ->
                   contains (nl +:+ nl +:+ c) added = true.
Proof.
  induction messages as [|m rest IH]; intros start; simpl.
  - exists "". split; [by rewrite string_append_nil_r|]. split; [done|].
    intros m c Hin. by apply elem_of_nil in Hin.
  - case_bool_decide as Hsys.
    + destruct (IH (start +:+ nl +:+ nl +:+ default "" (m !! "content")))
        as (added & -> & _ & Hin).
      exists ((nl +:+ nl +:+ default "" (m !! "content")) +:+ added).
      split; [by rewrite !string_append_assoc|]. split.
      * intros Hall. by apply Forall_cons in Hall as [? _].
      * intros m' c Hm' Hrole Hc. apply elem_of_cons in Hm' as [->|Hm'].
        -- rewrite Hc. cbn [default]. unfold id.
           apply contains_append_r.
           pose proof (contains_append (nl +:+ nl +:+ c) "" "") as H.
           by rewrite string_append_nil_l, string_append_nil_r in H.
        -- apply contains_append_l. by eapply Hin.
    + destruct (IH start) as (added & -> & Hnone & Hin).
      exists added. split; [done|]. split.
      * intros Hall. apply Forall_cons in Hall as [_ Hall]. by apply Hnone.
      * intros m' c Hm' Hrole Hc. apply elem_of_cons in Hm' as [->|Hm'];
          [by rewrite Hrole in Hsys|]. by eapply Hin.
Qed.

(** X11.  The system prompt [create_agent] builds always starts with the
    fixed instructions of the file, so it is never empty; the content of
    every system message of the payload stands in it behind a blank line;
    and without system messages it is exactly the fixed instructions. *)
Theorem create_agent_instructions (messages : list ServiceApi.PayloadMessage) :
  String.prefix ServiceApi.instructions (ServiceApi.create_agent messages) = true
  /\ String.eqb (ServiceApi.create_agent messages) "" = false
  /\ (forall m c, m ∈ messages -> m !! "role" = Some "system" ->
                  m !! "content" = Some c ->
                  contains (nl +:+ nl +:+ c) (ServiceApi.create_agent messages) = true)
  /\ (Forall (fun m : ServiceApi.PayloadMessage => m !! "role" <> Some "system")
             messages ->
      ServiceApi.create_agent messages = ServiceApi.instructions).
Proof.
  unfold ServiceApi.create_agent.
  destruct (create_agent_fold messages ServiceApi.instructions)
    as (added & -> & Hnone & Hin).
  split; [apply prefix_append|]. split; [done|]. split.
  - intros m c Hm Hrole Hc. apply contains_append_l. by eapply Hin.
  - intros Hall. rewrite (Hnone Hall). by rewrite string_append_nil_r.
Qed.

Lemma convert_messages_conversation_witness :
  ServiceApi.convert_messages sample_payload
  = inr [HumanMessage "Hi"; AIMessage "Bonjour" []]
  /\ Forall plain [HumanMessage "Hi"; AIMessage "Bonjour" []].
Proof.
  assert (H : ServiceApi.convert_messages sample_payload
              = inr [HumanMessage "Hi"; AIMessage "Bonjour" []])
    by (vm_compute; reflexivity).
  split; [exact H|].
  exact (proj1 (proj2 (convert_messages_conversation sample_payload _ H))).
Defined.

(** ** [generate] of 13_ai_service_deploy.py *)

Lemma previous_content_latest before m after :
  String.eqb (content m) "" = false ->
  Forall (fun x => content x = "") after ->
  ServiceApi.previous_content (rev (before ++ m :: after)) = content m.
Proof.
  intros Hm Hafter. rewrite rev_app_distr. simpl. rewrite <- app_assoc. simpl.
  apply Forall_rev in Hafter.
  induction Hafter as [|x l Hx _ IH]; simpl.
  - by rewrite Hm.
  - by rewrite Hx.
Qed.

Section Generate.

Context {W : Type}.
Variable repr_float : float -> string.
Variable model : list Message -> W -> AIResponse * W.
Variable get_token : W -> Result unit * W.
Variable APIClient : W -> Result unit * W.
Variable ChatWatsonx : W -> Result unit * W.
Variable get_tool : string -> W -> Result (ServiceApi.UtilityTool W) * W.
Variable str_dict : Args -> string.
Variable str_query : Query -> string.
Variable print_line : string -> W -> W.

Local Abbreviation session :=
  (ServiceApi.session get_token APIClient ChatWatsonx get_tool str_dict
     str_query print_line).
Local Abbreviation generate_content :=
  (ServiceApi.generate_content repr_float model get_token APIClient ChatWatsonx
     get_tool str_dict str_query print_line).
Local Abbreviation generate :=
  (ServiceApi.generate repr_float model get_token APIClient ChatWatsonx
     get_tool str_dict str_query print_line).

(** The session calls neither the model nor a tool: all it leaves in the
    log is the warning of [create_tools]. *)
Lemma session_log (w : World W) :
  exists opened w' warnings,
    session w = (opened, w')
    /\ log w' = log w ++ warnings
    /\ tool_warnings warnings.
Proof.
  unfold ServiceApi.session, ServiceApi.create_tools, bind, lift_env, emit, ret.
  destruct (get_token (env w)) as [[e|?] e1]; cbn [env log];
    [eexists _, _, []; split; [reflexivity|]; rewrite app_nil_r; by split; [|left]|].
  destruct (APIClient e1) as [[e|?] e2]; cbn [env log];
    [eexists _, _, []; split; [reflexivity|]; rewrite app_nil_r; by split; [|left]|].
  destruct (ChatWatsonx e2) as [[e|?] e3]; cbn [env log];
    [eexists _, _, []; split; [reflexivity|]; rewrite app_nil_r; by split; [|left]|].
  destruct (get_tool "Wikipedia" e3) as [[e|utility_agent_tool] e4]; cbn [env log].
  - eexists _, _, [_]. split; [reflexivity|]. split; [reflexivity|].
    right. by exists e.
  - eexists _, _, []. split; [reflexivity|]. rewrite app_nil_r.
    by split; [|left].
Qed.

Lemma generate_content_ends fuel messages (w : World W) :
  (Service.recursion_limit < fuel)%nat ->
  exists r w',
    generate_content fuel messages w = (Some r, w')
    /\ match r with
       | inr content => String.eqb content "" = false
       | inl _ => True
       end.
Proof.
  intros Hfuel. unfold ServiceApi.generate_content.
  destruct messages as [[|first rest]|]; [by eexists _, _|..|by eexists _, _].
  unfold bind at 1.
  destruct (session_log w) as ([e|tools] & w0 & warnings & -> & _);
    [by eexists _, _|].
  destruct (ServiceApi.convert_messages (first :: rest)) as [e|inputs];
    [by eexists _, _|].
  unfold bind, Service.graph_invoke.
  match goal with
  | |- context [invoke ?cm ?ct fuel inputs Service.recursion_limit w0] =>
      destruct (invoke_ends cm ct Service.recursion_limit fuel inputs w0 Hfuel)
        as ([e|conversation] & w1 & ->)
  end; [by eexists _, _|].
  destruct (last conversation) as [last_message|]; [|by eexists _, _].
  unfold ret. eexists _, _. split; [reflexivity|]. cbv beta zeta.
  match goal with
  | |- context [negb (String.eqb ?c "")] =>
      destruct (String.eqb c "") eqn:Hc; cbn [negb]; [reflexivity|exact Hc]
  end.
Qed.

(** X12.  [generate] always returns a response, and the content of the
    response is never empty: it is an answer taken from the conversation,
    the text ["No response generated"], or, whenever anything raised (the
    iteration ceiling of the run included), the text ["Error generating
    response: "] followed by the exception text, which the response then
    also carries under ["error"]. *)
Theorem generate_always_answers fuel messages (w : World W) :
  (Service.recursion_limit < fuel)%nat ->
  exists response w',
    generate fuel messages w = (Some response, w')
    /\ String.eqb (ServiceApi.response_content response) "" = false
    /\ match ServiceApi.response_error response with
       | Some text =>
           ServiceApi.response_content response
           = "Error generating response: " +:+ text
       | None => True
       end.
Proof.
  intros Hfuel. unfold ServiceApi.generate, bind.
  destruct (generate_content_ends fuel messages w Hfuel)
    as ([e|answer] & w1 & -> & Hanswer).
  - unfold emit, ret. by eexists _, _.
  - unfold ret. by eexists _, _.
Qed.

(** X13.  A payload [generate] cannot use is answered with an error
    response, and neither the model nor any tool is called: when the
    messages are missing or empty, when a message has no role, or when a
    user or assistant message has no content.  Missing or empty messages
    are rejected at once: nothing happens but the printed error line.  A
    malformed message is found only after the token, the client, the chat
    model and the tools have been made: those calls have acted on the
    world, the warning of [create_tools] may stand before the error line,
    and the error may be the one of a call that raised. *)
Theorem generate_rejects_unusable_payload fuel messages (w : World W) :
  messages = None \/ messages = Some []
  \/ (exists payload, messages = Some payload /\ Exists malformed payload) ->
  exists text warnings w',
    generate fuel messages w
    = (Some (ServiceApi.mkResponse ("Error generating response: " +:+ text)
                                   (Some text)),
       w')
    /\ log w'
       = log w ++ warnings
         ++ [Printed ("Error in generate: Error generating response: " +:+ text)]
    /\ tool_warnings warnings
    /\ (messages = None \/ messages = Some [] ->
        text = "Messages are required in payload"
        /\ warnings = [] /\ env w' = env w).
Proof.
  intros Hbad.
  assert (Hcontent : exists e w0 warnings,
            generate_content fuel messages w = (Some (inl e), w0)
            /\ log w0 = log w ++ warnings
            /\ tool_warnings warnings
            /\ (messages = None \/ messages = Some [] ->
                str_exc e = "Messages are required in payload"
                /\ warnings = [] /\ env w0 = env w)).
  { unfold ServiceApi.generate_content.
    assert (Hempty : forall e, exists (e0 : Exception) w0 warnings,
              (Some (inl e : Result string), w) = (Some (inl e0), w0)
              /\ log w0 = log w ++ warnings
              /\ tool_warnings warnings
              /\ (str_exc e = "Messages are required in payload" ->
                  str_exc e0 = "Messages are required in payload"
                  /\ warnings = [] /\ env w0 = env w)).
    { intros e. exists e, w, []. rewrite app_nil_r. split; [done|].
      split; [done|]. split; [by left|done]. }
    destruct Hbad as [->|[->|(payload & -> & Hex)]].
    - destruct (Hempty (ServiceApi.value_error "Messages are required in payload"))
        as (e & w0 & warnings & H1 & H2 & H3 & H4).
      exists e, w0, warnings. unfold ret. split; [exact H1|]. split; [exact H2|].
      split; [exact H3|]. intros _. by apply H4.
    - destruct (Hempty (ServiceApi.value_error "Messages are required in payload"))
        as (e & w0 & warnings & H1 & H2 & H3 & H4).
      exists e, w0, warnings. unfold ret. split; [exact H1|]. split; [exact H2|].
      split; [exact H3|]. intros _. by apply H4.
    - destruct payload as [|first rest]; [by apply Exists_nil in Hex|].
      unfold bind at 1.
      destruct (session_log w) as ([e|tools] & w0 & warnings & -> & Hlog & Hw).
      + exists e, w0, warnings. unfold ret. split; [done|]. split; [done|].
        split; [done|]. intros [?|?]; discriminate.
      + unfold ServiceApi.convert_messages.
        destruct (convert_from_malformed _ [] Hex) as (e & ->).
        exists e, w0, warnings. unfold ret. split; [done|]. split; [done|].
        split; [done|]. intros [?|?]; discriminate. }
  destruct Hcontent as (e & w0 & warnings & Hcontent & Hlog & Hw & Hempty).
  exists (str_exc e), warnings.
  unfold ServiceApi.generate, bind. rewrite Hcontent. unfold emit, ret.
  eexists. split; [reflexivity|]. cbn [log env].
  split; [by rewrite Hlog, <- app_assoc|]. split; [exact Hw|exact Hempty].
Qed.

(** X14.  When the run of the agent returns a conversation, [generate]
    answers with the content of the last message that has one: the final
    assistant message if its content is not empty, and otherwise the
    nearest earlier message with a content, be it a tool result or the
    user's own question. *)
Theorem generate_returns_latest_content fuel first rest inputs tools
    before m after (w w0 w1 : World W) :
  session w = (inr tools, w0) ->
  ServiceApi.convert_messages (first :: rest) = inr inputs ->
  Service.graph_invoke repr_float model tools
    (Some (ServiceApi.create_agent (first :: rest)))
    fuel inputs Service.recursion_limit w0
  = (Some (inr (before ++ m :: after)), w1) ->
  String.eqb (content m) "" = false ->
  Forall (fun x => content x = "") after ->
  generate fuel (Some (first :: rest)) w
  = (Some (ServiceApi.mkResponse (content m) None), w1).
Proof.
  intros Hsession Hconvert Hrun Hm Hafter.
  unfold ServiceApi.generate, ServiceApi.generate_content.
  unfold bind at 1 2. rewrite Hsession, Hconvert. unfold bind at 1.
  rewrite Hrun.
  assert (Hlast : exists last_message,
             last (before ++ m :: after) = Some last_message
             /\ (if String.eqb (content last_message) ""
                 then ServiceApi.previous_content (rev (before ++ m :: after))
                 else content last_message) = content m).
  { destruct (last after) as [x|] eqn:Hx.
    - exists x. split.
      + rewrite last_app. simpl. destruct after; [discriminate|].
        simpl in *. by rewrite Hx.
      + rewrite Forall_forall in Hafter.
        assert (content x = "") as ->.
        { apply Hafter. apply last_Some_elem_of in Hx. done. }
        simpl. by apply previous_content_latest; [|rewrite Forall_forall].
    - apply last_None in Hx. subst after. exists m. split.
      + by rewrite last_snoc.
      + by rewrite Hm. }
  destruct Hlast as (last_message & -> & Hcontent).
  cbv beta zeta. rewrite Hcontent, Hm. reflexivity.
Qed.

End Generate.

Lemma generate_always_answers_witness :
  (Service.recursion_limit < 51)%nat
  /\ exists response w',
       sample_generate looping_model 51 (Some sample_payload) sample_world
       = (Some response, w')
       /\ String.eqb (ServiceApi.response_content response) "" = false
       /\ match ServiceApi.response_error response with
          | Some text =>
              ServiceApi.response_content response
              = "Error generating response: " +:+ text
          | None => True
          end.
Proof.
  assert (H : (Service.recursion_limit < 51)%nat) by (unfold Service.recursion_limit; lia).
  split; [exact H|].
  exact (generate_always_answers sample_repr looping_model sample_call
           sample_call sample_call no_toolkit (fun _ => "{}") (fun _ => "IBM")
           (fun _ e => e) 51 (Some sample_payload) sample_world H).
Defined.

Lemma generate_rejects_unusable_payload_witness :
  (Some no_content_payload = None
   \/ Some no_content_payload = Some []
   \/ exists payload,
        Some no_content_payload = Some payload /\ Exists malformed payload)
  /\ exists text warnings w',
       sample_generate final_model 51 (Some no_content_payload) sample_world
       = (Some (ServiceApi.mkResponse ("Error generating response: " +:+ text)
                                      (Some text)),
          w')
       /\ log w'
          = log sample_world ++ warnings
            ++ [Printed ("Error in generate: Error generating response: "
                         +:+ text)]
       /\ tool_warnings warnings.
Proof.
  assert (H : Some no_content_payload = None
              \/ Some no_content_payload = Some []
              \/ exists payload,
                   Some no_content_payload = Some payload
                   /\ Exists malformed payload).
  { right. right. eexists. split; [reflexivity|].
    apply Exists_cons_hd. right. split; vm_compute; reflexivity. }
  split; [exact H|].
  destruct (generate_rejects_unusable_payload sample_repr final_model sample_call
              sample_call sample_call no_toolkit (fun _ => "{}")
              (fun _ => "IBM") (fun _ e => e) 51 _ sample_world H)
    as (text & warnings & w' & Hrun & Hlog & Hw & _).
  by exists text, warnings, w'.
Defined.

(** The same run, computed: the warning of [create_tools] stands before
    the error line. *)
Example malformed_payload_log :
  log (snd (sample_generate final_model 51 (Some no_content_payload)
              sample_world))
  = [Printed ("  ⚠ Could not add Wikipedia tool: connection refused");
     Printed "Error in generate: Error generating response: 'content'"].
Proof. vm_compute. reflexivity. Qed.

Lemma generate_returns_latest_content_witness :
  ServiceApi.session sample_call sample_call sample_call no_toolkit
    (fun _ => "{}") (fun _ => "IBM") (fun _ e => e) sample_world
  = (inr [], mkWorld tt [Printed ("  ⚠ Could not add Wikipedia tool: "
                                  +:+ "connection refused")])
  /\ ServiceApi.convert_messages greeting_payload = inr [HumanMessage "Hi"]
  /\ String.eqb (content (HumanMessage "Hi")) "" = false
  /\ Forall (fun x => content x = "") [AIMessage "" []]
  /\ fst (sample_generate silent_model 51 (Some greeting_payload) sample_world)
     = Some (ServiceApi.mkResponse "Hi" None).
Proof.
  set (w0 := mkWorld tt [Printed ("  ⚠ Could not add Wikipedia tool: "
                                  +:+ "connection refused")]).
  assert (H0 : ServiceApi.session sample_call sample_call sample_call no_toolkit
                 (fun _ => "{}") (fun _ => "IBM") (fun _ e => e) sample_world
               = (inr [], w0)) by reflexivity.
  assert (H1 : ServiceApi.convert_messages greeting_payload
               = inr [HumanMessage "Hi"]) by (vm_compute; reflexivity).
  assert (H2 : String.eqb (content (HumanMessage "Hi")) "" = false) by reflexivity.
  assert (H3 : Forall (fun x => content x = "") [AIMessage "" []])
    by (repeat constructor).
  split; [exact H0|]. split; [exact H1|]. split; [exact H2|]. split; [exact H3|].
  unfold sample_generate, greeting_payload in *.
  rewrite (generate_returns_latest_content sample_repr silent_model sample_call
             sample_call sample_call no_toolkit (fun _ => "{}")
             (fun _ => "IBM") (fun _ e => e) 51 _ [] _ []
             [] (HumanMessage "Hi") [AIMessage "" []]
             sample_world w0
             (snd (Service.graph_invoke sample_repr silent_model []
                     (Some (ServiceApi.create_agent greeting_payload))
                     51 [HumanMessage "Hi"] Service.recursion_limit w0))
             H0 H1);
    [reflexivity| |exact H2|exact H3].
  vm_compute. reflexivity.
Defined.

(** ** What a run shows the model, and what it keeps *)

Lemma grown_refl inputs : grown inputs inputs.
Proof. exists []. by rewrite app_nil_r. Qed.

Lemma grown_app inputs conversation update :
  grown inputs conversation ->
  Forall (fun m => is_HumanMessage m = false) update ->
  grown inputs (conversation ++ update).
Proof.
  intros (rest & -> & Hrest) Hupdate. exists (rest ++ update).
  split; [by rewrite app_assoc|]. by apply Forall_app.
Qed.

Section RunLog.

Context {W : Type}.
Variable call_model : list Message -> M W (list Message).
Variable call_tools : list Message -> M W (Result (list Message)).
Variable seen : list Message -> list Message.

Hypothesis call_model_log : forall messages (w : World W),
  exists r w',
    call_model messages w = ([to_message r], w')
    /\ log w' = log w ++ [ModelCalled (seen messages)].

Hypothesis call_tools_log : forall messages (w : World W) r w',
  call_tools messages w = (r, w') ->
  (exists events,
     log w' = log w ++ events /\ Forall (fun e => is_model_call e = false) events)
  /\ forall update, r = inr update ->
       Forall (fun m => is_HumanMessage m = false) update.

Lemma shown_by_tools inputs events :
  Forall (fun e => is_model_call e = false) events -> shown_by seen inputs events.
Proof.
  intros H. eapply Forall_impl; [exact H|]. by intros [].
Qed.

Lemma run_loop_log inputs recursion_limit fuel :
  forall (c : Config) (w : World W) r w',
    run_loop call_model call_tools fuel recursion_limit c w = (r, w') ->
    grown inputs (messages c) ->
    (exists events, log w' = log w ++ events /\ shown_by seen inputs events)
    /\ forall final, r = Some (inr final) -> grown inputs final.
Proof.
  induction fuel as [|fuel IH]; intros c w r w'; simpl.
  - intros [= <- <-] _. split; [|discriminate].
    exists []. split; [by rewrite app_nil_r|constructor].
  - unfold bind at 1. unfold superstep.
    destruct c as [n msgs st]; cbn [node step messages].
    destruct n.
    + destruct (recursion_limit <=? st)%nat.
      { intros [= <- <-] _. split; [|discriminate].
        exists []. split; [by rewrite app_nil_r|constructor]. }
      unfold bind.
      destruct (call_model_log msgs w) as (a & w1 & -> & Hlog).
      unfold add_messages.
      destruct (should_continue _) as [e|next].
      { intros [= <- <-] Hgrown. split; [|discriminate].
        exists [ModelCalled (seen msgs)]. split; [done|].
        constructor; [by exists msgs|constructor]. }
      unfold ret. intros Hrun Hgrown.
      assert (Hgrown' : grown inputs (msgs ++ [to_message a])).
      { apply grown_app; [done|]. by repeat constructor. }
      destruct (IH _ _ _ _ Hrun Hgrown') as ((events & Hlog' & Hshown) & Hfinal).
      split; [|exact Hfinal].
      exists (ModelCalled (seen msgs) :: events).
      split; [rewrite Hlog', Hlog; by rewrite <- app_assoc|].
      constructor; [by exists msgs|done].
    + destruct (recursion_limit <=? st)%nat.
      { intros [= <- <-] _. split; [|discriminate].
        exists []. split; [by rewrite app_nil_r|constructor]. }
      unfold bind.
      destruct (call_tools msgs w) as [[e|update] w1] eqn:Hct;
        destruct (call_tools_log _ _ _ _ Hct) as ((events & Hlog & Hev) & Hup).
      { intros [= <- <-] _. split; [|discriminate].
        exists events. split; [done|by apply shown_by_tools]. }
      unfold ret. intros Hrun Hgrown.
      assert (Hgrown' : grown inputs (msgs ++ update))
        by (apply grown_app; [done|by apply Hup]).
      destruct (IH _ _ _ _ Hrun Hgrown') as ((events' & Hlog' & Hshown) & Hfinal).
      split; [|exact Hfinal].
      exists (events ++ events').
      split; [rewrite Hlog', Hlog; by rewrite <- app_assoc|].
      apply Forall_app. split; [by apply shown_by_tools|done].
    + intros [= <- <-] Hgrown. split.
      * exists []. split; [by rewrite app_nil_r|constructor].
      * by intros final [= <-].
Qed.

End RunLog.

Section PromptedGraphs.

Context {W : Type}.
Variable repr_float : float -> string.
Variable model : list Message -> W -> AIResponse * W.
Variable tools : list (Tool W).
Variable system_prompt : option string.

Lemma rag_call_tools_log messages (w : World W) r w' :
  Rag.call_tools repr_float tools messages w = (r, w') ->
  (exists events,
     log w' = log w ++ events /\ Forall (fun e => is_model_call e = false) events)
  /\ forall update, r = inr update ->
       Forall (fun m => is_HumanMessage m = false) update.
Proof.
  unfold Rag.call_tools, last_message.
  destruct (last messages) as [m|].
  - destruct (has_tool_calls m).
    + unfold bind.
      destruct (rag_for_tool_calls_spec repr_float tools (tool_calls_of m) [] w)
        as (new & w1 & -> & Hlog & Hans).
      intros [= <- <-]. split.
      * eexists. split; [exact Hlog|].
        apply Forall_forall. intros e He.
        apply list_elem_of_In, in_map_iff in He as (tc & <- & _). done.
      * intros update [= <-]. simpl. by eapply answers_not_human.
    + intros [= <- <-]. split; [|by intros update [= <-]].
      exists []. split; [by rewrite app_nil_r|constructor].
  - intros [= <- <-]. split; [|discriminate].
    exists []. split; [by rewrite app_nil_r|constructor].
Qed.

Lemma service_call_tools_log messages (w : World W) r w' :
  Service.call_tools repr_float tools messages w = (r, w') ->
  (exists events,
     log w' = log w ++ events /\ Forall (fun e => is_model_call e = false) events)
  /\ forall update, r = inr update ->
       Forall (fun m => is_HumanMessage m = false) update.
Proof.
  unfold Service.call_tools, last_message.
  destruct (last messages) as [m|].
  - destruct (has_tool_calls m).
    + unfold bind.
      destruct (service_for_tool_calls_spec repr_float tools (tool_calls_of m) [] w)
        as (new & w1 & events & -> & Hlog & _ & Hev & Hans).
      intros [= <- <-]. split; [by exists events|].
      intros update [= <-]. simpl. by eapply answers_not_human.
    + intros [= <- <-]. split; [|by intros update [= <-]].
      exists []. split; [by rewrite app_nil_r|constructor].
  - intros [= <- <-]. split; [|discriminate].
    exists []. split; [by rewrite app_nil_r|constructor].
Qed.

Lemma rag_call_model_log messages (w : World W) :
  exists r w',
    Rag.call_model model system_prompt messages w = ([to_message r], w')
    /\ log w' = log w ++ [ModelCalled (with_system_prompt system_prompt messages)].
Proof. rewrite rag_call_model_run. by eexists _, _. Qed.

Lemma service_call_model_log messages (w : World W) :
  exists r w',
    Service.call_model model system_prompt messages w = ([to_message r], w')
    /\ log w' = log w ++ [ModelCalled (with_system_prompt system_prompt messages)].
Proof. rewrite service_call_model_run. by eexists _, _. Qed.

(** Every run of the graphs of 11 and 13: what the log gains and what is
    returned. *)
Lemma prompted_run_log inputs recursion_limit fuel (w : World W) r w' :
  Rag.graph_invoke repr_float model tools system_prompt
    fuel inputs recursion_limit w = (r, w')
  \/ Service.graph_invoke repr_float model tools system_prompt
       fuel inputs recursion_limit w = (r, w') ->
  (exists events,
     log w' = log w ++ events
     /\ shown_by (with_system_prompt system_prompt) inputs events)
  /\ forall final, r = Some (inr final) -> grown inputs final.
Proof.
  intros [Hrun|Hrun].
  - eapply (run_loop_log _ _ _ rag_call_model_log rag_call_tools_log);
      [exact Hrun|apply grown_refl].
  - eapply (run_loop_log _ _ _ service_call_model_log service_call_tools_log);
      [exact Hrun|apply grown_refl].
Qed.

End PromptedGraphs.

Lemma mentions_system_grown inputs conversation :
  grown inputs conversation ->
  existsb mentions_system conversation = existsb mentions_system inputs.
Proof.
  intros (rest & -> & Hrest). rewrite existsb_app.
  assert (existsb mentions_system rest = false) as ->; [|by rewrite orb_false_r].
  induction Hrest as [|m rest Hm _ IH]; [done|].
  simpl. unfold mentions_system at 1. by rewrite Hm, IH.
Qed.

(** X15.  In a run of the graph of 11_rag_agent.py or of
    13_ai_service_deploy.py with a non-empty system prompt, started from
    inputs in which no human message mentions ["system"] in its first
    twenty characters: every call of the model is shown the system prompt
    first, then the inputs, then the assistant and tool messages the run
    has produced; the conversation itself only ever grows by assistant and
    tool messages, so the prompt is shown at each call and stored
    nowhere. *)
Theorem system_prompt_shown_not_stored {W} repr_float
    (model : list Message -> W -> AIResponse * W) (tools : list (Tool W))
    prompt inputs recursion_limit fuel (w : World W) r w' :
  String.eqb prompt "" = false ->
  existsb mentions_system inputs = false ->
  Rag.graph_invoke repr_float model tools (Some prompt)
    fuel inputs recursion_limit w = (r, w')
  \/ Service.graph_invoke repr_float model tools (Some prompt)
       fuel inputs recursion_limit w = (r, w') ->
  (exists events,
     log w' = log w ++ events
     /\ Forall (fun e => match e with
                         | ModelCalled shown =>
                             exists rest,
                               shown = HumanMessage prompt :: inputs ++ rest
                               /\ Forall (fun m => is_HumanMessage m = false) rest
                         | _ => True
                         end) events)
  /\ forall final, r = Some (inr final) ->
       exists rest,
         final = inputs ++ rest
         /\ Forall (fun m => is_HumanMessage m = false) rest.
Proof.
  intros Hprompt Hinputs Hrun.
  destruct (prompted_run_log repr_float model tools (Some prompt) _ _ _ _ _ _ Hrun)
    as ((events & Hlog & Hshown) & Hfinal).
  split; [|exact Hfinal].
  exists events. split; [exact Hlog|].
  eapply Forall_impl; [exact Hshown|].
  intros [shown| |]; try done.
  intros (conversation & Hgrown & ->).
  unfold with_system_prompt.
  rewrite Hprompt, (mentions_system_grown _ _ Hgrown), Hinputs. cbn [negb andb].
  destruct Hgrown as (rest & -> & Hrest). by exists rest.
Qed.

(** X16.  The other way round: when some human message of the inputs
    mentions ["system"] in its first twenty characters (in any case of the
    letters), no call of the model in the whole run is shown the system
    prompt: each is shown the conversation as it stands. *)
Theorem system_prompt_suppressed {W} repr_float
    (model : list Message -> W -> AIResponse * W) (tools : list (Tool W))
    system_prompt inputs recursion_limit fuel (w : World W) r w' :
  existsb mentions_system inputs = true ->
  Rag.graph_invoke repr_float model tools system_prompt
    fuel inputs recursion_limit w = (r, w')
  \/ Service.graph_invoke repr_float model tools system_prompt
       fuel inputs recursion_limit w = (r, w') ->
  exists events,
    log w' = log w ++ events
    /\ Forall (fun e => match e with
                        | ModelCalled shown =>
                            exists rest,
                              shown = inputs ++ rest
                              /\ Forall (fun m => is_HumanMessage m = false) rest
                        | _ => True
                        end) events.
Proof.
  intros Hinputs Hrun.
  destruct (prompted_run_log repr_float model tools system_prompt _ _ _ _ _ _ Hrun)
    as ((events & Hlog & Hshown) & _).
  exists events. split; [exact Hlog|].
  eapply Forall_impl; [exact Hshown|].
  intros [shown| |]; try done.
  intros (conversation & Hgrown & ->).
  unfold with_system_prompt.
  rewrite (mentions_system_grown _ _ Hgrown), Hinputs.
  destruct Hgrown as (rest & -> & Hrest).
  exists rest. split; [|done].
  destruct system_prompt as [p|]; [|done]. by rewrite andb_false_r.
Qed.

Lemma system_prompt_shown_not_stored_witness :
  String.eqb "Use the tools." "" = false
  /\ existsb mentions_system [HumanMessage "Calculate 11 + 13"] = false
  /\ exists rest,
       [HumanMessage "Calculate 11 + 13"; AIMessage "24" []]
       = [HumanMessage "Calculate 11 + 13"] ++ rest
       /\ Forall (fun m => is_HumanMessage m = false) rest.
Proof.
  assert (H1 : String.eqb "Use the tools." "" = false) by reflexivity.
  assert (H2 : existsb mentions_system [HumanMessage "Calculate 11 + 13"] = false)
    by (vm_compute; reflexivity).
  split; [exact H1|]. split; [exact H2|].
  apply (proj2 (system_prompt_shown_not_stored sample_repr final_model
                  sample_tools "Use the tools." [HumanMessage "Calculate 11 + 13"]
                  20 2 sample_world _ _ H1 H2 (or_introl eq_refl))).
  reflexivity.
Defined.

Lemma system_prompt_suppressed_witness :
  existsb mentions_system [HumanMessage "System check: what is 2 + 2?"] = true
  /\ exists events,
       log (snd (Rag.graph_invoke sample_repr final_model sample_tools
                   (Some "Use the tools.") 2
                   [HumanMessage "System check: what is 2 + 2?"] 20 sample_world))
       = log sample_world ++ events
       /\ Forall (fun e => match e with
                           | ModelCalled shown =>
                               exists rest,
                                 shown = [HumanMessage "System check: what is 2 + 2?"]
                                         ++ rest
                                 /\ Forall (fun m => is_HumanMessage m = false) rest
                           | _ => True
                           end) events.
Proof.
  assert (H1 : existsb mentions_system
                 [HumanMessage "System check: what is 2 + 2?"] = true)
    by (vm_compute; reflexivity).
  split; [exact H1|].
  exact (system_prompt_suppressed sample_repr final_model sample_tools
           (Some "Use the tools.") [HumanMessage "System check: what is 2 + 2?"]
           20 2 sample_world _ _ H1 (or_introl eq_refl)).
Defined.

(** ** What can end a run *)

Section RunEnds.

Context {W : Type}.
Variable call_model : list Message -> M W (list Message).
Variable call_tools : list Message -> M W (Result (list Message)).

(** What a run returns starts with what it started from. *)
Lemma run_loop_prefix recursion_limit fuel :
  forall (c : Config) (w : World W) final w',
    run_loop call_model call_tools fuel recursion_limit c w
    = (Some (inr final), w') ->
    exists rest, final = messages c ++ rest.
Proof.
  induction fuel as [|fuel IH]; intros c w final w'; simpl; [discriminate|].
  unfold bind at 1. unfold superstep.
  destruct c as [n msgs st]; cbn [node step messages].
  destruct n.
  - destruct (recursion_limit <=? st)%nat; [discriminate|].
    unfold bind. destruct (call_model msgs w) as [update w1].
    unfold add_messages. destruct (should_continue _); [discriminate|].
    unfold ret. intros Hrun. destruct (IH _ _ _ _ Hrun) as (rest & ->).
    exists (update ++ rest). simpl. by rewrite app_assoc.
  - destruct (recursion_limit <=? st)%nat; [discriminate|].
    unfold bind. destruct (call_tools msgs w) as [[e|update] w1]; [discriminate|].
    unfold ret, add_messages. intros Hrun.
    destruct (IH _ _ _ _ Hrun) as (rest & ->).
    exists (update ++ rest). simpl. by rewrite app_assoc.
  - intros [= <- <-]. exists []. by rewrite app_nil_r.
Qed.

Hypothesis call_model_shape : forall messages w,
  exists r w', call_model messages w = ([to_message r], w').

Hypothesis call_tools_total : forall messages m w,
  last messages = Some m ->
  exists update w', call_tools messages w = (inr update, w').

(** With a model that returns and a dispatcher that returns, nothing but
    the ceiling makes a run raise. *)
Lemma run_loop_raises_at_ceiling recursion_limit fuel :
  forall (c : Config) (w : World W) e w',
    (node c = tools_node -> is_Some (last (messages c))) ->
    run_loop call_model call_tools fuel recursion_limit c w = (Some (inl e), w') ->
    e = recursion_error recursion_limit.
Proof.
  induction fuel as [|fuel IH]; intros c w e w' Hlast; simpl; [discriminate|].
  unfold bind at 1. unfold superstep.
  destruct c as [n msgs st]; cbn [node step messages] in *.
  destruct n.
  - destruct (recursion_limit <=? st)%nat; [by intros [= <- <-]|].
    unfold bind. destruct (call_model_shape msgs w) as (a & w1 & ->).
    unfold add_messages, should_continue. rewrite last_message_snoc.
    destruct (is_AIMessage _ && has_tool_calls _);
      unfold ret; intros Hrun; (eapply IH; [|exact Hrun]);
      intros _; cbn [messages]; rewrite last_snoc; by eexists.
  - destruct (recursion_limit <=? st)%nat; [by intros [= <- <-]|].
    destruct (Hlast eq_refl) as (m & Hm).
    unfold bind. destruct (call_tools_total _ _ w Hm) as (update & w1 & ->).
    unfold ret. intros Hrun. eapply IH; [|exact Hrun]. discriminate.
  - discriminate.
Qed.

End RunEnds.

Lemma simple_raises_at_ceiling {W} repr_float
    (model : list Message -> W -> AIResponse * W) (tools : list (Tool W))
    inputs recursion_limit fuel (w : World W) e w' :
  Simple.graph_invoke repr_float model tools fuel inputs recursion_limit w
  = (Some (inl e), w') ->
  e = recursion_error recursion_limit.
Proof.
  apply run_loop_raises_at_ceiling; [| |discriminate].
  - intros msgs w0. rewrite simple_call_model_run. by eexists _, _.
  - intros msgs m w0 Hlast.
    destruct (simple_call_tools_returns repr_float tools _ _ w0 Hlast)
      as (tm & w1 & -> & _). by eexists _, _.
Qed.

(** X17.  Neither a tool that raises, nor a request for a tool that is not
    registered, nor the dispatcher itself ever ends a run of the graphs of
    09_simple_agents.py, 11_rag_agent.py and 13_ai_service_deploy.py: as
    long as the chat model returns, the only exception [graph.invoke] can
    raise is the one of the iteration ceiling. *)
Theorem run_raises_only_at_ceiling {W} repr_float
    (model : list Message -> W -> AIResponse * W) (tools : list (Tool W))
    system_prompt inputs recursion_limit fuel (w : World W) e w' :
  Simple.graph_invoke repr_float model tools fuel inputs recursion_limit w
  = (Some (inl e), w')
  \/ Rag.graph_invoke repr_float model tools system_prompt
       fuel inputs recursion_limit w = (Some (inl e), w')
  \/ Service.graph_invoke repr_float model tools system_prompt
       fuel inputs recursion_limit w = (Some (inl e), w') ->
  e = recursion_error recursion_limit.
Proof.
  intros [Hrun|[Hrun|Hrun]].
  - by eapply simple_raises_at_ceiling.
  - revert Hrun. apply run_loop_raises_at_ceiling; [| |discriminate].
    + intros msgs w0. rewrite rag_call_model_run. by eexists _, _.
    + intros msgs m w0 Hlast.
      destruct (rag_call_tools_returns repr_float tools _ _ w0 Hlast)
        as (tm & w1 & -> & _). by eexists _, _.
  - revert Hrun. apply run_loop_raises_at_ceiling; [| |discriminate].
    + intros msgs w0. rewrite service_call_model_run. by eexists _, _.
    + intros msgs m w0 Hlast.
      destruct (service_call_tools_returns repr_float tools _ _ w0 Hlast)
        as (tm & w1 & -> & _). by eexists _, _.
Qed.

Lemma run_raises_only_at_ceiling_witness :
  fst (Simple.graph_invoke sample_repr looping_model [failing_tool] 51
         [HumanMessage "q"] 3 sample_world)
  = Some (inl (recursion_error 3)).
Proof.
  destruct (Simple.graph_invoke sample_repr looping_model [failing_tool] 51
              [HumanMessage "q"] 3 sample_world) as [[[e|final]|] w'] eqn:Hrun;
    [|vm_compute in Hrun; discriminate..].
  simpl. do 2 f_equal.
  exact (run_raises_only_at_ceiling sample_repr looping_model [failing_tool]
           None [HumanMessage "q"] 3 51 sample_world e w' (or_introl Hrun)).
Defined.

(** X18.  The test cell of 09_simple_agents.py never raises, whatever the
    model answers and whatever the tools do: it either prints the agent's
    response, cut to 150 characters, or reports a failure and goes on to the
    other tests; and as long as the chat model returns, the only failure it
    can report is the iteration ceiling. *)
Theorem test_agent_never_raises {W} repr_float
    (model : list Message -> W -> AIResponse * W)
    validate_args zero_division_text query fuel (w : World W) :
  (Simple.recursion_limit < fuel)%nat ->
  exists w' before,
    Simple.test_agent repr_float model validate_args zero_division_text
      fuel query w = (Some tt, w')
    /\ (log w' =
        before ++
        [Printed ("⚠ Agent test failed: "
                  +:+ str_exc (recursion_error Simple.recursion_limit));
         Printed "  Continuing with other tests..."]
        \/ exists answer,
             log w' =
             before ++
             [Printed (nl +:+ "✓ Agent response:");
              Printed ("  " +:+ slice_to 150 answer +:+ "...")]).
Proof.
  intros Hfuel. unfold Simple.test_agent, Simple.print.
  rewrite !bind_emit. unfold bind at 1.
  match goal with
  | |- context [Simple.graph_invoke _ _ ?ts fuel ?inputs _ ?w2] =>
      destruct (invoke_ends (Simple.call_model model)
                  (Simple.call_tools repr_float ts)
                  Simple.recursion_limit fuel inputs w2 Hfuel)
        as (r & w3 & Hrun);
      unfold Simple.graph_invoke; rewrite Hrun
  end.
  destruct r as [e|final].
  - apply (simple_raises_at_ceiling repr_float) in Hrun as ->.
    rewrite !bind_emit. unfold ret.
    eexists _, _. split; [reflexivity|]. left. simpl. by rewrite <- app_assoc.
  - apply run_loop_prefix in Hrun as (rest & ->). cbn [messages].
    unfold add_messages. rewrite app_nil_l.
    assert (Hlast : exists m, last_message ([HumanMessage query] ++ rest) = inr m).
    { unfold last_message. simpl.
      destruct (last (HumanMessage query :: rest)) eqn:E; [by eexists|].
      by apply last_None in E. }
    destruct Hlast as (m & ->).
    case_bool_decide; unfold bind, emit, ret; cbn [env log];
      eexists _, _; (split; [reflexivity|]); right; exists (content m);
      cbn [log]; rewrite <- app_assoc; reflexivity.
Qed.

Lemma test_agent_never_raises_witness :
  (Simple.recursion_limit < 51)%nat
  /\ fst (Simple.test_agent sample_repr final_model sample_validate
            "float division by zero" 51 "Calculate 11 + 13" sample_world)
     = Some tt.
Proof.
  assert (H : (Simple.recursion_limit < 51)%nat)
    by (unfold Simple.recursion_limit; lia).
  split; [exact H|].
  destruct (test_agent_never_raises sample_repr final_model sample_validate
              "float division by zero" "Calculate 11 + 13" 51 sample_world H)
    as (w' & before & -> & _).
  reflexivity.
Defined.

(** ** pipelines/read_from_cos.py: the pattern and the download *)

Lemma split_cons sep s : exists part parts, ReadFromCos.split sep s = part :: parts.
Proof.
  induction s as [|c s (part & parts & IH)]; simpl; [by eexists _, _|].
  destruct (Ascii.eqb c sep); [by eexists _, _|].
  rewrite IH. by eexists _, _.
Qed.

Lemma join_cons sep part part' parts :
  ReadFromCos.join sep (part :: part' :: parts)
  = part +:+ sep +:+ ReadFromCos.join sep (part' :: parts).
Proof. reflexivity. Qed.

Lemma join_split sep s :
  ReadFromCos.join (String sep "") (ReadFromCos.split sep s) = s.
Proof.
  induction s as [|c s IH]; [done|]. simpl.
  destruct (split_cons sep s) as (part & parts & Hs). rewrite Hs in *.
  destruct (Ascii.eqb_spec c sep) as [->|Hne].
  - rewrite join_cons, IH. reflexivity.
  - destruct parts as [|part' parts].
    + simpl in *. by rewrite IH.
    + rewrite join_cons in *. rewrite <- IH. reflexivity.
Qed.

Lemma join_snoc sep part parts last_part :
  ReadFromCos.join sep ((part :: parts) ++ [last_part])
  = ReadFromCos.join sep (part :: parts) +:+ sep +:+ last_part.
Proof.
  revert part. induction parts as [|p parts IH]; intros part; [done|].
  pose proof (IH p) as H. cbn [app] in *.
  by rewrite join_cons, H, join_cons, !string_append_assoc.
Qed.

Lemma contains_char_cons (sep c : ascii) (s : string) :
  contains (String sep "") (String c s)
  = Ascii.eqb c sep || contains (String sep "") s.
Proof.
  cbn [contains]. simpl.
  destruct (ascii_dec sep c) as [->|Hne].
  - rewrite Ascii.eqb_refl. by destruct s.
  - destruct (Ascii.eqb_spec c sep) as [->|_]; done.
Qed.

Lemma split_no_sep sep s :
  Forall (fun part => contains (String sep "") part = false)
         (ReadFromCos.split sep s).
Proof.
  induction s as [|c s IH]; simpl; [by repeat constructor|].
  destruct (Ascii.eqb c sep) eqn:Hc; [by constructor|].
  destruct (split_cons sep s) as (part & parts & Hs). rewrite Hs in *.
  apply Forall_cons in IH as [Hpart Hparts]. constructor; [|done].
  by rewrite contains_char_cons, Hc, Hpart.
Qed.

Lemma split_two sep s :
  contains (String sep "") s = true ->
  exists part parts last_part,
    ReadFromCos.split sep s = (part :: parts) ++ [last_part].
Proof.
  induction s as [|c s IH]; [discriminate|].
  rewrite contains_char_cons. simpl.
  destruct (Ascii.eqb c sep) eqn:Hc; simpl.
  - intros _. destruct (split_cons sep s) as (part & parts & ->).
    destruct (exists_last (l := part :: parts)) as (init & last_part & ->);
      [done|].
    by exists "", init, last_part.
  - intros H. destruct (IH H) as (part & parts & last_part & ->).
    by exists (String c part), parts, last_part.
Qed.

(** X19.  The split of [COS_FILE_PATTERN] at its last slash loses nothing:
    the file pattern never holds a slash, and for a pattern with a slash
    the folder path, a slash and the file pattern give the pattern back;
    a pattern without a slash is the file pattern itself. *)
Theorem pattern_split_round_trip (COS_FILE_PATTERN : string) :
  contains "/" (ReadFromCos.file_pattern COS_FILE_PATTERN) = false
  /\ (if contains "/" COS_FILE_PATTERN
      then ReadFromCos.folder_path COS_FILE_PATTERN +:+ "/"
           +:+ ReadFromCos.file_pattern COS_FILE_PATTERN
      else ReadFromCos.file_pattern COS_FILE_PATTERN)
     = COS_FILE_PATTERN.
Proof.
  unfold ReadFromCos.file_pattern, ReadFromCos.folder_path.
  destruct (contains "/" COS_FILE_PATTERN) eqn:Hslash; [|done].
  destruct (split_two "/" _ Hslash) as (part & parts & last_part & Hsplit).
  pose proof (split_no_sep "/" COS_FILE_PATTERN) as Hparts.
  pose proof (join_split "/" COS_FILE_PATTERN) as Hjoin.
  rewrite Hsplit in *. rewrite removelast_last, last_last. split.
  - rewrite Forall_forall in Hparts. apply Hparts.
    apply elem_of_app. right. by left.
  - by rewrite <- join_snoc.
Qed.

(** ** Scripts, step by step *)

Lemma and_then_outside {A B} op (outcome : Result A) a
    (k : A -> Scripts.Script B) p :
  outcome = inr a ->
  Scripts.and_then (Scripts.outside op outcome) k p
  = k a (Scripts.mkProc (Scripts.stdout p) (Scripts.files p)
                        (Scripts.calls p ++ [op])).
Proof. by intros ->. Qed.

Lemma and_then_raised {A B} op (outcome : Result A) e
    (k : A -> Scripts.Script B) p :
  outcome = inl e ->
  Scripts.and_then (Scripts.outside op outcome) k p
  = (inl (Scripts.Uncaught e),
     Scripts.mkProc (Scripts.stdout p) (Scripts.files p)
                    (Scripts.calls p ++ [op])).
Proof. by intros ->. Qed.

Lemma and_then_returns {A B} (m : Scripts.Script A) (k : A -> Scripts.Script B)
    a p p' :
  m p = (inr a, p') -> Scripts.and_then m k p = k a p'.
Proof. unfold Scripts.and_then. by intros ->. Qed.

Lemma and_then_stops {A B} (m : Scripts.Script A) (k : A -> Scripts.Script B)
    x p p' :
  m p = (inl x, p') -> Scripts.and_then m k p = (inl x, p').
Proof. unfold Scripts.and_then. by intros ->. Qed.

Lemma try_except_caught {A} (body : Scripts.Script A) handler e p p' :
  body p = (inl (Scripts.Uncaught e), p') ->
  Scripts.try_except body handler p = handler e p'.
Proof. unfold Scripts.try_except. by intros ->. Qed.

Lemma try_except_exits {A} (body : Scripts.Script A) handler code p p' :
  body p = (inl (Scripts.SystemExit code), p') ->
  Scripts.try_except body handler p = (inl (Scripts.SystemExit code), p').
Proof. unfold Scripts.try_except. by intros ->. Qed.

Lemma try_except_returns {A} (body : Scripts.Script A) handler a p p' :
  body p = (inr a, p') ->
  Scripts.try_except body handler p = (inr a, p').
Proof. unfold Scripts.try_except. by intros ->. Qed.

Ltac script_steps :=
  repeat (first [ rewrite and_then_print
                | erewrite and_then_outside by (eassumption || reflexivity) ];
          cbn [Scripts.stdout Scripts.files Scripts.calls]).

Section ReadFromCosRuns.

Variable environ : gmap string string.
Variable sdk : ReadFromCos.CosSDK.
Variable rglob : string -> list ReadFromCos.LocalFile.
Variable fnmatch : string -> string -> bool.
Variable path_div : string -> string -> string.

Local Abbreviation main :=
  (ReadFromCos.main environ sdk rglob fnmatch path_div).
Local Abbreviation download_and_list :=
  (ReadFromCos.download_and_list environ sdk rglob fnmatch path_div).

Lemma read_from_cos_configured (p : Scripts.Proc) :
  Scripts.truthy (environ !! "COS_BUCKET")
  && Scripts.truthy (environ !! "COS_CONNECTION_ASSET_ID") = true ->
  main p
  = Scripts.try_except download_and_list
      (fun e => Scripts.and_then (Scripts.print ("✗ Error: " +:+ str_exc e))
                  (fun _ => Scripts.exit 1)) p.
Proof.
  intros Hconfig. unfold ReadFromCos.main, Scripts.read_from_cos.
  rewrite Hconfig. cbn [negb]. unfold Scripts.try_except.
  by destruct p.
Qed.


(** X21.  Finding nothing is not a failure: when the download succeeded
    and no downloaded file matches the file pattern, the script prints that
    no file matches, reads no file, and exits with status 0. *)
Theorem no_matching_file_exits_zero (p : Scripts.Proc) :
  reaches_download environ sdk ->
  ReadFromCos.first_download sdk = inr tt ->
  let pattern :=
    ReadFromCos.file_pattern (default "*.txt" (environ !! "COS_FILE_PATTERN")) in
  Forall (fun file => fnmatch (ReadFromCos.file_name file) pattern = false)
         (rglob "data/processed") ->
  exists printed,
    main p
    = (inl (Scripts.SystemExit 0),
       Scripts.mkProc
         (Scripts.stdout p ++ printed
          ++ ["⚠ No files matching pattern: " +:+ pattern;
              "   Searched in: data/processed"])
         (Scripts.files p)
         (Scripts.calls p
          ++ ["Credentials"; "APIClient"; "client.set.default_project";
              "Path.mkdir"; "DataConnection"; "folder_connection.set_client";
              "folder_connection.download_folder"]))
    /\ length printed = 9%nat.
Proof.
  intros (Hconfig & HC & HA & HP & HD & HS) H1 pattern Hnone.
  assert (Hfilter :
            List.filter (fun file => fnmatch (ReadFromCos.file_name file) pattern)
                        (rglob "data/processed") = []).
  { induction Hnone as [|f l Hf _ IH]; [done|]. simpl. by rewrite Hf. }
  rewrite (read_from_cos_configured p Hconfig).
  destruct p as [out fs cs]. cbn [Scripts.stdout Scripts.files Scripts.calls].
  eexists [_; _; _; _; _; _; _; _; _]. split; [|reflexivity].
  erewrite try_except_exits; cycle 1.
  { unfold ReadFromCos.download_and_list. cbv zeta. script_steps.
    erewrite and_then_returns; cycle 1.
    { erewrite try_except_returns; cycle 1.
      { script_steps. reflexivity. }
      reflexivity. }
    fold pattern. rewrite Hfilter.
    erewrite and_then_stops; cycle 1.
    { script_steps. reflexivity. }
    reflexivity. }
  cbn [Scripts.stdout Scripts.files Scripts.calls].
  rewrite <- !app_assoc. reflexivity.
Qed.

End ReadFromCosRuns.


Lemma no_matching_file_exits_zero_witness :
  reaches_download cos_environ sample_cos_sdk
  /\ ReadFromCos.first_download sample_cos_sdk = inr tt
  /\ Forall (fun file =>
               exact_fnmatch (ReadFromCos.file_name file)
                 (ReadFromCos.file_pattern
                    (default "*.txt" (cos_environ !! "COS_FILE_PATTERN")))
               = false)
            [notes_file]
  /\ Scripts.exit_status
       (fst (ReadFromCos.main cos_environ sample_cos_sdk
               (fun _ => [notes_file]) exact_fnmatch sample_path_div
               Scripts.start))
     = 0%nat.
Proof.
  assert (H0 : reaches_download cos_environ sample_cos_sdk)
    by (repeat split; reflexivity).
  assert (H1 : ReadFromCos.first_download sample_cos_sdk = inr tt)
    by reflexivity.
  assert (H2 : Forall (fun file =>
                 exact_fnmatch (ReadFromCos.file_name file)
                   (ReadFromCos.file_pattern
                      (default "*.txt" (cos_environ !! "COS_FILE_PATTERN")))
                 = false)
              [notes_file])
    by (repeat constructor).
  split; [exact H0|]. split; [exact H1|]. split; [exact H2|].
  destruct (no_matching_file_exits_zero cos_environ sample_cos_sdk
              (fun _ => [notes_file]) exact_fnmatch sample_path_div
              Scripts.start H0 H1 H2) as (printed & -> & _).
  reflexivity.
Defined.

(** ** pipelines/read_from_cos.py: the listing *)

Lemma show_files_run files_ texts : forall (p : Scripts.Proc),
  Forall2 readable files_ texts ->
  ReadFromCos.show_files files_ p
  = (inr tt,
     Scripts.mkProc
       (Scripts.stdout p ++ concat (zip_with shown files_ texts))
       (Scripts.files p)
       (Scripts.calls p ++ repeat "f.read" (length files_))).
Proof.
  intros p H. revert p.
  induction H as [|file text files_ texts Hread _ IH]; intros p.
  - destruct p. simpl. unfold Scripts.pure. simpl. by rewrite !app_nil_r.
  - cbn [ReadFromCos.show_files].
    erewrite and_then_returns; cycle 1.
    { unfold ReadFromCos.show_file. script_steps.
      unfold Scripts.print; cbn [Scripts.stdout Scripts.files Scripts.calls].
      reflexivity. }
    rewrite IH. cbn [Scripts.stdout Scripts.files Scripts.calls].
    cbn [zip_with concat length repeat]. unfold shown at 2.
    f_equal. f_equal; rewrite <- !app_assoc; reflexivity.
Qed.

Lemma show_files_stops before bad after texts e : forall (p : Scripts.Proc),
  Forall2 readable before texts ->
  ReadFromCos.read bad = inl e ->
  ReadFromCos.show_files (before ++ bad :: after) p
  = (inl (Scripts.Uncaught e),
     Scripts.mkProc
       (Scripts.stdout p ++ concat (zip_with shown before texts)
        ++ [ReadFromCos.dashes; "File: " +:+ ReadFromCos.relative_path bad;
            ReadFromCos.dashes])
       (Scripts.files p)
       (Scripts.calls p ++ repeat "f.read" (length before) ++ ["f.read"])).
Proof.
  intros p H Hbad. revert p.
  induction H as [|file text files_ texts Hread _ IH]; intros p.
  - cbn [app ReadFromCos.show_files].
    erewrite and_then_stops; cycle 1.
    { unfold ReadFromCos.show_file. script_steps.
      eapply and_then_raised; eassumption. }
    cbn [Scripts.stdout Scripts.files Scripts.calls zip_with concat length repeat].
    rewrite <- !app_assoc. reflexivity.
  - cbn [app ReadFromCos.show_files].
    erewrite and_then_returns; cycle 1.
    { unfold ReadFromCos.show_file. script_steps.
      unfold Scripts.print; cbn [Scripts.stdout Scripts.files Scripts.calls].
      reflexivity. }
    rewrite IH. cbn [Scripts.stdout Scripts.files Scripts.calls].
    cbn [zip_with concat length repeat]. unfold shown at 2.
    f_equal. f_equal; rewrite <- !app_assoc; reflexivity.
Qed.

Section ReadFromCosListing.

Variable environ : gmap string string.
Variable sdk : ReadFromCos.CosSDK.
Variable rglob : string -> list ReadFromCos.LocalFile.
Variable fnmatch : string -> string -> bool.
Variable path_div : string -> string -> string.

Local Abbreviation main :=
  (ReadFromCos.main environ sdk rglob fnmatch path_div).

Local Abbreviation pattern :=
  (ReadFromCos.file_pattern (default "*.txt" (environ !! "COS_FILE_PATTERN"))).

(** The files the script goes through after a first download that
    worked. *)
Local Abbreviation matching_files :=
  (List.filter (fun file => fnmatch (ReadFromCos.file_name file) pattern)
               (rglob "data/processed")).

(** X22.  After a download that worked, the script shows the files whose
    name matches the file pattern, and only them, in the order the
    directory lists them: for each one a rule, its relative path, a rule,
    its content and an empty line, between a line that counts them and a
    line that counts them again; each file is read once, no local file is
    written, and the script ends with status 0. *)
Theorem matching_files_are_shown texts (p : Scripts.Proc) :
  reaches_download environ sdk ->
  ReadFromCos.first_download sdk = inr tt ->
  matching_files <> [] ->
  Forall2 readable matching_files texts ->
  exists printed,
    main p
    = (inr tt,
       Scripts.mkProc
         (Scripts.stdout p ++ printed
          ++ [nl +:+ "✓ Found " +:+ str_nat (length matching_files)
              +:+ " matching file(s)" +:+ nl]
          ++ concat (zip_with shown matching_files texts)
          ++ ["✓ Processed " +:+ str_nat (length matching_files) +:+ " file(s)"])
         (Scripts.files p)
         (Scripts.calls p
          ++ ["Credentials"; "APIClient"; "client.set.default_project";
              "Path.mkdir"; "DataConnection"; "folder_connection.set_client";
              "folder_connection.download_folder"]
          ++ repeat "f.read" (length matching_files)))
    /\ length printed = 9%nat.
Proof.
  intros (Hconfig & HC & HA & HP & HD & HS) H1 Hsome Hread.
  rewrite (read_from_cos_configured _ _ _ _ _ p Hconfig).
  destruct p as [out fs cs]. cbn [Scripts.stdout Scripts.files Scripts.calls].
  eexists [_; _; _; _; _; _; _; _; _]. split; [|reflexivity].
  erewrite try_except_returns; cycle 1.
  { unfold ReadFromCos.download_and_list. cbv zeta. script_steps.
    erewrite and_then_returns; cycle 1.
    { erewrite try_except_returns; cycle 1.
      { script_steps. reflexivity. }
      reflexivity. }
    erewrite and_then_returns; cycle 1.
    { destruct matching_files; [done|reflexivity]. }
    script_steps.
    erewrite and_then_returns; cycle 1.
    { apply show_files_run. exact Hread. }
    unfold Scripts.print. cbn [Scripts.stdout Scripts.files Scripts.calls].
    reflexivity. }
  f_equal. f_equal; rewrite <- !app_assoc; reflexivity.
Qed.

(** X23.  A file that cannot be read ends the listing: the files before it
    have been shown, its heading has been printed, no later file is read,
    and the outer handler prints the error and exits with status 1. *)
Theorem unreadable_file_stops_listing before bad after texts e
    (p : Scripts.Proc) :
  reaches_download environ sdk ->
  ReadFromCos.first_download sdk = inr tt ->
  matching_files = before ++ bad :: after ->
  Forall2 readable before texts ->
  ReadFromCos.read bad = inl e ->
  exists printed,
    main p
    = (inl (Scripts.SystemExit 1),
       Scripts.mkProc
         (Scripts.stdout p ++ printed
          ++ concat (zip_with shown before texts)
          ++ [ReadFromCos.dashes; "File: " +:+ ReadFromCos.relative_path bad;
              ReadFromCos.dashes; "✗ Error: " +:+ str_exc e])
         (Scripts.files p)
         (Scripts.calls p
          ++ ["Credentials"; "APIClient"; "client.set.default_project";
              "Path.mkdir"; "DataConnection"; "folder_connection.set_client";
              "folder_connection.download_folder"]
          ++ repeat "f.read" (length before) ++ ["f.read"]))
    /\ length printed = 10%nat.
Proof.
  intros (Hconfig & HC & HA & HP & HD & HS) H1 Hfiles Hread Hbad.
  rewrite (read_from_cos_configured _ _ _ _ _ p Hconfig).
  destruct p as [out fs cs]. cbn [Scripts.stdout Scripts.files Scripts.calls].
  eexists [_; _; _; _; _; _; _; _; _; _]. split; [|reflexivity].
  erewrite try_except_caught; cycle 1.
  { unfold ReadFromCos.download_and_list. cbv zeta. script_steps.
    erewrite and_then_returns; cycle 1.
    { erewrite try_except_returns; cycle 1.
      { script_steps. reflexivity. }
      reflexivity. }
    rewrite Hfiles.
    erewrite and_then_returns; cycle 1.
    { destruct before; reflexivity. }
    script_steps.
    erewrite and_then_stops; cycle 1.
    { eapply show_files_stops; eassumption. }
    reflexivity. }
  script_steps. unfold Scripts.exit.
  cbn [Scripts.stdout Scripts.files Scripts.calls].
  f_equal. f_equal; rewrite <- !app_assoc; reflexivity.
Qed.

End ReadFromCosListing.

Lemma matching_files_are_shown_witness :
  reaches_download cos_environ sample_cos_sdk
  /\ ReadFromCos.first_download sample_cos_sdk = inr tt
  /\ Forall2 readable [response_file] ["Prompt: Hi"]
  /\ Scripts.stdout
       (snd (ReadFromCos.main cos_environ sample_cos_sdk
               (fun _ => [notes_file; response_file]) exact_fnmatch
               sample_path_div Scripts.start))
     !! 11%nat
     = Some "File: response.txt".
Proof.
  assert (H0 : reaches_download cos_environ sample_cos_sdk)
    by (repeat split; reflexivity).
  assert (H1 : ReadFromCos.first_download sample_cos_sdk = inr tt)
    by reflexivity.
  assert (H2 : Forall2 readable [response_file] ["Prompt: Hi"])
    by (repeat constructor).
  split; [exact H0|]. split; [exact H1|]. split; [exact H2|].
  destruct (matching_files_are_shown cos_environ sample_cos_sdk
              (fun _ => [notes_file; response_file]) exact_fnmatch
              sample_path_div ["Prompt: Hi"] Scripts.start H0 H1
              ltac:(vm_compute; discriminate) H2)
    as (printed & -> & Hlen).
  do 9 (destruct printed as [|? printed]; [discriminate|]).
  destruct printed; [reflexivity|discriminate].
Defined.

Lemma unreadable_file_stops_listing_witness :
  reaches_download cos_environ sample_cos_sdk
  /\ ReadFromCos.first_download sample_cos_sdk = inr tt
  /\ Forall2 readable [response_file] ["Prompt: Hi"]
  /\ ReadFromCos.read locked_file = inl permission_denied
  /\ Scripts.calls
       (snd (ReadFromCos.main cos_environ sample_cos_sdk
               (fun _ => [response_file; locked_file; response_file])
               exact_fnmatch sample_path_div Scripts.start))
     = ["Credentials"; "APIClient"; "client.set.default_project";
        "Path.mkdir"; "DataConnection"; "folder_connection.set_client";
        "folder_connection.download_folder"; "f.read"; "f.read"].
Proof.
  assert (H0 : reaches_download cos_environ sample_cos_sdk)
    by (repeat split; reflexivity).
  assert (H1 : ReadFromCos.first_download sample_cos_sdk = inr tt)
    by reflexivity.
  assert (H2 : Forall2 readable [response_file] ["Prompt: Hi"])
    by (repeat constructor).
  assert (H3 : ReadFromCos.read locked_file = inl permission_denied)
    by reflexivity.
  split; [exact H0|]. split; [exact H1|]. split; [exact H2|].
  split; [exact H3|].
  destruct (unreadable_file_stops_listing cos_environ sample_cos_sdk
              (fun _ => [response_file; locked_file; response_file])
              exact_fnmatch sample_path_div
              [response_file] locked_file [response_file] ["Prompt: Hi"]
              permission_denied Scripts.start H0 H1
              ltac:(vm_compute; reflexivity) H2 H3)
    as (printed & -> & _).
  reflexivity.
Defined.

(** ** More steps of scripts *)

Lemma and_then_from_result {A B} (r : Result A) a (k : A -> Scripts.Script B) p :
  r = inr a -> Scripts.and_then (Scripts.from_result r) k p = k a p.
Proof. by intros ->. Qed.

Lemma and_then_from_result_raised {A B} (r : Result A) e
    (k : A -> Scripts.Script B) p :
  r = inl e ->
  Scripts.and_then (Scripts.from_result r) k p = (inl (Scripts.Uncaught e), p).
Proof. by intros ->. Qed.

(** ** pipelines/chat_invoke.py: failures *)

(** X24.  A chat that fails leaves no file.  When [Credentials] raises,
    the exception is not caught: the script prints nothing.  When the
    model cannot be built, the chat raises, or the response has an empty
    list of choices, the handler prints the error and exits.  In each case
    the status is 1, the files are as they were, and nothing is
    uploaded. *)
Theorem failed_chat_writes_nothing environ sdk disk timestamp isalnum e caught
    (p : Scripts.Proc) :
  chat_fails sdk e caught ->
  exists made,
    Scripts.chat_invoke environ sdk disk timestamp isalnum p
    = (inl (if caught then Scripts.SystemExit 1 else Scripts.Uncaught e),
       Scripts.mkProc
         (Scripts.stdout p
          ++ (if caught then ["✗ Error: " +:+ str_exc e] else []))
         (Scripts.files p) (Scripts.calls p ++ made))
    /\ Scripts.exit_status
         (fst (Scripts.chat_invoke environ sdk disk timestamp isalnum p)) = 1%nat
    /\ made `prefix_of` ["Credentials"; "ModelInference"; "model.chat"].
Proof.
  intros Hfails.
  assert (Hrun : exists made,
    Scripts.chat_invoke environ sdk disk timestamp isalnum p
    = (inl (if caught then Scripts.SystemExit 1 else Scripts.Uncaught e),
       Scripts.mkProc
         (Scripts.stdout p
          ++ (if caught then ["✗ Error: " +:+ str_exc e] else []))
         (Scripts.files p) (Scripts.calls p ++ made))
    /\ made `prefix_of` ["Credentials"; "ModelInference"; "model.chat"]).
  { unfold Scripts.chat_invoke.
    destruct Hfails as [[HC ->]|(HC & -> & Hlater)].
    - exists ["Credentials"]. split; [|by eexists].
      rewrite (and_then_raised _ _ _ _ _ HC). by rewrite app_nil_r.
    - rewrite (and_then_outside _ _ _ _ _ HC).
      destruct Hlater as [HM|[(HM & Hchat)|(HM & response & Hchat & Hcontent)]].
      + exists ["Credentials"; "ModelInference"]. split; [|by eexists].
        erewrite try_except_caught; cycle 1.
        { eapply and_then_raised; eassumption. }
        rewrite and_then_print. unfold Scripts.exit.
        cbn [Scripts.stdout Scripts.files Scripts.calls].
        by rewrite <- !app_assoc.
      + exists ["Credentials"; "ModelInference"; "model.chat"].
        split; [|done].
        erewrite try_except_caught; cycle 1.
        { script_steps. eapply and_then_raised; eassumption. }
        rewrite and_then_print. unfold Scripts.exit.
        cbn [Scripts.stdout Scripts.files Scripts.calls].
        by rewrite <- !app_assoc.
      + exists ["Credentials"; "ModelInference"; "model.chat"].
        split; [|done].
        erewrite try_except_caught; cycle 1.
        { script_steps. eapply and_then_from_result_raised; eassumption. }
        rewrite and_then_print. unfold Scripts.exit.
        cbn [Scripts.stdout Scripts.files Scripts.calls].
        by rewrite <- !app_assoc. }
  destruct Hrun as (made & Hrun & Hmade). exists made.
  split; [exact Hrun|]. split; [|exact Hmade].
  rewrite Hrun. by destruct caught.
Qed.

Lemma failed_chat_writes_nothing_witness :
  chat_fails empty_choices_sdk
    (mkException IndexError "list index out of range") true
  /\ Scripts.files
       (snd (Scripts.chat_invoke sample_environ empty_choices_sdk
               writable_disk "20261104_101500" ascii_isalnum Scripts.start))
     = ∅.
Proof.
  assert (H : chat_fails empty_choices_sdk
                (mkException IndexError "list index out of range") true).
  { right. split; [reflexivity|]. split; [reflexivity|].
    right. right. split; [reflexivity|].
    exists (Scripts.ChoicesResponse []). by split. }
  split; [exact H|].
  destruct (failed_chat_writes_nothing sample_environ empty_choices_sdk
              writable_disk "20261104_101500" ascii_isalnum _ _ Scripts.start
              H)
    as (made & -> & _).
  reflexivity.
Defined.

Ltac upload_leaf :=
  cbn [Scripts.stdout Scripts.files Scripts.calls];
  rewrite <- ?app_assoc; reflexivity.

(** X25.  The upload is optional and never fails the script: it always
    returns and writes no local file.  Unless both [COS_BUCKET] and
    [COS_CONNECTION_ASSET_ID] are set it calls nothing, and it prints its
    two lines only when exactly one of them is set.  With both set its
    last line tells the outcome: the upload succeeded, after the write as
    its last call, or the upload failed, with the error. *)
Theorem upload_is_optional environ sdk (p : Scripts.Proc) :
  let COS_BUCKET := Scripts.truthy (environ !! "COS_BUCKET") in
  let COS_CONNECTION_ASSET_ID :=
    Scripts.truthy (environ !! "COS_CONNECTION_ASSET_ID") in
  exists printed made,
    Scripts.upload environ sdk p
    = (inr tt, Scripts.mkProc (Scripts.stdout p ++ printed) (Scripts.files p)
                              (Scripts.calls p ++ made))
    /\ if COS_BUCKET && COS_CONNECTION_ASSET_ID
       then (last printed = Some "✓ Uploaded to COS successfully!"
             /\ last made = Some "data_connection.write")
            \/ exists e, last printed = Some ("⚠ Upload failed: " +:+ str_exc e)
       else made = []
            /\ printed
               = if COS_BUCKET || COS_CONNECTION_ASSET_ID
                 then ["⚠ COS configuration incomplete. Skipping upload.";
                       "  Required: COS_BUCKET and COS_CONNECTION_ASSET_ID"]
                 else [].
Proof.
  intros B C. unfold Scripts.upload. fold B C.
  destruct (B && C); cbn [negb].
  - destruct p as [out fs cs].
    unfold Scripts.try_except, Scripts.and_then, Scripts.outside, Scripts.print.
    destruct sdk as [? ? ? c1 c2 c3 c4 c5 c6];
      cbn [Scripts.APIClient Scripts.default_project Scripts.relative_to_cwd
           Scripts.DataConnection Scripts.set_client Scripts.connection_write
           Scripts.stdout Scripts.files Scripts.calls].
    destruct c1 as [?|[]];
      [eexists [_], [_]; split; [upload_leaf|right; by eexists]|].
    destruct c2 as [?|[]];
      [eexists [_], [_; _]; split; [upload_leaf|right; by eexists]|].
    destruct c3 as [?|?];
      [eexists [_], [_; _; _]; split; [upload_leaf|right; by eexists]|].
    destruct c4 as [?|[]];
      [eexists [_], [_; _; _; _]; split; [upload_leaf|right; by eexists]|].
    destruct c5 as [?|[]];
      [eexists [_], [_; _; _; _; _]; split; [upload_leaf|right; by eexists]|].
    destruct c6 as [?|[]].
    + eexists [_; _], [_; _; _; _; _; _].
      split; [upload_leaf|right; by eexists].
    + eexists [_; _], [_; _; _; _; _; _].
      split; [upload_leaf|left; by split].
  - destruct (B || C).
    + eexists [_; _], []. split; [|done].
      rewrite and_then_print. unfold Scripts.print.
      cbn [Scripts.stdout Scripts.files Scripts.calls].
      by rewrite <- !app_assoc, app_nil_r.
    + exists [], []. split; [|done]. destruct p. unfold Scripts.pure.
      simpl. by rewrite !app_nil_r.
Qed.

Lemma list_ascii_length (s : string) :
  length (list_ascii_of_string s) = String.length s.
Proof. induction s as [|c s IH]; simpl; [done|by rewrite IH]. Qed.

Lemma string_of_list_length (l : list ascii) :
  String.length (string_of_list_ascii l) = length l.
Proof. induction l as [|c l IH]; simpl; [done|by rewrite IH]. Qed.

Lemma lstrip_length l : (length (Scripts.lstrip l) <= length l)%nat.
Proof.
  induction l as [|c l IH]; simpl; [done|].
  destruct (Scripts.is_space c); simpl; lia.
Qed.

Lemma strip_length l : (length (Scripts.strip l) <= length l)%nat.
Proof.
  unfold Scripts.strip. rewrite length_rev.
  etransitivity; [apply lstrip_length|]. rewrite length_rev.
  apply lstrip_length.
Qed.

(** X26.  The fragment of the prompt in the file name has at most thirty
    characters, whatever the prompt. *)
Theorem prompt_safe_length environ isalnum :
  (String.length (Scripts.prompt_safe environ isalnum) <= 30)%nat.
Proof.
  unfold Scripts.prompt_safe. cbv zeta.
  rewrite string_of_list_length, length_map.
  etransitivity; [apply strip_length|].
  etransitivity; [apply List.filter_length_le|].
  rewrite list_ascii_length. apply length_slice_to_le.
Qed.

(** ** examples/wxai/01_setup_environment.py: the numeric settings *)

Section SetupRuns.

Variable environ : gmap string string.
Variable sdk : Scripts.SetupSDK.
Variable parse_int : string -> Result Z.
Variable parse_float : string -> Result float.
Variable repr_float : float -> string.

Local Abbreviation setup_environment :=
  (Scripts.setup_environment environ sdk parse_int parse_float repr_float).

(** X27.  01_setup_environment.py depends on the SDK for nothing: when its
    two numeric settings are absent or well formed, it runs to its closing
    lines and ends with status 0 whatever the SDK answers, whether or not
    the API key is set, and it writes no file. *)
Theorem setup_survives_the_sdk (p : Scripts.Proc) :
  setting_parses parse_int (environ !! "MAX_NEW_TOKENS") ->
  setting_parses parse_float (environ !! "TEMPERATURE") ->
  exists printed made,
    setup_environment p
    = (inr tt,
       Scripts.mkProc
         (Scripts.stdout p ++ printed
          ++ [nl +:+ "✓ Environment setup complete!"; Scripts.rule])
         (Scripts.files p) (Scripts.calls p ++ made)).
Proof.
  intros Hint Hfloat.
  assert (Hends : ends_with [nl +:+ "✓ Environment setup complete!"; Scripts.rule]
                            setup_environment).
  { unfold Scripts.setup_environment, Scripts.test_connection.
    destruct (environ !! "MAX_NEW_TOKENS") as [s|];
      [destruct Hint as [z ->]|];
      (destruct (environ !! "TEMPERATURE") as [s'|];
       [destruct Hfloat as [x ->]|]); script_structure. }
  destruct (Hends p) as ([] & printed & made & ->). by exists printed, made.
Qed.

(** X28.  A numeric setting that is set and malformed ends the script by
    an exception nothing catches, after the eight lines of the first
    section and before the SDK is called: status 1, and neither the
    configuration nor the closing lines are printed. *)
Theorem malformed_setting_is_uncaught e (p : Scripts.Proc) :
  setting_fails parse_int (environ !! "MAX_NEW_TOKENS") e
  \/ (setting_parses parse_int (environ !! "MAX_NEW_TOKENS")
      /\ setting_fails parse_float (environ !! "TEMPERATURE") e) ->
  exists printed,
    setup_environment p
    = (inl (Scripts.Uncaught e),
       Scripts.mkProc (Scripts.stdout p ++ printed) (Scripts.files p)
                      (Scripts.calls p))
    /\ length printed = 8%nat.
Proof.
  intros Hfails. unfold Scripts.setup_environment. cbv zeta.
  destruct p as [out fs cs]. rewrite 8!and_then_print.
  cbn [Scripts.stdout Scripts.files Scripts.calls].
  eexists [_; _; _; _; _; _; _; _]. split; [|reflexivity].
  destruct Hfails as [Hint|[Hint Hfloat]].
  - destruct (environ !! "MAX_NEW_TOKENS") as [s|]; [|done].
    rewrite (and_then_from_result_raised _ _ _ _ Hint).
    by rewrite <- !app_assoc.
  - assert (Hz : exists z,
              match environ !! "MAX_NEW_TOKENS" with
              | Some s => parse_int s
              | None => inr 512%Z
              end = inr z).
    { destruct (environ !! "MAX_NEW_TOKENS"); [exact Hint|by eexists]. }
    destruct Hz as [z Hz]. rewrite (and_then_from_result _ _ _ _ Hz).
    destruct (environ !! "TEMPERATURE") as [s|]; [|done].
    rewrite (and_then_from_result_raised _ _ _ _ Hfloat).
    by rewrite <- !app_assoc.
Qed.

End SetupRuns.

Lemma setup_survives_the_sdk_witness :
  setting_parses sample_parse_int (tokens_environ !! "MAX_NEW_TOKENS")
  /\ setting_parses sample_parse_float (tokens_environ !! "TEMPERATURE")
  /\ Scripts.exit_status
       (fst (Scripts.setup_environment tokens_environ failing_setup_sdk
               sample_parse_int sample_parse_float sample_repr Scripts.start))
     = 0%nat.
Proof.
  assert (H1 : setting_parses sample_parse_int
                 (tokens_environ !! "MAX_NEW_TOKENS"))
    by (by exists 256%Z).
  assert (H2 : setting_parses sample_parse_float
                 (tokens_environ !! "TEMPERATURE")) by exact I.
  split; [exact H1|]. split; [exact H2|].
  destruct (setup_survives_the_sdk tokens_environ failing_setup_sdk
              sample_parse_int sample_parse_float sample_repr Scripts.start
              H1 H2) as (printed & made & ->).
  reflexivity.
Defined.

Lemma malformed_setting_is_uncaught_witness :
  setting_fails sample_parse_int (malformed_environ !! "MAX_NEW_TOKENS")
    (mkException OtherException "invalid literal for int()")
  /\ Scripts.exit_status
       (fst (Scripts.setup_environment malformed_environ failing_setup_sdk
               sample_parse_int sample_parse_float sample_repr Scripts.start))
     = 1%nat.
Proof.
  assert (H : setting_fails sample_parse_int
                (malformed_environ !! "MAX_NEW_TOKENS")
                (mkException OtherException "invalid literal for int()"))
    by reflexivity.
  split; [exact H|].
  destruct (malformed_setting_is_uncaught malformed_environ failing_setup_sdk
              sample_parse_int sample_parse_float sample_repr _ Scripts.start
              (or_introl H)) as (printed & -> & _).
  reflexivity.
Defined.

(** ** examples/wxai/05_create_vector_index.py: the listing *)

(** X29.  Listing the existing indexes is only informative: when the
    client and the API were initialised, the listing raises and the
    connection id is set, the script prints a warning and goes on to
    create the index, having made each SDK call once. *)
Theorem listing_failure_is_a_warning environ sdk parse_int create_index e
    (p : Scripts.Proc) :
  settings_parse environ parse_int ->
  Scripts.index_APIClient sdk = inr tt ->
  Scripts.index_default_project sdk = inr tt ->
  Scripts.VectorIndexes sdk = inr tt ->
  Scripts.list_indexes sdk = inl e ->
  Scripts.truthy (environ !! "MILVUS_CONNECTION_ID") = true ->
  exists printed,
    Scripts.create_vector_index environ sdk parse_int create_index p
    = create_index
        (Scripts.mkProc
           (Scripts.stdout p ++ printed
            ++ ["‚ö† Could not list existing indexes: " +:+ str_exc e])
           (Scripts.files p)
           (Scripts.calls p
            ++ ["APIClient"; "client.set.default_project"; "VectorIndexes";
                "vector_indexes.list"]))
    /\ length printed = 9%nat.
Proof.
  intros (k & cs & co & Hk & Hcs & Hco) HA HP HV HL Hmilvus.
  unfold Scripts.create_vector_index. cbv zeta.
  rewrite (and_then_from_result _ _ _ _ Hk), (and_then_from_result _ _ _ _ Hcs),
    (and_then_from_result _ _ _ _ Hco).
  destruct p as [out fs cs']. script_steps.
  eexists [_; _; _; _; _; _; _; _; _]. split; [|reflexivity].
  erewrite and_then_returns; cycle 1.
  { erewrite try_except_returns; cycle 1.
    { script_steps. unfold Scripts.print.
      cbn [Scripts.stdout Scripts.files Scripts.calls]. reflexivity. }
    reflexivity. }
  script_steps.
  erewrite and_then_returns; cycle 1.
  { erewrite try_except_returns; cycle 1.
    { script_steps. unfold Scripts.print.
      cbn [Scripts.stdout Scripts.files Scripts.calls]. reflexivity. }
    reflexivity. }
  script_steps.
  erewrite and_then_returns; cycle 1.
  { erewrite try_except_caught; cycle 1.
    { eapply and_then_raised; eassumption. }
    unfold Scripts.print.
    cbn [Scripts.stdout Scripts.files Scripts.calls]. reflexivity. }
  rewrite Hmilvus. cbn [negb].
  erewrite and_then_returns; cycle 1.
  { reflexivity. }
  f_equal. f_equal; rewrite <- !app_assoc; reflexivity.
Qed.

Lemma listing_failure_is_a_warning_witness :
  settings_parse milvus_environ sample_parse_int
  /\ Scripts.index_APIClient no_listing_sdk = inr tt
  /\ Scripts.index_default_project no_listing_sdk = inr tt
  /\ Scripts.VectorIndexes no_listing_sdk = inr tt
  /\ Scripts.list_indexes no_listing_sdk = inl connection_refused
  /\ Scripts.truthy (milvus_environ !! "MILVUS_CONNECTION_ID") = true
  /\ Scripts.calls
       (snd (Scripts.create_vector_index milvus_environ no_listing_sdk
               sample_parse_int (Scripts.outside "vector_indexes.create" (inr tt))
               Scripts.start))
     = ["APIClient"; "client.set.default_project"; "VectorIndexes";
        "vector_indexes.list"; "vector_indexes.create"].
Proof.
  assert (H0 : settings_parse milvus_environ sample_parse_int)
    by (by exists 5%Z, 1000%Z, 200%Z).
  assert (H1 : Scripts.index_APIClient no_listing_sdk = inr tt) by reflexivity.
  assert (H2 : Scripts.index_default_project no_listing_sdk = inr tt)
    by reflexivity.
  assert (H3 : Scripts.VectorIndexes no_listing_sdk = inr tt) by reflexivity.
  assert (H4 : Scripts.list_indexes no_listing_sdk = inl connection_refused)
    by reflexivity.
  assert (H5 : Scripts.truthy (milvus_environ !! "MILVUS_CONNECTION_ID") = true)
    by reflexivity.
  repeat (split; [assumption|]).
  destruct (listing_failure_is_a_warning milvus_environ no_listing_sdk
              sample_parse_int (Scripts.outside "vector_indexes.create" (inr tt))
              _ Scripts.start H0 H1 H2 H3 H4 H5) as (printed & -> & _).
  reflexivity.
Defined.
